(** * Channel-manager bot: a shallow embedding of [src/bot.py]

    The bot keeps a registry of admins, channel catalogues, blocked users and
    joined chats in module-level globals, checkpoints it to a JSON file, and
    drives its menus and data-entry wizards from Telegram updates.  This file
    embeds the registry, the persistence functions and the handlers as
    functions over an explicit world, and proves properties of them.

    Conventions.
    - Python [int] is [Z]; [str] is [string], the bytes of its UTF-8
      encoding.
    - A Python [dict] is an insertion-ordered association list ([dict V]),
      because the handlers depend on the iteration order (removal by index,
      the order of kicks and posts).
    - A Python [set] of ints is a [gset Z].
    - [context.user_data], one dict per user, is a [gmap Z Ctx].
    - Handlers run in the monad [M]: they thread the world, append every
      call to the messaging platform to a trace, and may raise. *)

From Stdlib Require Import ZArith String Ascii List Bool Lia.
From Stdlib Require Import DecimalString DecimalZ DecimalPos.
From stdpp Require Import base option list gmap strings.

Local Open Scope Z_scope.
Local Open Scope string_scope.

(** ** Python builtins on strings and integers *)

Module Py.

(** The whitespace [int] skips around an ASCII literal ([Py_ISSPACE]):
    TAB..CR and SPACE.  The separators FS..US are not among them. *)
Definition is_space (a : ascii) : bool :=
  let n := nat_of_ascii a in
  ((9 <=? n) && (n <=? 13) || (n =? 32))%nat.

Definition digit_val (a : ascii) : option Z :=
  let n := Z.of_nat (nat_of_ascii a) in
  if ((48 <=? n) && (n <=? 57))%Z then Some (n - 48) else None.

Fixpoint lstrip (l : list ascii) : list ascii :=
  match l with
  | [] => []
  | a :: r => if is_space a then lstrip r else l
  end.

Definition strip (l : list ascii) : list ascii :=
  rev (lstrip (rev (lstrip l))).

(** The digit part of an integer literal: decimal digits, with single
    underscores allowed between two digits.  [prev] tells whether the
    previous character was a digit. *)
Fixpoint digits (acc : Z) (prev : bool) (l : list ascii) : option Z :=
  match l with
  | [] => if prev then Some acc else None
  | a :: r =>
      if Ascii.eqb a "_" then (if prev then digits acc false r else None)
      else match digit_val a with
           | Some d => digits (10 * acc + d) true r
           | None => None
           end
  end.

(** An ASCII decimal literal ([PyLong_FromString] in base 10): surrounding
    whitespace is skipped and one sign is allowed. *)
Definition literal (l : list ascii) : option Z :=
  match strip l with
  | a :: r =>
      if Ascii.eqb a "-" then Z.opp <$> digits 0 false r
      else if Ascii.eqb a "+" then digits 0 false r
      else digits 0 false (a :: r)
  | [] => None
  end.

(** A [str] is kept as its UTF-8 encoding.  [decode] gives its code
    points; bytes that are no UTF-8 encoding, which no [str] has, give
    [None]. *)
Definition byte (a : ascii) : Z := Z.of_nat (nat_of_ascii a).

Definition continuation (a : ascii) : option Z :=
  let b := byte a in
  if ((128 <=? b) && (b <? 192))%Z then Some (b - 128) else None.

Fixpoint decode (l : list ascii) : option (list Z) :=
  match l with
  | [] => Some []
  | a0 :: r0 =>
      let b0 := byte a0 in
      if (b0 <? 128)%Z then cons b0 <$> decode r0
      else if ((194 <=? b0) && (b0 <? 224))%Z then
        match r0 with
        | a1 :: r1 =>
            c1 ← continuation a1;
            cons ((b0 - 192) * 64 + c1) <$> decode r1
        | _ => None
        end
      else if ((224 <=? b0) && (b0 <? 240))%Z then
        match r0 with
        | a1 :: a2 :: r2 =>
            c1 ← continuation a1;
            c2 ← continuation a2;
            let cp := (b0 - 224) * 4096 + c1 * 64 + c2 in
            if ((2048 <=? cp) && negb ((55296 <=? cp) && (cp <? 57344)))%Z
            then cons cp <$> decode r2 else None
        | _ => None
        end
      else if ((240 <=? b0) && (b0 <? 245))%Z then
        match r0 with
        | a1 :: a2 :: a3 :: r3 =>
            c1 ← continuation a1;
            c2 ← continuation a2;
            c3 ← continuation a3;
            let cp := (b0 - 240) * 262144 + c1 * 4096 + c2 * 64 + c3 in
            if ((65536 <=? cp) && (cp <? 1114112))%Z
            then cons cp <$> decode r3 else None
        | _ => None
        end
      else None
  end.

(** The whitespace characters above ASCII ([Py_UNICODE_ISSPACE]): NEL,
    NBSP, OGHAM SPACE MARK, EN QUAD..HAIR SPACE, LINE and PARAGRAPH
    SEPARATOR, NARROW NBSP, MEDIUM MATHEMATICAL SPACE, IDEOGRAPHIC SPACE. *)
Definition is_unicode_space (cp : Z) : bool :=
  existsb (Z.eqb cp) [0x85; 0xA0; 0x1680; 0x2028; 0x2029; 0x202F; 0x205F; 0x3000]
  || ((0x2000 <=? cp) && (cp <=? 0x200A))%Z.

(** The digit zero of every run of ten decimal digits above ASCII (general
    category Nd of Unicode 14.0): ARABIC-INDIC, EXTENDED ARABIC-INDIC, NKO,
    DEVANAGARI, BENGALI and so on, up to SEGMENTED DIGIT ZERO. *)
Definition decimal_zeros : list Z :=
  [0x660; 0x6F0; 0x7C0; 0x966; 0x9E6; 0xA66; 0xAE6; 0xB66;
   0xBE6; 0xC66; 0xCE6; 0xD66; 0xDE6; 0xE50; 0xED0; 0xF20;
   0x1040; 0x1090; 0x17E0; 0x1810; 0x1946; 0x19D0; 0x1A80; 0x1A90;
   0x1B50; 0x1BB0; 0x1C40; 0x1C50; 0xA620; 0xA8D0; 0xA900; 0xA9D0;
   0xA9F0; 0xAA50; 0xABF0; 0xFF10; 0x104A0; 0x10D30; 0x11066; 0x110F0;
   0x11136; 0x111D0; 0x112F0; 0x11450; 0x114D0; 0x11650; 0x116C0; 0x11730;
   0x118E0; 0x11950; 0x11C50; 0x11D50; 0x11DA0; 0x16A60; 0x16AC0; 0x16B50;
   0x1D7CE; 0x1D7D8; 0x1D7E2; 0x1D7EC; 0x1D7F6; 0x1E140; 0x1E2F0; 0x1E950;
   0x1FBF0].

(** [Py_UNICODE_TODECIMAL] above ASCII. *)
Definition to_decimal (cp : Z) : option Z :=
  (fun zero => cp - zero)
    <$> find (fun zero => ((zero <=? cp) && (cp <? zero + 10))%Z) decimal_zeros.

(** What [int] makes of one character before it reads the literal
    ([_PyUnicode_TransformDecimalAndSpaceToASCII]): a code point below 127
    is kept, whitespace above it becomes a space and a decimal digit its
    ASCII digit; any other character makes the text no literal. *)
Definition to_ascii (cp : Z) : option ascii :=
  if (cp <? 127)%Z then Some (ascii_of_nat (Z.to_nat cp))
  else if is_unicode_space cp then Some " "%char
  else (fun d => ascii_of_nat (Z.to_nat (48 + d))) <$> to_decimal cp.

(** [len(s)]: the number of characters, that is of the bytes that do not
    continue one. *)
Definition len (s : string) : nat :=
  length (filter (fun a => bool_decide (continuation a = None)) (list_ascii_of_string s)).

Definition transform (s : string) : option (list ascii) :=
  decode (list_ascii_of_string s) ≫= mapM to_ascii.

(** [int(text)]: [Some n] on success, [None] where Python raises
    [ValueError].  The cap on the number of digits that an interpreter
    may set ([sys.set_int_max_str_digits], 4300 where it is on by default)
    is not modelled; it is out of reach of a message text, at most 4096
    characters long, and of callback data, at most 64 bytes long, and the
    statements about what [int] accepts are for such texts. *)
Definition int (s : string) : option Z :=
  transform s ≫= literal.

(** [str(n)] for an int. *)
Definition str (n : Z) : string := NilZero.string_of_int (Z.to_int n).

(** [s.startswith(p)] *)
Definition startswith (s p : string) : bool := String.prefix p s.

(** [sep] occurs in [s]: the text before and after its first occurrence. *)
Fixpoint partition (sep s : string) : option (string * string) :=
  if String.prefix sep s
  then Some ("", substring (String.length sep) (String.length s - String.length sep) s)
  else match s with
       | EmptyString => None
       | String a r =>
           match partition sep r with
           | Some (b, c) => Some (String a b, c)
           | None => None
           end
       end.

(** [s.split(sep)] for a non-empty [sep]; [fuel] bounds the number of
    pieces and [String.length s + 1] always suffices. *)
Fixpoint split_fuel (fuel : nat) (sep s : string) : list string :=
  match fuel with
  | O => [s]
  | S k => match partition sep s with
           | Some (b, c) => b :: split_fuel k sep c
           | None => [s]
           end
  end.

Definition split (sep s : string) : list string :=
  split_fuel (S (String.length s)) sep s.

(** [s.split(sep, 1)] *)
Definition split1 (sep s : string) : list string :=
  match partition sep s with
  | Some (b, c) => [b; c]
  | None => [s]
  end.

(** Truthiness of a string. *)
Definition truthy (s : string) : bool :=
  match s with EmptyString => false | _ => true end.

End Py.

Example int_plain : Py.int "-1001234567890" = Some (-1001234567890).
Proof. reflexivity. Qed.
Example int_spaces : Py.int "  42 " = Some 42.
Proof. reflexivity. Qed.
Example int_underscore : Py.int "1_000" = Some 1000.
Proof. reflexivity. Qed.
Example int_bad : Py.int "abc" = None /\ Py.int "" = None /\ Py.int "1__0" = None
                  /\ Py.int "-" = None /\ Py.int "12_" = None.
Proof. repeat split; reflexivity. Qed.
(** Digits of any script count, whitespace above ASCII is skipped, the
    separators FS..US are not. *)
Example int_unicode :
  Py.int "१२३" = Some 123 /\ Py.int "-٤٢" = Some (-42) /\ Py.int "１_０" = Some 10
  /\ Py.int " 7　" = Some 7 /\ Py.int "12é" = None /\ Py.int "²" = None
  /\ Py.int (String (ascii_of_nat 28) "99") = None.
Proof. repeat split; reflexivity. Qed.
Example len_chars : Py.len "abc" = 3%nat /\ Py.len "१२३" = 3%nat /\ Py.len "" = 0%nat.
Proof. repeat split; reflexivity. Qed.
Example str_neg : Py.str (-1001234567890) = "-1001234567890".
Proof. reflexivity. Qed.
Example split_last : last (Py.split "_" "leave_chat_-1005") = Some "-1005".
Proof. reflexivity. Qed.
Example split1_ex : Py.split1 "_" "ask_add_admin" = ["ask"; "add_admin"].
Proof. reflexivity. Qed.

(** ** Insertion-ordered dictionaries keyed by ints *)

Module Dict.

Definition dict (V : Type) : Type := list (Z * V).

Section Ops.
Context {V : Type}.

Fixpoint get (k : Z) (d : dict V) : option V :=
  match d with
  | [] => None
  | (k', v) :: r => if bool_decide (k' = k) then Some v else get k r
  end.

Definition mem (k : Z) (d : dict V) : bool :=
  match get k d with Some _ => true | None => false end.

(** [d[k] = v]: an existing key keeps its position, a new one goes last. *)
Fixpoint set (k : Z) (v : V) (d : dict V) : dict V :=
  match d with
  | [] => [(k, v)]
  | (k', v') :: r =>
      if bool_decide (k' = k) then (k, v) :: r else (k', v') :: set k v r
  end.

(** [d.pop(k, None)], the dictionary that is left. *)
Fixpoint remove (k : Z) (d : dict V) : dict V :=
  match d with
  | [] => []
  | (k', v') :: r =>
      if bool_decide (k' = k) then r else (k', v') :: remove k r
  end.

Definition keys (d : dict V) : list Z := map fst d.

(** A Python dict never holds a key twice. *)
Definition wf (d : dict V) : Prop := NoDup (keys d).

(** [{key(k): v for k, v in items}], where [key] may raise. *)
Fixpoint rebuild {K : Type} (key : K -> option Z) (items : list (K * V))
    (acc : dict V) : option (dict V) :=
  match items with
  | [] => Some acc
  | (k, v) :: r =>
      match key k with
      | Some z => rebuild key r (set z v acc)
      | None => None
      end
  end.
End Ops.

End Dict.

Abbreviation dict := Dict.dict.

(** ** The data model *)

(** [telegram.ChatMember] statuses. *)
Inductive status :=
  | OWNER | ADMINISTRATOR | MEMBER | RESTRICTED | LEFT | BANNED.

(** [telegram.constants.ChatType] *)
Inductive chat_type := PRIVATE | GROUP | SUPERGROUP | CHANNEL | SENDER.

Record User := {
  user_id : Z;
  full_name : string;
  first_name : string;
  username : option string
}.

Record Chat := {
  chat_id : Z;
  type : chat_type;
  title : option string
}.

(** A [USER_DATA] entry: [{'full_name': ..., 'username': ...}]. *)
Record Profile := {
  p_full_name : string;
  p_username : option string
}.

(** The values stored under ['next_step'] in [context.user_data]. *)
Inductive step :=
  | awaiting_broadcast_message
  | awaiting_post_message
  | awaiting_add_admin_id
  | awaiting_remove_admin_id
  | awaiting_block_user_id
  | awaiting_unblock_user_id
  | awaiting_free_channel_name
  | awaiting_free_channel_link
  | awaiting_free_channel_chat_id
  | awaiting_remove_free_channel_num
  | awaiting_paid_channel_name
  | awaiting_paid_channel_link
  | awaiting_remove_paid_channel_num.

(** One user's [context.user_data]: the three keys the handlers use. *)
Record Ctx := {
  next_step : option step;
  new_channel_name : option string;
  new_channel_link : option string
}.

Definition no_ctx : Ctx :=
  {| next_step := None; new_channel_name := None; new_channel_link := None |}.

(** The module-level globals ("dynamic data"). *)
Record Bot := {
  ADMIN_IDS : list Z;
  FREE_CHANNELS : dict string;
  FREE_CHANNEL_LINKS : dict string;
  PAID_CHANNELS : list string;
  USER_DATA : dict Profile;
  BLOCKED_USER_IDS : gset Z;
  ACTIVE_CHATS : dict (option string)
}.

(** The JSON document in the data file.  Object keys are strings; a key of
    the top-level object may be missing. *)
Record Snapshot := {
  j_ADMIN_IDS : option (list Z);
  j_FREE_CHANNELS : option (list (string * string));
  j_FREE_CHANNEL_LINKS : option (list (string * string));
  j_PAID_CHANNELS : option (list string);
  j_BLOCKED_USER_IDS : option (list Z);
  j_ACTIVE_CHATS : option (list (string * option string))
}.

(** The configuration read from the environment, already parsed. *)
Record Config := {
  OWNER_ID : Z;
  env_ADMIN_IDS : list Z;
  MANDATORY_CHANNEL_ID : Z;
  LOG_CHANNEL_ID : Z;
  env_DATA_FILE : option string;
  data_dir_exists : bool   (* os.path.exists("/data") *)
}.

(** What the file system lets the process do. *)
Record FileSystem := {
  can_makedirs : string -> bool;
  can_open_w : string -> bool
}.

(** ** Outbound calls

    The text and keyboard of every message the handlers send is a literal
    (or an f-string) of the source; a message is identified here by a
    constructor that carries only the values interpolated into it. *)

Inductive message :=
  (* start_command and the root menus *)
  | OwnerMenu
  | AdminMenu
  | MemberMenu (first : string)
  | JoinPrompt (first : string)
  (* help_command *)
  | HelpAdmin
  | HelpMember
  | HelpNonMember
  (* id_command *)
  | YourUserId (uid : Z)
  | ThisChatId (t : chat_type) (cid : Z)
  (* button_handler: answers to the button press *)
  | YouAreBlocked
  | Checking
  | ThanksWelcome
  | NotJoinedYet
  | YourId (uid : Z)
  | LeftChat (cid : Z)
  | LeaveFailed
  | NoLinkForChannel
  | NoLinkFound
  (* button_handler: screens *)
  | AdminPanel (with_back : bool)
  | OwnerPanel
  | Prompt (s : step)
  | ManageFreeChannels
  | ManagePaidChannels
  | ManageUsers
  | ListAdmins (owner : Z) (admins : list Z)
  | ListUsers (users : list (Z * Profile))
  | NoUsersButAdmins
  | NoUsers
  | ListBlocked (uids : list Z)
  | NobodyBlocked
  | BotStats (total admins normal blocked : Z)
  | JoinList (chats : dict (option string))
  | FreeChannelsAdminView (rows : list (string * string))  (* link, title *)
  | PaidChannelsAdminView (entries : list string)
  | ChooseFreeChannel (channels : dict string)
  | ChoosePaidChannel (names : list (option string))
  | JoinNow (link : string)
  | JoinNowPaid (link : string)
  (* track_user_status *)
  | UserBlockedBot (name : string) (handle : option string) (uid : Z)
  (* handle_text_input *)
  | Plain (text : string)
  | BroadcastStarting (n : nat)
  | BroadcastDone (ok failed : nat)
  | PostReport (ok : nat) (failed : list string)
  | AdminAdded (uid : Z)
  | AlreadyAdmin
  | CannotRemoveOwner
  | AdminRemoved (uid : Z)
  | NotAnAdmin
  | CannotBlockAdmin
  | UserBlocked (uid : Z)
  | UserUnblocked (uid : Z)
  | NotInBlockList
  | InvalidUserId
  | NameSetSendLink
  | LinkSetSendChatId
  | ChatIdMustStartWith100
  | FreeChannelAdded (name : string)
  | InfoMissing
  | InvalidChatId
  | FreeChannelRemoved (title : string)
  | InvalidNumber
  | SendANumber
  | SendPaidLink
  | PaidChannelAdded (name : string)
  | PaidEntryRemoved (entry : string).

(** A call to the messaging platform.  [reply_text]/[reply_html] on the
    update's message is [send_message] to the chat the message came from. *)
Inductive call :=
  | get_chat_member (chat uid : Z)
  | ban_chat_member (chat uid : Z)
  | unban_chat_member (chat uid : Z)
  | leave_chat (chat : Z)
  | send_message (chat : Z) (m : message)
  | answer (uid : Z) (m : option message) (show_alert : bool)
  | edit_message_text (uid : Z) (m : message)
  | delete_message (uid : Z).

(** The platform: whether a call is accepted (it raises otherwise) and what
    a membership lookup reports, both as functions of the calls made so
    far. *)
Record Platform := {
  accepts : list call -> call -> bool;
  member_status : list call -> Z -> Z -> status
}.

(** ** The world and the handler monad *)

Record World := {
  bot : Bot;
  user_data : gmap Z Ctx;
  disk : gmap string Snapshot;
  out : list call
}.

Inductive exn :=
  | ValueError | KeyError | TelegramError | OSError | FileNotFoundError.

Inductive result (A : Type) :=
  | Ok (a : A)
  | Raise (e : exn).
Arguments Ok {A} a.
Arguments Raise {A} e.

Definition M (A : Type) : Type := World -> World * result A.

Definition ret {A} (a : A) : M A := fun w => (w, Ok a).

Definition bind {A B} (m : M A) (k : A -> M B) : M B :=
  fun w => match m w with
           | (w', Ok a) => k a w'
           | (w', Raise e) => (w', Raise e)
           end.

Definition raise {A} (e : exn) : M A := fun w => (w, Raise e).

(** [try: m except ...: h e]; a handler re-raises what its [except]
    clauses do not catch. *)
Definition try_catch {A} (m : M A) (h : exn -> M A) : M A :=
  fun w => match m w with
           | (w', Ok a) => (w', Ok a)
           | (w', Raise e) => h e w'
           end.

#[export] Instance M_ret : MRet M := @ret.
#[export] Instance M_bind : MBind M := fun A B k m => bind m k.

Definition get_world : M World := fun w => (w, Ok w).
Definition get_bot : M Bot := fun w => (w, Ok (bot w)).

Definition set_bot (b : Bot) : M unit :=
  fun w => ({| bot := b; user_data := user_data w; disk := disk w; out := out w |}, Ok tt).

(** [context.user_data] of a user; an absent key reads as [None]. *)
Definition ctx_of (w : World) (uid : Z) : Ctx :=
  default no_ctx (user_data w !! uid).

Definition get_ctx (uid : Z) : M Ctx :=
  fun w => (w, Ok (ctx_of w uid)).

Definition set_ctx (uid : Z) (c : Ctx) : M unit :=
  fun w => ({| bot := bot w; user_data := <[uid := c]> (user_data w);
               disk := disk w; out := out w |}, Ok tt).

(** [for x in l: body(x)] *)
Fixpoint for_each {A} (l : list A) (body : A -> M unit) : M unit :=
  match l with
  | [] => mret tt
  | x :: r => body x;; for_each r body
  end.

(** [int(text)], raising [ValueError]. *)
Definition int_or_raise (s : string) : M Z :=
  match Py.int s with
  | Some n => mret n
  | None => raise ValueError
  end.

(** Field updates of the globals. *)
Definition with_ADMIN_IDS (v : list Z) (b : Bot) : Bot :=
  {| ADMIN_IDS := v; FREE_CHANNELS := FREE_CHANNELS b;
     FREE_CHANNEL_LINKS := FREE_CHANNEL_LINKS b; PAID_CHANNELS := PAID_CHANNELS b;
     USER_DATA := USER_DATA b; BLOCKED_USER_IDS := BLOCKED_USER_IDS b;
     ACTIVE_CHATS := ACTIVE_CHATS b |}.
Definition with_FREE_CHANNELS (v : dict string) (b : Bot) : Bot :=
  {| ADMIN_IDS := ADMIN_IDS b; FREE_CHANNELS := v;
     FREE_CHANNEL_LINKS := FREE_CHANNEL_LINKS b; PAID_CHANNELS := PAID_CHANNELS b;
     USER_DATA := USER_DATA b; BLOCKED_USER_IDS := BLOCKED_USER_IDS b;
     ACTIVE_CHATS := ACTIVE_CHATS b |}.
Definition with_FREE_CHANNEL_LINKS (v : dict string) (b : Bot) : Bot :=
  {| ADMIN_IDS := ADMIN_IDS b; FREE_CHANNELS := FREE_CHANNELS b;
     FREE_CHANNEL_LINKS := v; PAID_CHANNELS := PAID_CHANNELS b;
     USER_DATA := USER_DATA b; BLOCKED_USER_IDS := BLOCKED_USER_IDS b;
     ACTIVE_CHATS := ACTIVE_CHATS b |}.
Definition with_PAID_CHANNELS (v : list string) (b : Bot) : Bot :=
  {| ADMIN_IDS := ADMIN_IDS b; FREE_CHANNELS := FREE_CHANNELS b;
     FREE_CHANNEL_LINKS := FREE_CHANNEL_LINKS b; PAID_CHANNELS := v;
     USER_DATA := USER_DATA b; BLOCKED_USER_IDS := BLOCKED_USER_IDS b;
     ACTIVE_CHATS := ACTIVE_CHATS b |}.
Definition with_USER_DATA (v : dict Profile) (b : Bot) : Bot :=
  {| ADMIN_IDS := ADMIN_IDS b; FREE_CHANNELS := FREE_CHANNELS b;
     FREE_CHANNEL_LINKS := FREE_CHANNEL_LINKS b; PAID_CHANNELS := PAID_CHANNELS b;
     USER_DATA := v; BLOCKED_USER_IDS := BLOCKED_USER_IDS b;
     ACTIVE_CHATS := ACTIVE_CHATS b |}.
Definition with_BLOCKED_USER_IDS (v : gset Z) (b : Bot) : Bot :=
  {| ADMIN_IDS := ADMIN_IDS b; FREE_CHANNELS := FREE_CHANNELS b;
     FREE_CHANNEL_LINKS := FREE_CHANNEL_LINKS b; PAID_CHANNELS := PAID_CHANNELS b;
     USER_DATA := USER_DATA b; BLOCKED_USER_IDS := v;
     ACTIVE_CHATS := ACTIVE_CHATS b |}.
Definition with_ACTIVE_CHATS (v : dict (option string)) (b : Bot) : Bot :=
  {| ADMIN_IDS := ADMIN_IDS b; FREE_CHANNELS := FREE_CHANNELS b;
     FREE_CHANNEL_LINKS := FREE_CHANNEL_LINKS b; PAID_CHANNELS := PAID_CHANNELS b;
     USER_DATA := USER_DATA b; BLOCKED_USER_IDS := BLOCKED_USER_IDS b;
     ACTIVE_CHATS := v |}.

Definition modify_bot (f : Bot -> Bot) : M unit :=
  b ← get_bot; set_bot (f b).

(** [os.path.dirname] (posixpath): everything up to the last slash, without
    trailing slashes unless it consists of slashes only. *)
Definition is_slash (a : ascii) : bool := Ascii.eqb a "/".

Fixpoint drop_while (f : ascii -> bool) (l : list ascii) : list ascii :=
  match l with
  | [] => []
  | a :: r => if f a then drop_while f r else l
  end.

Definition os_path_dirname (p : string) : string :=
  let head := rev (drop_while (fun a => negb (is_slash a)) (rev (list_ascii_of_string p))) in
  if forallb is_slash head then string_of_list_ascii head
  else string_of_list_ascii (rev (drop_while is_slash (rev head))).

Example dirname_data : os_path_dirname "/data/bot_data.json" = "/data".
Proof. reflexivity. Qed.
Example dirname_bare : os_path_dirname "bot_data.json" = "".
Proof. reflexivity. Qed.
Example dirname_root : os_path_dirname "/bot_data.json" = "/".
Proof. reflexivity. Qed.

(** ** Inbound updates *)

(** An update that carries a message (a command or a free-text message).
    The message always has a chat; the sender may be missing. *)
Record MessageUpdate := {
  effective_user : option User;
  message_chat : Chat;
  text : string
}.

Definition effective_chat (u : MessageUpdate) : option Chat := Some (message_chat u).

(** A button press ([update.callback_query]). *)
Record CallbackQuery := {
  from_user : User;
  data : string
}.

(** A membership change ([update.chat_member] / [update.my_chat_member]).
    [from_user] is the performer of the change; the member whose status
    changed is [new_chat_member.user].  They are the same user when a member
    joins or leaves on their own, and differ when someone else adds, removes
    or bans the member. *)
Record ChatMemberUpdated := {
  cm_from_user : User;
  cm_member : User;
  cm_chat : Chat;
  old_status : status;
  new_status : status
}.

(** ** Configuration, persistence, permission checks and helpers *)

Section Handlers.

Variable cfg : Config.
Variable P : Platform.
Variable fs : FileSystem.

(** [DATA_FILE = os.environ.get("DATA_FILE") or (...)] *)
Definition DATA_FILE : string :=
  let fallback :=
    if data_dir_exists cfg then "/data/bot_data.json" else "bot_data.json" in
  match env_DATA_FILE cfg with
  | Some p => if Py.truthy p then p else fallback
  | None => fallback
  end.

(** The globals after the module body has run: the dynamic data is empty
    and the owner, when one is configured, is appended to the admin list. *)
Definition module_init : Bot :=
  let admins := env_ADMIN_IDS cfg in
  {| ADMIN_IDS :=
       if negb (bool_decide (OWNER_ID cfg = 0))
          && negb (bool_decide (OWNER_ID cfg ∈ admins))
       then admins ++ [OWNER_ID cfg] else admins;
     FREE_CHANNELS := [];
     FREE_CHANNEL_LINKS := [];
     PAID_CHANNELS := [];
     USER_DATA := [];
     BLOCKED_USER_IDS := ∅;
     ACTIVE_CHATS := [] |}.

(** A call to the platform: it is recorded in the trace, and raises when the
    platform does not accept it. *)
Definition log_call (c : call) (w : World) : World :=
  {| bot := bot w; user_data := user_data w; disk := disk w; out := out w ++ [c] |}.

Definition platform_call (c : call) : M unit :=
  fun w => (log_call c w,
            if accepts P (out w) c then Ok tt else Raise TelegramError).

Definition lookup_member (chat uid : Z) : M status :=
  fun w => (log_call (get_chat_member chat uid) w,
            if accepts P (out w) (get_chat_member chat uid)
            then Ok (member_status P (out w) chat uid)
            else Raise TelegramError).

(** [json.dump]: int keys of a dict become their decimal strings, the set of
    blocked ids is written as a list. *)
Definition dump_dict {V} (d : dict V) : list (string * V) :=
  map (fun kv => (Py.str (fst kv), snd kv)) d.

Definition dump (b : Bot) : Snapshot :=
  {| j_ADMIN_IDS := Some (ADMIN_IDS b);
     j_FREE_CHANNELS := Some (dump_dict (FREE_CHANNELS b));
     j_FREE_CHANNEL_LINKS := Some (dump_dict (FREE_CHANNEL_LINKS b));
     j_PAID_CHANNELS := Some (PAID_CHANNELS b);
     j_BLOCKED_USER_IDS := Some (elements (BLOCKED_USER_IDS b));
     j_ACTIVE_CHATS := Some (dump_dict (ACTIVE_CHATS b)) |}.

(** [os.makedirs(d, exist_ok=True)]; the empty path always raises. *)
Definition os_makedirs (d : string) : M unit :=
  if Py.truthy d && can_makedirs fs d then mret tt else raise OSError.

(** [with open(path, "w") as f: json.dump(data, f)] *)
Definition write_json (path : string) (data : Snapshot) : M unit :=
  fun w => if can_open_w fs path
           then ({| bot := bot w; user_data := user_data w;
                    disk := <[path := data]> (disk w); out := out w |}, Ok tt)
           else (w, Raise OSError).

(** [with open(path, "r") as f: json.load(f)] *)
Definition read_json (path : string) : M Snapshot :=
  fun w => match disk w !! path with
           | Some data => (w, Ok data)
           | None => (w, Raise FileNotFoundError)
           end.

Definition save_data : M unit :=
  try_catch
    (os_makedirs (os_path_dirname DATA_FILE);;
     b ← get_bot;
     write_json DATA_FILE (dump b))
    (fun _ => mret tt).

(** Whether [save_data] gets to write: the directory of the data file can
    be made and the file opened. *)
Definition can_save : bool :=
  Py.truthy (os_path_dirname DATA_FILE)
  && can_makedirs fs (os_path_dirname DATA_FILE)
  && can_open_w fs DATA_FILE.

(** [{int(k): v for k, v in o.items()}] *)
Definition int_keys {V} (o : list (string * V)) : M (dict V) :=
  match Dict.rebuild Py.int o [] with
  | Some d => mret d
  | None => raise ValueError
  end.

(** The assignments of [load_data], in order, from the parsed document. *)
Definition load_from (data : Snapshot) : M unit :=
  modify_bot (fun b => with_ADMIN_IDS (default (ADMIN_IDS b) (j_ADMIN_IDS data)) b);;
  fc ← int_keys (default [] (j_FREE_CHANNELS data));
  modify_bot (with_FREE_CHANNELS fc);;
  fl ← int_keys (default [] (j_FREE_CHANNEL_LINKS data));
  modify_bot (with_FREE_CHANNEL_LINKS fl);;
  modify_bot (with_PAID_CHANNELS (default [] (j_PAID_CHANNELS data)));;
  modify_bot (with_BLOCKED_USER_IDS (list_to_set (default [] (j_BLOCKED_USER_IDS data))));;
  ac ← int_keys (default [] (j_ACTIVE_CHATS data));
  modify_bot (with_ACTIVE_CHATS ac).

Definition load_data : M unit :=
  try_catch
    (data ← read_json DATA_FILE;
     load_from data)
    (fun e => match e with
              | FileNotFoundError => save_data
              | _ => mret tt
              end).

(** A fresh process on a given file system content: the module body runs,
    then [main] calls [load_data]. *)
Definition fresh (d : gmap string Snapshot) : World :=
  {| bot := module_init; user_data := ∅; disk := d; out := [] |}.

Definition boot (d : gmap string Snapshot) : World :=
  fst (load_data (fresh d)).

(** Permission checks. *)
Definition is_owner (uid : Z) : bool := bool_decide (uid = OWNER_ID cfg).
Definition is_admin (b : Bot) (uid : Z) : bool := bool_decide (uid ∈ ADMIN_IDS b).

Inductive role := owner | admin | regular.

(** The classification every handler applies: owner first, then admin
    (the [if is_owner .. elif is_admin .. else] chain of [start_command]). *)
Definition classify (b : Bot) (uid : Z) : role :=
  if is_owner uid then owner
  else if is_admin b uid then admin
  else regular.

Definition member_like (s : status) : bool :=
  match s with
  | OWNER | ADMINISTRATOR | MEMBER => true
  | _ => false
  end.

Definition is_user_member_of_channel (uid : Z) : M bool :=
  b ← get_bot;
  if is_admin b uid then mret true
  else
    try_catch
      (member ← lookup_member (MANDATORY_CHANNEL_ID cfg) uid;
       mret (member_like member))
      (fun _ => mret false).

(** One iteration of the kick loop. *)
Definition kick (uid channel_id : Z) : M unit :=
  try_catch
    (platform_call (ban_chat_member channel_id uid);;
     platform_call (unban_chat_member channel_id uid))
    (fun _ => mret tt).

Definition remove_user_from_free_channels (uid : Z) : M unit :=
  b ← get_bot;
  if is_admin b uid then mret tt
  else for_each (Dict.keys (FREE_CHANNELS b)) (kick uid).


(** ** Membership-change handlers *)

Definition track_bot_status (update : option ChatMemberUpdated) : M unit :=
  match update with
  | None => mret tt
  | Some result =>
      let chat := cm_chat result in
      (match new_status result with
       | MEMBER | ADMINISTRATOR =>
           modify_bot (fun b =>
             with_ACTIVE_CHATS (Dict.set (chat_id chat) (title chat) (ACTIVE_CHATS b)) b)
       | LEFT | BANNED =>
           modify_bot (fun b =>
             with_ACTIVE_CHATS (Dict.remove (chat_id chat) (ACTIVE_CHATS b)) b)
       | _ => mret tt
       end);;
      save_data
  end.

Definition track_user_status (update : option ChatMemberUpdated) : M unit :=
  match update with
  | None => mret tt
  | Some result =>
      let user := cm_from_user result in
      b ← get_bot;
      if is_admin b (user_id user) then mret tt
      else
        let was_member := member_like (old_status result) in
        let is_now_kicked_or_left :=
          match new_status result with LEFT | BANNED => true | _ => false end in
        if was_member && is_now_kicked_or_left then
          if bool_decide (chat_id (cm_chat result) = MANDATORY_CHANNEL_ID cfg) then
            remove_user_from_free_channels (user_id user)
          else
            match type (cm_chat result) with
            | PRIVATE =>
                let user_info :=
                  default {| p_full_name := full_name user; p_username := username user |}
                          (Dict.get (user_id user) (USER_DATA b)) in
                modify_bot (fun b => with_USER_DATA (Dict.remove (user_id user) (USER_DATA b)) b);;
                try_catch
                  (platform_call
                     (send_message (LOG_CHANNEL_ID cfg)
                        (UserBlockedBot (p_full_name user_info)
                           (match p_username user_info with
                            | Some h => if Py.truthy h then Some h else None
                            | None => None
                            end)
                           (user_id user))))
                  (fun _ => mret tt);;
                remove_user_from_free_channels (user_id user)
            | _ => mret tt
            end
        else mret tt
  end.

(** ** Commands *)

Definition reply (update : MessageUpdate) (m : message) : M unit :=
  platform_call (send_message (chat_id (message_chat update)) m).

Definition start_command (update : MessageUpdate) : M unit :=
  match effective_user update with
  | None => mret tt
  | Some user =>
      let uid := user_id user in
      b ← get_bot;
      if bool_decide (uid ∈ BLOCKED_USER_IDS b) then mret tt
      else
        modify_bot (fun b =>
          with_USER_DATA
            (Dict.set uid {| p_full_name := full_name user; p_username := username user |}
                      (USER_DATA b)) b);;
        b ← get_bot;
        if is_owner uid then reply update OwnerMenu
        else if is_admin b uid then reply update AdminMenu
        else
          is_member ← is_user_member_of_channel uid;
          if is_member : bool then reply update (MemberMenu (first_name user))
          else
            b ← get_bot;
            (if Dict.mem uid (USER_DATA b)
             then remove_user_from_free_channels uid
             else mret tt);;
            reply update (JoinPrompt (first_name user))
  end.

Definition help_command (update : MessageUpdate) : M unit :=
  match effective_user update with
  | None => mret tt
  | Some user =>
      let uid := user_id user in
      b ← get_bot;
      if bool_decide (uid ∈ BLOCKED_USER_IDS b) then mret tt
      else
        help_text ←
          (if is_admin b uid then mret HelpAdmin
           else
             is_member ← is_user_member_of_channel uid;
             mret (if is_member : bool then HelpMember else HelpNonMember));
        reply update help_text
  end.

Definition id_command (update : MessageUpdate) : M unit :=
  match effective_user update, effective_chat update with
  | Some user, Some chat =>
      reply update
        (match type chat with
         | PRIVATE => YourUserId (user_id user)
         | t => ThisChatId t (chat_id chat)
         end)
  | _, _ => mret tt
  end.


(** ** Button presses *)

(** The [prompts] table of the [ask_*] actions: the step each one arms.
    (The prompt text and the back button are determined by the step.) *)
Definition prompts (action : string) : option step :=
  if String.eqb action "broadcast_msg" then Some awaiting_broadcast_message
  else if String.eqb action "post_msg" then Some awaiting_post_message
  else if String.eqb action "add_admin" then Some awaiting_add_admin_id
  else if String.eqb action "remove_admin" then Some awaiting_remove_admin_id
  else if String.eqb action "block_user" then Some awaiting_block_user_id
  else if String.eqb action "unblock_user" then Some awaiting_unblock_user_id
  else if String.eqb action "add_free_channel_name" then Some awaiting_free_channel_name
  else if String.eqb action "remove_free_channel" then Some awaiting_remove_free_channel_num
  else if String.eqb action "add_paid_channel_name" then Some awaiting_paid_channel_name
  else if String.eqb action "remove_paid_channel" then Some awaiting_remove_paid_channel_num
  else None.

(** [int(query.data.split('_')[-1])] *)
Definition int_of_last_field (d : string) : M Z :=
  int_or_raise (default "" (last (Py.split "_" d))).

(** [entry.split('<code>')[1].split('</code>')[0]], [None] on [IndexError]. *)
Definition paid_name (entry : string) : option string :=
  match Py.split "<code>" entry with
  | _ :: x :: _ => Some (hd x (Py.split "</code>" x))
  | _ => None
  end.

(** [html_entry.split("href='")[1].split("'")[0]], [None] on [IndexError]. *)
Definition paid_link (html_entry : string) : option string :=
  match Py.split "href='" html_entry with
  | _ :: x :: _ => Some (hd x (Py.split "'" x))
  | _ => None
  end.

Definition set_next_step (uid : Z) (s : option step) : M unit :=
  c ← get_ctx uid;
  set_ctx uid {| next_step := s; new_channel_name := new_channel_name c;
                 new_channel_link := new_channel_link c |}.

Definition button_handler (query : CallbackQuery) : M unit :=
  let uid := user_id (from_user query) in
  let d := data query in
  let edit := fun m => platform_call (edit_message_text uid m) in
  b ← get_bot;
  if bool_decide (uid ∈ BLOCKED_USER_IDS b) then
    platform_call (answer uid (Some YouAreBlocked) true)
  else if String.eqb d "verify_join" then
    platform_call (answer uid (Some Checking) false);;
    is_member ← is_user_member_of_channel uid;
    if is_member : bool then
      platform_call (answer uid (Some ThanksWelcome) false);;
      edit (MemberMenu (first_name (from_user query)))
    else platform_call (answer uid (Some NotJoinedYet) true)
  else if String.eqb d "get_my_id" then
    platform_call (answer uid (Some (YourId uid)) true)
  else if Py.startswith d "leave_chat_" then
    if negb (is_owner uid) then mret tt
    else
      chat_id_to_leave ← int_of_last_field d;
      try_catch
        (platform_call (leave_chat chat_id_to_leave);;
         platform_call (answer uid (Some (LeftChat chat_id_to_leave)) false);;
         b ← get_bot;
         (if Dict.mem chat_id_to_leave (ACTIVE_CHATS b) then
            modify_bot (with_ACTIVE_CHATS (Dict.remove chat_id_to_leave (ACTIVE_CHATS b)));;
            save_data
          else mret tt);;
         b ← get_bot;
         edit (JoinList (ACTIVE_CHATS b)))
        (fun _ => platform_call (answer uid (Some LeaveFailed) true))
  else
    platform_call (answer uid None false);;
    b ← get_bot;
    if String.eqb d "start_member" then
      edit (MemberMenu (first_name (from_user query)))
    else if String.eqb d "main_menu_owner" then edit OwnerMenu
    else if String.eqb d "admin_panel" then
      if negb (is_admin b uid) then mret tt else edit (AdminPanel (is_owner uid))
    else if String.eqb d "owner_panel" then
      if negb (is_owner uid) then mret tt else edit OwnerPanel
    else if Py.startswith d "ask_" then
      if negb (is_admin b uid) then mret tt
      else
        match prompts (default "" (Py.split1 "_" d !! 1%nat)) with
        | Some state => set_next_step uid (Some state);; edit (Prompt state)
        | None => mret tt
        end
    else if String.eqb d "manage_free_channels" then
      if negb (is_admin b uid) then mret tt else edit ManageFreeChannels
    else if String.eqb d "manage_paid_channels" then
      if negb (is_admin b uid) then mret tt else edit ManagePaidChannels
    else if String.eqb d "manage_users" then
      if negb (is_owner uid) then mret tt else edit ManageUsers
    else if String.eqb d "list_admins" then
      if negb (is_owner uid) then mret tt
      else edit (ListAdmins (OWNER_ID cfg) (ADMIN_IDS b))
    else if String.eqb d "list_users" then
      if negb (is_owner uid) then mret tt
      else
        match USER_DATA b with
        | [] => edit NoUsers
        | _ =>
            match filter (fun kv => fst kv ∉ ADMIN_IDS b) (USER_DATA b) with
            | [] => edit NoUsersButAdmins
            | user_list => edit (ListUsers user_list)
            end
        end
    else if String.eqb d "list_blocked_users" then
      if negb (is_owner uid) then mret tt
      else if bool_decide (BLOCKED_USER_IDS b = ∅) then edit NobodyBlocked
      else edit (ListBlocked (elements (BLOCKED_USER_IDS b)))
    else if String.eqb d "bot_stats" then
      if negb (is_owner uid) then mret tt
      else
        let total_users := Z.of_nat (length (USER_DATA b)) in
        let admin_count := Z.of_nat (length (ADMIN_IDS b)) in
        let blocked_count := Z.of_nat (size (BLOCKED_USER_IDS b)) in
        edit (BotStats total_users admin_count (total_users - admin_count) blocked_count)
    else if String.eqb d "join_list" then
      if negb (is_owner uid) then mret tt else edit (JoinList (ACTIVE_CHATS b))
    else if String.eqb d "list_free_channels_admin" then
      if negb (is_admin b uid) then mret tt
      else
        edit (FreeChannelsAdminView
                (map (fun kv => (default "" (Dict.get (fst kv) (FREE_CHANNEL_LINKS b)), snd kv))
                     (FREE_CHANNELS b)))
    else if String.eqb d "list_paid_channels_admin" then
      if negb (is_admin b uid) then mret tt
      else edit (PaidChannelsAdminView (PAID_CHANNELS b))
    else if String.eqb d "show_free_channels" then
      edit (ChooseFreeChannel (FREE_CHANNELS b))
    else if String.eqb d "show_paid_channels" then
      edit (ChoosePaidChannel (map paid_name (PAID_CHANNELS b)))
    else if Py.startswith d "join_" then
      platform_call (delete_message uid);;
      if Py.startswith d "join_free_" then
        chat_id ← int_of_last_field d;
        match Dict.get chat_id (FREE_CHANNEL_LINKS b) with
        | Some link =>
            if Py.truthy link then platform_call (send_message uid (JoinNow link))
            else platform_call (answer uid (Some NoLinkForChannel) true)
        | None => platform_call (answer uid (Some NoLinkForChannel) true)
        end
      else if Py.startswith d "join_paid_" then
        index ← int_of_last_field d;
        if (0 <=? index)%Z then
          match PAID_CHANNELS b !! Z.to_nat index with
          | Some html_entry =>
              match paid_link html_entry with
              | Some link => platform_call (send_message uid (JoinNowPaid link))
              | None => platform_call (answer uid (Some NoLinkFound) true)
              end
          | None => mret tt
          end
        else mret tt
      else mret tt
    else mret tt.


(** ** Free-text input: the wizards *)

(** [l.remove(x)]: the first occurrence goes. *)
Fixpoint list_remove_first (x : Z) (l : list Z) : list Z :=
  match l with
  | [] => []
  | y :: r => if bool_decide (y = x) then r else y :: list_remove_first x r
  end.

(** The broadcast loop: one send per user, counting successes and failures. *)
Fixpoint broadcast_loop (users : list Z) (m : message) (success failed : nat)
    : M (nat * nat) :=
  match users with
  | [] => mret (success, failed)
  | u_id :: r =>
      sent ← try_catch (platform_call (send_message u_id m);; mret true)
                       (fun _ => mret false);
      if sent : bool then broadcast_loop r m (S success) failed
      else broadcast_loop r m success (S failed)
  end.

(** The post loop: one send per free channel, collecting the failed ids. *)
Fixpoint post_loop (channels : list Z) (m : message) (successful : nat)
    (failed : list string) : M (nat * list string) :=
  match channels with
  | [] => mret (successful, failed)
  | channel_id :: r =>
      sent ← try_catch (platform_call (send_message channel_id m);; mret true)
                       (fun _ => mret false);
      if sent : bool then post_loop r m (S successful) failed
      else post_loop r m successful (failed ++ [Py.str channel_id])
  end.

(** [f"<a href='{link}'>💎<code>{name}</code></a> - प्रीमियम कंटेंट के लिए।"] *)
Definition html_entry (link name : string) : string :=
  "<a href='" ++ link ++ "'>💎<code>" ++ name
    ++ "</code></a> - प्रीमियम कंटेंट के लिए।".

Definition except_ValueError (h : M unit) (e : exn) : M unit :=
  match e with
  | ValueError => h
  | _ => raise e
  end.

(** The four owner-only wizards on a user id. *)
Definition manage_ids (update : MessageUpdate) (uid : Z) (state : step) : M unit :=
  if negb (is_owner uid) then mret tt
  else
    try_catch
      (target_id ← int_or_raise (text update);
       b ← get_bot;
       (match state with
        | awaiting_add_admin_id =>
            if bool_decide (target_id ∉ ADMIN_IDS b) then
              modify_bot (with_ADMIN_IDS (ADMIN_IDS b ++ [target_id]));;
              reply update (AdminAdded target_id)
            else reply update AlreadyAdmin
        | awaiting_remove_admin_id =>
            if bool_decide (target_id = OWNER_ID cfg) then reply update CannotRemoveOwner
            else if bool_decide (target_id ∈ ADMIN_IDS b) then
              modify_bot (with_ADMIN_IDS (list_remove_first target_id (ADMIN_IDS b)));;
              reply update (AdminRemoved target_id)
            else reply update NotAnAdmin
        | awaiting_block_user_id =>
            if bool_decide (target_id = OWNER_ID cfg) || bool_decide (target_id ∈ ADMIN_IDS b)
            then reply update CannotBlockAdmin
            else
              modify_bot (with_BLOCKED_USER_IDS ({[target_id]} ∪ BLOCKED_USER_IDS b));;
              reply update (UserBlocked target_id)
        | awaiting_unblock_user_id =>
            if bool_decide (target_id ∈ BLOCKED_USER_IDS b) then
              modify_bot (with_BLOCKED_USER_IDS (BLOCKED_USER_IDS b ∖ {[target_id]}));;
              reply update (UserUnblocked target_id)
            else reply update NotInBlockList
        | _ => mret tt
        end);;
       save_data)
      (except_ValueError (reply update InvalidUserId)).

Definition handle_text_input (update : MessageUpdate) : M unit :=
  match effective_user update with
  | None => mret tt
  | Some user =>
      let uid := user_id user in
      b ← get_bot;
      c ← get_ctx uid;
      if negb (is_admin b uid) then mret tt
      else
        match next_step c with
        | None => mret tt
        | Some state =>
            set_next_step uid None;;
            let text := text update in
            match state with
            | awaiting_broadcast_message =>
                let active_users :=
                  filter (fun u => (u ∉ ADMIN_IDS b) ∧ (u ∉ BLOCKED_USER_IDS b))
                         (Dict.keys (USER_DATA b)) in
                reply update (BroadcastStarting (length active_users));;
                counts ← broadcast_loop active_users (Plain text) 0 0;
                reply update (BroadcastDone (fst counts) (snd counts))
            | awaiting_post_message =>
                posts ← post_loop (Dict.keys (FREE_CHANNELS b)) (Plain text) 0 [];
                reply update (PostReport (fst posts) (snd posts))
            | awaiting_add_admin_id | awaiting_remove_admin_id
            | awaiting_block_user_id | awaiting_unblock_user_id =>
                manage_ids update uid state
            | awaiting_free_channel_name =>
                c ← get_ctx uid;
                set_ctx uid {| next_step := Some awaiting_free_channel_link;
                               new_channel_name := Some text;
                               new_channel_link := new_channel_link c |};;
                reply update NameSetSendLink
            | awaiting_free_channel_link =>
                c ← get_ctx uid;
                set_ctx uid {| next_step := Some awaiting_free_channel_chat_id;
                               new_channel_name := new_channel_name c;
                               new_channel_link := Some text |};;
                reply update LinkSetSendChatId
            | awaiting_free_channel_chat_id =>
                c ← get_ctx uid;
                let name := new_channel_name c in
                let link := new_channel_link c in
                set_ctx uid {| next_step := next_step c;
                               new_channel_name := None;
                               new_channel_link := None |};;
                try_catch
                  (chat_id ← int_or_raise text;
                   if negb (Py.startswith (Py.str chat_id) "-100") then
                     reply update ChatIdMustStartWith100
                   else
                     match name, link with
                     | Some name, Some link =>
                         if Py.truthy name && Py.truthy link then
                           modify_bot (fun b =>
                             with_FREE_CHANNELS (Dict.set chat_id name (FREE_CHANNELS b)) b);;
                           modify_bot (fun b =>
                             with_FREE_CHANNEL_LINKS
                               (Dict.set chat_id link (FREE_CHANNEL_LINKS b)) b);;
                           save_data;;
                           reply update (FreeChannelAdded name)
                         else reply update InfoMissing
                     | _, _ => reply update InfoMissing
                     end)
                  (except_ValueError (reply update InvalidChatId))
            | awaiting_remove_free_channel_num =>
                try_catch
                  (n ← int_or_raise text;
                   let index_to_remove := n - 1 in
                   let channel_ids := Dict.keys (FREE_CHANNELS b) in
                   match (if (0 <=? index_to_remove)%Z
                          then channel_ids !! Z.to_nat index_to_remove else None) with
                   | Some removed_channel_id =>
                       removed_channel_title ←
                         match Dict.get removed_channel_id (FREE_CHANNELS b) with
                         | Some t => mret t
                         | None => raise KeyError
                         end;
                       modify_bot (fun b =>
                         with_FREE_CHANNELS (Dict.remove removed_channel_id (FREE_CHANNELS b)) b);;
                       modify_bot (fun b =>
                         with_FREE_CHANNEL_LINKS
                           (Dict.remove removed_channel_id (FREE_CHANNEL_LINKS b)) b);;
                       save_data;;
                       reply update (FreeChannelRemoved removed_channel_title)
                   | None => reply update InvalidNumber
                   end)
                  (except_ValueError (reply update SendANumber))
            | awaiting_paid_channel_name =>
                c ← get_ctx uid;
                set_ctx uid {| next_step := Some awaiting_paid_channel_link;
                               new_channel_name := Some text;
                               new_channel_link := new_channel_link c |};;
                reply update SendPaidLink
            | awaiting_paid_channel_link =>
                c ← get_ctx uid;
                let name := default "N/A" (new_channel_name c) in
                set_ctx uid {| next_step := next_step c;
                               new_channel_name := None;
                               new_channel_link := new_channel_link c |};;
                let link := text in
                modify_bot (fun b =>
                  with_PAID_CHANNELS (PAID_CHANNELS b ++ [html_entry link name]) b);;
                save_data;;
                reply update (PaidChannelAdded name)
            | awaiting_remove_paid_channel_num =>
                try_catch
                  (n ← int_or_raise text;
                   let index_to_remove := n - 1 in
                   match (if (0 <=? index_to_remove)%Z
                          then PAID_CHANNELS b !! Z.to_nat index_to_remove else None) with
                   | Some removed_entry =>
                       modify_bot (fun b =>
                         with_PAID_CHANNELS
                           (delete (Z.to_nat index_to_remove) (PAID_CHANNELS b)) b);;
                       save_data;;
                       reply update (PaidEntryRemoved removed_entry)
                   | None => reply update InvalidNumber
                   end)
                  (except_ValueError (reply update SendANumber))
            end
        end
  end.

End Handlers.

Arguments is_owner cfg uid /.
Arguments is_admin b uid /.

(** ** The dispatcher *)

(** The updates [main] registers a handler for (lines 671-678): the
    commands [start], [help] and [id], a callback query, a text message
    that is no command, and the two kinds of membership update. *)
Inductive update :=
  | StartCommand (u : MessageUpdate)
  | HelpCommand (u : MessageUpdate)
  | IdCommand (u : MessageUpdate)
  | ButtonPress (q : CallbackQuery)
  | TextMessage (u : MessageUpdate)
  | ChatMemberChange (r : ChatMemberUpdated)
  | MyChatMemberChange (r : ChatMemberUpdated).

(** The handler each update goes to. *)
Definition dispatch (cfg : Config) (P : Platform) (fs : FileSystem) (e : update) : M unit :=
  match e with
  | StartCommand u => start_command cfg P u
  | HelpCommand u => help_command cfg P u
  | IdCommand u => id_command P u
  | ButtonPress q => button_handler cfg P fs q
  | TextMessage u => handle_text_input cfg P fs u
  | ChatMemberChange r => track_user_status cfg P (Some r)
  | MyChatMemberChange r => track_bot_status cfg fs (Some r)
  end.

(** The user an update comes from ([update.effective_user]); the
    framework hands the handler that user's [context.user_data]. *)
Definition sender (e : update) : option Z :=
  match e with
  | StartCommand u | HelpCommand u | IdCommand u | TextMessage u =>
      user_id <$> effective_user u
  | ButtonPress q => Some (user_id (from_user q))
  | ChatMemberChange r | MyChatMemberChange r => Some (user_id (cm_from_user r))
  end.

(** The callback data of the buttons the channel lists are made of:
    [f'join_free_{chat_id}'] and [f'join_paid_{i}'], [i] being the position
    of the entry in [enumerate(PAID_CHANNELS)]. *)
Definition join_free_data (chat_id : Z) : string := "join_free_" +:+ Py.str chat_id.
Definition join_paid_data (i : nat) : string := "join_paid_" +:+ Py.str (Z.of_nat i).

(** ** Vocabulary of the statements *)

(** The world with more calls on its trace and nothing else changed. *)
Definition extend (w : World) (tr : list call) : World :=
  {| bot := bot w; user_data := user_data w; disk := disk w; out := out w ++ tr |}.

Definition is_ban (c : call) : bool :=
  match c with ban_chat_member _ _ => true | _ => false end.

(** The calls the kick loop makes for a list of channels, given the calls
    made before it: in every channel a ban, followed at once by an unban
    when the ban was accepted; what happens in one channel does not depend
    on the outcome in another. *)
Inductive kick_trace (P : Platform) (uid : Z)
    : list call -> list Z -> list call -> Prop :=
  | kick_done h : kick_trace P uid h [] []
  | kick_refused h c cs tr :
      accepts P h (ban_chat_member c uid) = false ->
      kick_trace P uid (h ++ [ban_chat_member c uid]) cs tr ->
      kick_trace P uid h (c :: cs) (ban_chat_member c uid :: tr)
  | kick_banned h c cs tr :
      accepts P h (ban_chat_member c uid) = true ->
      kick_trace P uid (h ++ [ban_chat_member c uid; unban_chat_member c uid]) cs tr ->
      kick_trace P uid h (c :: cs)
        (ban_chat_member c uid :: unban_chat_member c uid :: tr).

(** [m] keeps the property [J] of the globals, however it ends. *)
Definition keeps {A} (J : Bot -> Prop) (m : M A) : Prop :=
  forall w, J (bot w) -> J (bot (fst (m w))).

(** The decimal digits of a [Decimal.uint], as characters. *)
Definition chars (d : Decimal.uint) : list ascii :=
  list_ascii_of_string (NilEmpty.string_of_uint d).

(** A character that is no whitespace for [int]. *)
Definition plain (a : ascii) : Prop := Py.is_space a = false.

(** A character [int] keeps as it is: a code point below 127. *)
Definition low (a : ascii) : Prop := Py.byte a < 127.

(** The owner is in the admin list. *)
Definition owner_is_admin (cfg : Config) (b : Bot) : Prop := OWNER_ID cfg ∈ ADMIN_IDS b.

(** The world after a successful [save_data]. *)
Definition stored (cfg : Config) (w : World) : World :=
  {| bot := bot w; user_data := user_data w;
     disk := <[DATA_FILE cfg := dump (bot w)]> (disk w); out := out w |}.

(** [USER_DATA[user.id] = {...}], the first thing [start_command] does for a
    sender who is not blocked. *)
Definition upsert (user : User) (w : World) : World :=
  {| bot := with_USER_DATA
              (Dict.set (user_id user)
                 {| p_full_name := full_name user; p_username := username user |}
                 (USER_DATA (bot w)))
              (bot w);
     user_data := user_data w; disk := disk w; out := out w |}.

(** The world once the sender's pending step has been taken
    ([context.user_data.pop('next_step')]). *)
Definition consumed (uid : Z) (w : World) : World := fst (set_next_step uid None w).

(** The four steps of the owner-only wizards on a user id. *)
Definition id_step (s : step) : bool :=
  match s with
  | awaiting_add_admin_id | awaiting_remove_admin_id
  | awaiting_block_user_id | awaiting_unblock_user_id => true
  | _ => false
  end.

(** The world with the sender's pending step set to [s]
    ([context.user_data['next_step'] = s]). *)
Definition armed (uid : Z) (s : step) (w : World) : World :=
  fst (set_next_step uid (Some s) w).

(** The link mapping lists the same channel ids as the catalogue, in the
    same order. *)
Definition same_keys (b : Bot) : Prop :=
  Dict.keys (FREE_CHANNELS b) = Dict.keys (FREE_CHANNEL_LINKS b).

(** [m] keeps the property [K] of the globals and the users' contexts,
    however it ends. *)
Definition holds {A} (K : Bot -> gmap Z Ctx -> Prop) (m : M A) : Prop :=
  forall w, K (bot w) (user_data w) -> K (bot (fst (m w))) (user_data (fst (m w))).

(** The context of [other] is the one given. *)
Definition ctx_is (other : Z) (c : option Ctx) : Bot -> gmap Z Ctx -> Prop :=
  fun _ ud => ud !! other = c.

(** The part of the globals only admins manage, and the contexts. *)
Definition registry_is (a : list Z) (f l : dict string) (p : list string) (s : gset Z)
    (ud0 : gmap Z Ctx) : Bot -> gmap Z Ctx -> Prop :=
  fun b ud =>
    ADMIN_IDS b = a /\ FREE_CHANNELS b = f /\ FREE_CHANNEL_LINKS b = l
    /\ PAID_CHANNELS b = p /\ BLOCKED_USER_IDS b = s /\ ud = ud0.

(** The admin list and the block list are the ones given. *)
Definition roles_are (a : list Z) (s : gset Z) : Bot -> gmap Z Ctx -> Prop :=
  fun b _ => ADMIN_IDS b = a /\ BLOCKED_USER_IDS b = s.

(** The user a call removes from a channel or lets back in. *)
Definition kicked (c : call) : option Z :=
  match c with
  | ban_chat_member _ uid | unban_chat_member _ uid => Some uid
  | _ => None
  end.

(** The world with the user directory entry of [uid] evicted. *)
Definition evicted (uid : Z) (w : World) : World :=
  {| bot := with_USER_DATA (Dict.remove uid (USER_DATA (bot w))) (bot w);
     user_data := user_data w; disk := disk w; out := out w |}.

(** The world with the active-chat registry replaced. *)
Definition with_chats (chats : dict (option string)) (w : World) : World :=
  {| bot := with_ACTIVE_CHATS chats (bot w);
     user_data := user_data w; disk := disk w; out := out w |}.

(** [m] leaves the view [g] of the file system as it is, however it ends. *)
Definition disk_stable {X A} (g : gmap string Snapshot -> X) (m : M A) : Prop :=
  forall w, g (disk (fst (m w))) = g (disk w).

(** The world with the admin list replaced. *)
Definition with_admins (a : list Z) (w : World) : World :=
  {| bot := with_ADMIN_IDS a (bot w);
     user_data := user_data w; disk := disk w; out := out w |}.

(** [c] occurs in [s]. *)
Fixpoint has_char (c : ascii) (s : string) : bool :=
  match s with
  | EmptyString => false
  | String a r => Ascii.eqb a c || has_char c r
  end.

(** [s.endswith(suf)] *)
Fixpoint endswith (s suf : string) : bool :=
  String.eqb s suf
  || match s with
     | EmptyString => false
     | String _ r => endswith r suf
     end.

(** The text before the first occurrence of [sep], or all of [s]: the first
    piece of [s.split(sep)]. *)
Definition first_piece (sep s : string) : string :=
  match Py.partition sep s with
  | Some (b, _) => b
  | None => s
  end.

(** ** A sample deployment *)

Module Sample.

Definition cfg : Config :=
  {| OWNER_ID := 7; env_ADMIN_IDS := [5]; MANDATORY_CHANNEL_ID := -1001;
     LOG_CHANNEL_ID := -1002; env_DATA_FILE := None; data_dir_exists := true |}.

(** The same deployment with nothing configured but the token. *)
Definition cfg_unset : Config :=
  {| OWNER_ID := 0; env_ADMIN_IDS := []; MANDATORY_CHANNEL_ID := 0;
     LOG_CHANNEL_ID := 0; env_DATA_FILE := None; data_dir_exists := true |}.

(** The same deployment after the owner id was changed to 9. *)
Definition cfg_new_owner : Config :=
  {| OWNER_ID := 9; env_ADMIN_IDS := []; MANDATORY_CHANNEL_ID := -1001;
     LOG_CHANNEL_ID := -1002; env_DATA_FILE := None; data_dir_exists := true |}.

Definition fs : FileSystem :=
  {| can_makedirs := fun _ => true; can_open_w := fun _ => true |}.

(** A platform that accepts every call and knows nobody as a member. *)
Definition P : Platform :=
  {| accepts := fun _ _ => true; member_status := fun _ _ _ => LEFT |}.

(** A platform that refuses every ban in channel [-1001]. *)
Definition P_refusing : Platform :=
  {| accepts := fun _ c =>
       match c with
       | ban_chat_member chat _ => negb (bool_decide (chat = -1001))
       | _ => true
       end;
     member_status := fun _ _ _ => LEFT |}.

Definition the_owner : User :=
  {| user_id := 7; full_name := "Asha Rao"; first_name := "Asha"; username := Some "asha" |}.
Definition visitor : User :=
  {| user_id := 42; full_name := "Ravi K"; first_name := "Ravi"; username := None |}.
Definition troll : User :=
  {| user_id := 13; full_name := "T Roll"; first_name := "T"; username := None |}.

Definition newcomer : User :=
  {| user_id := 99; full_name := "Meera S"; first_name := "Meera"; username := None |}.

(** A message sent by [u] in the private chat with the bot. *)
Definition says (u : User) (t : string) : MessageUpdate :=
  {| effective_user := Some u;
     message_chat := {| chat_id := user_id u; type := PRIVATE; title := None |};
     text := t |}.

Definition presses (u : User) (d : string) : CallbackQuery :=
  {| from_user := u; data := d |}.

Definition after {A} (m : M A) (w : World) : World := fst (m w).

Definition text_from (u : User) (t : string) : World -> World :=
  after (handle_text_input cfg P fs (says u t)).
Definition press_from (u : User) (d : string) : World -> World :=
  after (button_handler cfg P fs (presses u d)).

(** First start, no data file yet. *)
Definition booted : World := boot cfg fs ∅.

(** The owner has entered a name and a link in the add-free-channel wizard. *)
Definition free_wizard_at_chat_id : World :=
  text_from the_owner "https://t.me/+abc"
    (text_from the_owner "Batch A"
       (press_from the_owner "ask_add_free_channel_name" booted)).

(** The owner has entered a name in the add-paid-channel wizard. *)
Definition paid_wizard_at_link : World :=
  text_from the_owner "Gold"
    (press_from the_owner "ask_add_paid_channel_name" booted).

(** The owner has then sent the link. *)
Definition paid_wizard_done : World :=
  text_from the_owner "https://t.me/+xyz" paid_wizard_at_link.

(** The owner has selected "block user". *)
Definition block_wizard_armed : World :=
  press_from the_owner "ask_block_user" booted.

(** User 13 is blocked. *)
Definition troll_blocked : World := text_from the_owner "13" block_wizard_armed.

(** Two free channels, one paid entry, a known user, a blocked user. *)
Definition stocked : World :=
  {| bot := {| ADMIN_IDS := [5; 7];
               FREE_CHANNELS := [(-1001, "Batch A"); (-1002, "Batch B")];
               FREE_CHANNEL_LINKS := [(-1001, "https://t.me/+abc")];
               PAID_CHANNELS := [html_entry "https://t.me/+xyz" "Gold"];
               USER_DATA := [(42, {| p_full_name := "Ravi K"; p_username := None |})];
               BLOCKED_USER_IDS := {[13]};
               ACTIVE_CHATS := [(-1001, Some "Batch A")] |};
     user_data := ∅; disk := ∅; out := [] |}.

End Sample.

(** ** Further scenes of the sample deployment *)

Module Scene.

(** An admin who is not the owner. *)
Definition helper : User :=
  {| user_id := 5; full_name := "Dev P"; first_name := "Dev"; username := Some "devp" |}.

(** The sample deployment run where [/data] does not exist, so that the data
    file is the bare name [bot_data.json]. *)
Definition cfg_bare : Config :=
  {| OWNER_ID := 7; env_ADMIN_IDS := [5]; MANDATORY_CHANNEL_ID := -1001;
     LOG_CHANNEL_ID := -1002; env_DATA_FILE := None; data_dir_exists := false |}.



(** The stocked state with a step pending for the owner, or for the helper. *)
Definition owner_at (s : step) : World := armed 7 s Sample.stocked.
Definition helper_at (s : step) : World := armed 5 s Sample.stocked.

(** User 42 leaves the mandatory channel. *)
Definition visitor_leaves : ChatMemberUpdated :=
  {| cm_from_user := Sample.visitor; cm_member := Sample.visitor;
     cm_chat := {| chat_id := -1001; type := CHANNEL; title := Some "Main" |};
     old_status := MEMBER; new_status := LEFT |}.

(** User 42 blocks the bot in the private chat. *)
Definition visitor_blocks_bot : ChatMemberUpdated :=
  {| cm_from_user := Sample.visitor; cm_member := Sample.visitor;
     cm_chat := {| chat_id := 42; type := PRIVATE; title := None |};
     old_status := MEMBER; new_status := BANNED |}.

(** A moderator of the mandatory channel who is no admin of the bot. *)
Definition moderator : User :=
  {| user_id := 77; full_name := "Mod M"; first_name := "Mod"; username := None |}.

(** The moderator bans user 42 from the mandatory channel. *)
Definition visitor_banned : ChatMemberUpdated :=
  {| cm_from_user := moderator; cm_member := Sample.visitor;
     cm_chat := {| chat_id := -1001; type := CHANNEL; title := Some "Main" |};
     old_status := MEMBER; new_status := BANNED |}.

(** User 42 joins the mandatory channel. *)
Definition visitor_joins : ChatMemberUpdated :=
  {| cm_from_user := Sample.visitor; cm_member := Sample.visitor;
     cm_chat := {| chat_id := -1001; type := CHANNEL; title := Some "Main" |};
     old_status := LEFT; new_status := MEMBER |}.

(** A data file whose free catalogue has a key that is no integer. *)
Definition damaged : Snapshot :=
  {| j_ADMIN_IDS := Some [7; 8];
     j_FREE_CHANNELS := Some [("-1001", "Batch A"); ("main", "Batch B")];
     j_FREE_CHANNEL_LINKS := Some [("-1001", "https://t.me/+abc")];
     j_PAID_CHANNELS := Some ["Gold"];
     j_BLOCKED_USER_IDS := Some [13];
     j_ACTIVE_CHATS := Some [] |}.

(** The freshly initialised process that finds that file. *)
Definition before_damaged_load : World :=
  {| bot := module_init Sample.cfg; user_data := ∅;
     disk := {[ DATA_FILE Sample.cfg := damaged ]}; out := [] |}.

End Scene.

(** * Properties *)

(** ** The monad: how each operation runs *)

Lemma run_bind {A B} (m : M A) (k : A -> M B) (w : World) :
  (m ≫= k) w = match m w with
               | (w', Ok a) => k a w'
               | (w', Raise e) => (w', Raise e)
               end.
Proof. reflexivity. Qed.

Lemma run_ret {A} (a : A) (w : World) : (mret a : M A) w = (w, Ok a).
Proof. reflexivity. Qed.

Lemma run_try_catch {A} (m : M A) (h : exn -> M A) (w : World) :
  try_catch m h w = match m w with
                    | (w', Ok a) => (w', Ok a)
                    | (w', Raise e) => h e w'
                    end.
Proof. reflexivity. Qed.

(** Unfolds the monad operations at the head of a run. *)
Ltac mrun :=
  repeat (rewrite ?run_bind, ?run_ret, ?run_try_catch;
          cbv beta iota delta
            [get_bot get_ctx get_world set_bot set_ctx modify_bot raise
             platform_call lookup_member reply set_next_step]).


Local Open Scope list_scope.

Lemma extend_nil w : extend w [] = w.
Proof. destruct w. unfold extend. simpl. by rewrite app_nil_r. Qed.

Lemma extend_extend w a b : extend (extend w a) b = extend w (a ++ b).
Proof. unfold extend. simpl. by rewrite app_assoc. Qed.

Lemma log_call_extend c w : log_call c w = extend w [c].
Proof. reflexivity. Qed.


(** ** [int(str(n)) == n] *)

Lemma chars_plain (d : Decimal.uint) : Forall plain (chars d).
Proof. induction d; constructor; done. Qed.

Lemma lstrip_plain (l : list ascii) : Forall plain l -> Py.lstrip l = l.
Proof. destruct 1 as [|a l Ha _]; simpl; [done|]. unfold plain in Ha. by rewrite Ha. Qed.

Lemma strip_plain (l : list ascii) : Forall plain l -> Py.strip l = l.
Proof.
  intros Hl. unfold Py.strip.
  rewrite (lstrip_plain l Hl), lstrip_plain by by apply List.Forall_rev.
  apply rev_involutive.
Qed.

Lemma digits_acc (d : Decimal.uint) (acc : positive) :
  Py.digits (Z.pos acc) true (chars d) = Some (Z.pos (Pos.of_uint_acc d acc)).
Proof.
  revert acc. induction d; intros acc; try reflexivity;
    cbn [chars NilEmpty.string_of_uint list_ascii_of_string Py.digits];
    simpl; rewrite <- IHd; f_equal;
    match goal with
    | |- context [Z.of_nat ?x] =>
        let v := eval vm_compute in (Z.of_nat x) in change (Z.of_nat x) with v
    end; lia.
Qed.

Lemma digits_zero (d : Decimal.uint) :
  Py.digits 0 true (chars d) = Some (Z.of_N (Pos.of_uint d)).
Proof.
  induction d; try reflexivity; try (simpl; apply digits_acc).
  simpl. exact IHd.
Qed.

Lemma digits_first (d : Decimal.uint) (acc : Z) :
  d <> Decimal.Nil -> Py.digits acc false (chars d) = Py.digits acc true (chars d).
Proof. destruct d; done. Qed.

Lemma to_uint_not_nil (p : positive) : Pos.to_uint p <> Decimal.Nil.
Proof.
  intros H. pose proof (DecimalPos.Unsigned.of_to p) as Hp.
  rewrite H in Hp. discriminate.
Qed.

Lemma digits_to_uint (p : positive) :
  Py.digits 0 false (chars (Pos.to_uint p)) = Some (Z.pos p).
Proof.
  rewrite digits_first by apply to_uint_not_nil.
  by rewrite digits_zero, DecimalPos.Unsigned.of_to.
Qed.

Lemma string_of_to_uint (p : positive) :
  NilZero.string_of_uint (Pos.to_uint p) = NilEmpty.string_of_uint (Pos.to_uint p).
Proof. pose proof (to_uint_not_nil p). by destruct (Pos.to_uint p). Qed.

Lemma chars_low (d : Decimal.uint) : Forall low (chars d).
Proof. induction d; constructor; done. Qed.

Lemma to_ascii_low (a : ascii) : low a -> Py.to_ascii (Py.byte a) = Some a.
Proof.
  unfold low, Py.to_ascii. intros Ha.
  rewrite (proj2 (Z.ltb_lt _ _) Ha). unfold Py.byte.
  by rewrite Nat2Z.id, ascii_nat_embedding.
Qed.

Lemma decode_low (l : list ascii) :
  Forall low l -> Py.decode l ≫= mapM Py.to_ascii = Some l.
Proof.
  induction 1 as [|a l Ha _ IH]; [reflexivity|].
  cbn [Py.decode].
  assert (Hlt : (Py.byte a <? 128)%Z = true) by (apply Z.ltb_lt; unfold low in Ha; lia).
  rewrite Hlt. destruct (Py.decode l) as [cps|]; [|discriminate IH].
  cbn in IH |- *. by rewrite (to_ascii_low a Ha), IH.
Qed.

Lemma int_str (n : Z) : Py.int (Py.str n) = Some n.
Proof.
  unfold Py.int, Py.transform, Py.str. destruct n as [|p|p]; [reflexivity | |];
    cbn [Z.to_int NilZero.string_of_int list_ascii_of_string];
    rewrite string_of_to_uint; fold (chars (Pos.to_uint p)).
  - rewrite decode_low by apply chars_low. cbn [mbind option_bind]. unfold Py.literal.
    rewrite strip_plain by apply chars_plain.
    rewrite <- (digits_to_uint p).
    pose proof (to_uint_not_nil p). by destruct (Pos.to_uint p).
  - rewrite decode_low by (constructor; [done | apply chars_low]).
    cbn [mbind option_bind]. unfold Py.literal.
    rewrite strip_plain by (constructor; [done | apply chars_plain]).
    cbn. by rewrite digits_to_uint.
Qed.

(** ** Invariants of the globals *)

Section Keeps.
Context (J : Bot -> Prop).

Lemma keeps_ret {A} (a : A) : keeps J (mret a : M A).
Proof. intros w Hw. exact Hw. Qed.

Lemma keeps_raise {A} (e : exn) : keeps J (raise e : M A).
Proof. intros w Hw. exact Hw. Qed.

Lemma keeps_bind {A B} (m : M A) (k : A -> M B) :
  keeps J m -> (forall a, keeps J (k a)) -> keeps J (m ≫= k).
Proof.
  intros Hm Hk w Hw. rewrite run_bind. specialize (Hm w Hw).
  destruct (m w) as [w' [a|e]]; simpl in *; [by apply Hk | done].
Qed.

(** After reading the globals, the value read has the property. *)
Lemma keeps_get_bot {B} (k : Bot -> M B) :
  (forall b, J b -> keeps J (k b)) -> keeps J (get_bot ≫= k).
Proof. intros Hk w Hw. rewrite run_bind. simpl. by apply Hk. Qed.

Lemma keeps_try_catch {A} (m : M A) (h : exn -> M A) :
  keeps J m -> (forall e, keeps J (h e)) -> keeps J (try_catch m h).
Proof.
  intros Hm Hh w Hw. rewrite run_try_catch. specialize (Hm w Hw).
  destruct (m w) as [w' [a|e]]; simpl in *; [done | by apply Hh].
Qed.

Lemma keeps_same_bot {A} (m : M A) :
  (forall w, bot (fst (m w)) = bot w) -> keeps J m.
Proof. intros Hm w Hw. by rewrite Hm. Qed.

Lemma keeps_modify_bot (f : Bot -> Bot) :
  (forall b, J b -> J (f b)) -> keeps J (modify_bot f).
Proof. intros Hf w Hw. simpl. by apply Hf. Qed.

Lemma keeps_for_each {A} (l : list A) (body : A -> M unit) :
  (forall x, keeps J (body x)) -> keeps J (for_each l body).
Proof.
  intros Hb. induction l as [|x l IH]; simpl.
  - apply keeps_ret.
  - apply keeps_bind; [apply Hb | intros _; apply IH].
Qed.
End Keeps.

Section KeepsOps.
Variable cfg : Config.
Variable P : Platform.
Variable fs : FileSystem.
Context (J : Bot -> Prop).

Lemma keeps_platform_call c : keeps J (platform_call P c).
Proof. by apply keeps_same_bot. Qed.

Lemma keeps_reply u m : keeps J (reply P u m).
Proof. by apply keeps_same_bot. Qed.

Lemma keeps_lookup_member chat uid : keeps J (lookup_member P chat uid).
Proof. by apply keeps_same_bot. Qed.

Lemma keeps_get_ctx uid : keeps J (get_ctx uid).
Proof. by apply keeps_same_bot. Qed.

Lemma keeps_set_ctx uid c : keeps J (set_ctx uid c).
Proof. by apply keeps_same_bot. Qed.

Lemma keeps_set_next_step uid s : keeps J (set_next_step uid s).
Proof. by apply keeps_same_bot. Qed.

Lemma keeps_int_or_raise s : keeps J (int_or_raise s).
Proof. apply keeps_same_bot. intros w. unfold int_or_raise. by destruct (Py.int s). Qed.

Lemma keeps_int_keys {V} (o : list (string * V)) : keeps J (int_keys o).
Proof. apply keeps_same_bot. intros w. unfold int_keys. by destruct (Dict.rebuild _ _ _). Qed.

Lemma save_data_same_bot w : bot (fst (save_data cfg fs w)) = bot w.
Proof.
  unfold save_data, os_makedirs, write_json. mrun.
  destruct (Py.truthy _ && _); mrun; [|done].
  by destruct (can_open_w fs _).
Qed.

Lemma keeps_save_data : keeps J (save_data cfg fs).
Proof. apply keeps_same_bot, save_data_same_bot. Qed.

Lemma keeps_broadcast_loop users m ok failed :
  keeps J (broadcast_loop P users m ok failed).
Proof.
  revert ok failed. induction users as [|u r IH]; intros ok failed; simpl.
  - apply keeps_ret.
  - apply keeps_bind.
    + apply keeps_try_catch; [|intros _; apply keeps_ret].
      apply keeps_bind; [apply keeps_platform_call | intros _; apply keeps_ret].
    + intros [|]; apply IH.
Qed.

Lemma keeps_post_loop channels m ok failed :
  keeps J (post_loop P channels m ok failed).
Proof.
  revert ok failed. induction channels as [|u r IH]; intros ok failed; simpl.
  - apply keeps_ret.
  - apply keeps_bind.
    + apply keeps_try_catch; [|intros _; apply keeps_ret].
      apply keeps_bind; [apply keeps_platform_call | intros _; apply keeps_ret].
    + intros [|]; apply IH.
Qed.

End KeepsOps.

(** One step of a proof that a handler keeps an invariant: the rule for the
    operation at the head, or a case split on the test it branches on. *)
Ltac keeps_step :=
  lazymatch goal with
  | |- keeps _ (get_bot ≫= _) => apply keeps_get_bot; intros ? ?
  | |- keeps _ (_ ≫= _) => apply keeps_bind; [|intros ?]
  | |- keeps _ (mret _) => apply keeps_ret
  | |- keeps _ (raise _) => apply keeps_raise
  | |- keeps _ (try_catch _ _) => apply keeps_try_catch; [|intros ?]
  | |- keeps _ (platform_call _ _) => apply keeps_platform_call
  | |- keeps _ (reply _ _ _) => apply keeps_reply
  | |- keeps _ (lookup_member _ _ _) => apply keeps_lookup_member
  | |- keeps _ (get_ctx _) => apply keeps_get_ctx
  | |- keeps _ (set_ctx _ _) => apply keeps_set_ctx
  | |- keeps _ (set_next_step _ _) => apply keeps_set_next_step
  | |- keeps _ (int_or_raise _) => apply keeps_int_or_raise
  | |- keeps _ (int_keys _) => apply keeps_int_keys
  | |- keeps _ (save_data _ _) => apply keeps_save_data
  | |- keeps _ (broadcast_loop _ _ _ _ _) => apply keeps_broadcast_loop
  | |- keeps _ (post_loop _ _ _ _ _) => apply keeps_post_loop
  | |- keeps _ (except_ValueError _ _) => unfold except_ValueError
  | |- keeps _ (if ?c then _ else _) => destruct c eqn:?
  | |- keeps _ (match ?x with _ => _ end) => destruct x eqn:?
  end.

Section OwnerInvariant.
Variable cfg : Config.
Variable P : Platform.
Variable fs : FileSystem.

Lemma elem_of_list_remove_first (x y : Z) (l : list Z) :
  x ≠ y -> x ∈ l -> x ∈ list_remove_first y l.
Proof.
  intros Hne. induction l as [|z l IH]; simpl; [done|].
  intros Hin. apply elem_of_cons in Hin as [->|Hin].
  - case_bool_decide; [congruence | left].
  - case_bool_decide; [done | right; auto].
Qed.

Lemma handle_text_input_keeps_owner (update : MessageUpdate) :
  keeps (owner_is_admin cfg) (handle_text_input cfg P fs update).
Proof.
  unfold handle_text_input, manage_ids. cbv zeta.
  repeat keeps_step.
  all: try (apply keeps_modify_bot; intros b' Hb'; exact Hb').
  all: apply keeps_modify_bot; intros b' Hb'; unfold owner_is_admin in *; simpl.
  - apply elem_of_app. by left.
  - apply elem_of_list_remove_first; [|done].
    intros Heq. match goal with
    | Hne : bool_decide (_ = OWNER_ID cfg) = false |- _ =>
        apply bool_decide_eq_false in Hne; by apply Hne
    end.
Qed.
End OwnerInvariant.

Section Membership.

Variable cfg : Config.
Variable P : Platform.
Variable fs : FileSystem.

(** ** Membership gate *)

(** C6.  For a user id in the admin list the membership check answers
    [True] and leaves the world, hence the trace of platform calls,
    untouched.  For any other id it makes exactly one call, a membership
    lookup in the mandatory channel, never raises, and answers [True] exactly
    when the lookup succeeded and reported owner, administrator or member;
    a failed lookup gives [False]. *)
Theorem is_member_admin_shortcut_else_one_lookup (w : World) (uid : Z) :
  let lookup := get_chat_member (MANDATORY_CHANNEL_ID cfg) uid in
  let run := is_user_member_of_channel cfg P uid w in
  if bool_decide (uid ∈ ADMIN_IDS (bot w))
  then run = (w, Ok true)
  else exists answer : bool,
      run = (log_call lookup w, Ok answer)
      /\ out (fst run) = (out w ++ [lookup])%list
      /\ (accepts P (out w) lookup = false -> answer = false)
      /\ (answer = true <->
          accepts P (out w) lookup = true
          /\ member_status P (out w) (MANDATORY_CHANNEL_ID cfg) uid
             ∈ [OWNER; ADMINISTRATOR; MEMBER]).
Proof.
  cbv zeta. unfold is_user_member_of_channel. mrun. unfold is_admin.
  case_bool_decide as Hadm; [reflexivity|].
  mrun. cbn [fst snd].
  destruct (accepts P (out w) _) eqn:Hacc.
  - exists (member_like (member_status P (out w) (MANDATORY_CHANNEL_ID cfg) uid)).
    mrun. split; [reflexivity|]. split; [reflexivity|]. split; [discriminate|].
    destruct (member_status _ _ _ _); simpl; split;
      first [ discriminate | reflexivity
            | intros _; split; [reflexivity | repeat constructor]
            | intros [_ Hin]; exfalso;
              repeat (apply elem_of_cons in Hin as [Hin | Hin]; [discriminate|]);
              by apply elem_of_nil in Hin ].
  - exists false. mrun. split; [reflexivity|]. split; [reflexivity|].
    split; [reflexivity|]. split; [discriminate | intros [? _]; discriminate].
Qed.

(** ** Cascading removal *)

Lemma kick_run (uid c : Z) (w : World) :
  kick P uid c w =
  (extend w (if accepts P (out w) (ban_chat_member c uid)
             then [ban_chat_member c uid; unban_chat_member c uid]
             else [ban_chat_member c uid]), Ok tt).
Proof.
  unfold kick. mrun.
  destruct (accepts P (out w) (ban_chat_member c uid)); mrun; [|reflexivity].
  rewrite !log_call_extend, extend_extend.
  by destruct (accepts P _ _).
Qed.

Lemma kick_loop (uid : Z) (cs : list Z) (w : World) :
  exists tr,
    for_each cs (kick P uid) w = (extend w tr, Ok tt)
    /\ kick_trace P uid (out w) cs tr
    /\ filter is_ban tr = map (fun c => ban_chat_member c uid) cs.
Proof.
  revert w. induction cs as [|c cs IH]; intros w.
  - exists []. rewrite extend_nil. repeat split. constructor.
  - cbn [for_each]. rewrite run_bind, kick_run.
    destruct (accepts P (out w) (ban_chat_member c uid)) eqn:Hban;
      match goal with
      | |- context [extend w ?l] =>
          destruct (IH (extend w l)) as (tr & Hrun & Htr & Hbans);
          exists (l ++ tr)
      end;
      (split; [by rewrite Hrun, extend_extend|]);
      (split; [|by rewrite filter_app, Hbans]);
      simpl in Htr.
    + by apply kick_banned.
    + by apply kick_refused.
Qed.

Lemma kick_trace_all_accepted (uid : Z) (h : list call) (cs : list Z) (tr : list call) :
  (forall h c, accepts P h (ban_chat_member c uid) = true) ->
  kick_trace P uid h cs tr ->
  tr = flat_map (fun c => [ban_chat_member c uid; unban_chat_member c uid]) cs.
Proof.
  intros Hall. induction 1 as [|h c cs tr Hno _ _|h c cs tr _ _ IH]; simpl.
  - reflexivity.
  - by rewrite Hall in Hno.
  - by rewrite IH.
Qed.

(** C5.  Cascading removal does nothing for an admin id: no call, no
    change, no error.  For any other id it never raises, changes nothing but
    the trace, and the calls it adds are those of [kick_trace]: one ban
    attempt per free channel, in catalogue order, each accepted ban followed
    at once by its unban, and a refused ban or unban in one channel does not
    stop the attempts in the channels after it.  When every ban is accepted
    the calls are exactly a ban and then an unban for each channel. *)
Theorem cascading_removal (w : World) (uid : Z) :
  let channels := Dict.keys (FREE_CHANNELS (bot w)) in
  let run := remove_user_from_free_channels P uid w in
  if bool_decide (uid ∈ ADMIN_IDS (bot w))
  then run = (w, Ok tt)
  else exists tr,
      run = (extend w tr, Ok tt)
      /\ kick_trace P uid (out w) channels tr
      /\ filter is_ban tr = map (fun c => ban_chat_member c uid) channels
      /\ ((forall h c, accepts P h (ban_chat_member c uid) = true) ->
          tr = flat_map (fun c => [ban_chat_member c uid; unban_chat_member c uid])
                        channels).
Proof.
  cbv zeta. unfold remove_user_from_free_channels. mrun. unfold is_admin.
  case_bool_decide; [reflexivity|].
  destruct (kick_loop uid (Dict.keys (FREE_CHANNELS (bot w))) w)
    as (tr & Hrun & Htr & Hbans).
  exists tr. repeat split; try done.
  intros Hall. by apply (kick_trace_all_accepted uid (out w)).
Qed.

End Membership.

(** ** Persistence *)

Section Persistence.
Variable cfg : Config.
Variable fs : FileSystem.

Lemma save_data_run (w : World) :
  save_data cfg fs w = (if can_save cfg fs then stored cfg w else w, Ok tt).
Proof.
  unfold save_data, can_save, os_makedirs, write_json. mrun.
  destruct (Py.truthy _ && _); mrun; [|done].
  by destruct (can_open_w fs _).
Qed.

(** With the default path ["bot_data.json"] the directory part is empty,
    [os.makedirs] raises, and nothing is ever written. *)
Lemma save_data_bare_file_name (w : World) :
  os_path_dirname (DATA_FILE cfg) = "" -> save_data cfg fs w = (w, Ok tt).
Proof. intros Hdir. rewrite save_data_run. unfold can_save. by rewrite Hdir. Qed.

Lemma set_fresh {V} (k : Z) (v : V) (d : dict V) :
  k ∉ Dict.keys d -> Dict.set k v d = d ++ [(k, v)].
Proof.
  induction d as [|[k' v'] d IH]; simpl; [done|].
  intros Hk. apply not_elem_of_cons in Hk as [Hne Hk].
  rewrite bool_decide_eq_false_2 by congruence. by rewrite IH.
Qed.

Lemma rebuild_dump {V} (d acc : dict V) :
  NoDup (Dict.keys (acc ++ d)) ->
  Dict.rebuild Py.int (dump_dict d) acc = Some (acc ++ d).
Proof.
  revert acc. induction d as [|[k v] d IH]; intros acc Hnd; simpl.
  - by rewrite app_nil_r.
  - rewrite int_str. unfold Dict.keys in Hnd.
    rewrite set_fresh.
    + rewrite IH; rewrite <- app_assoc; [done|]. exact Hnd.
    + rewrite map_app in Hnd. apply NoDup_app in Hnd as (_ & Hdisj & _).
      intros Hin. apply (Hdisj k Hin). simpl. left.
Qed.

Lemma int_keys_dump {V} (d : dict V) (w : World) :
  Dict.wf d -> int_keys (dump_dict d) w = (w, Ok d).
Proof. intros Hd. unfold int_keys. by rewrite (rebuild_dump d []). Qed.

End Persistence.

Section RoundTrip.
Variables cfg cfg' : Config.
Variables fs fs' : FileSystem.

Lemma load_from_dump (b : Bot) (w : World) :
  Dict.wf (FREE_CHANNELS b) -> Dict.wf (FREE_CHANNEL_LINKS b) ->
  Dict.wf (ACTIVE_CHATS b) ->
  load_from (dump b) w =
  ({| bot := with_USER_DATA (USER_DATA (bot w)) b; user_data := user_data w;
      disk := disk w; out := out w |}, Ok tt).
Proof.
  intros Hfc Hfl Hac. unfold load_from. mrun. cbn [dump default j_ADMIN_IDS
    j_FREE_CHANNELS j_FREE_CHANNEL_LINKS j_PAID_CHANNELS j_BLOCKED_USER_IDS
    j_ACTIVE_CHATS].
  rewrite (int_keys_dump _ _ Hfc). mrun.
  rewrite (int_keys_dump _ _ Hfl). mrun.
  rewrite (int_keys_dump _ _ Hac). mrun.
  cbn. rewrite list_to_set_elements_L. by destruct b.
Qed.

Lemma boot_reads_dump (d : gmap string Snapshot) (b : Bot) :
  d !! DATA_FILE cfg' = Some (dump b) ->
  Dict.wf (FREE_CHANNELS b) -> Dict.wf (FREE_CHANNEL_LINKS b) ->
  Dict.wf (ACTIVE_CHATS b) ->
  bot (boot cfg' fs' d) = with_USER_DATA [] b.
Proof.
  intros Hd Hfc Hfl Hac. unfold boot, load_data.
  rewrite run_try_catch, run_bind. unfold read_json. cbn [fresh disk].
  rewrite Hd. by rewrite load_from_dump.
Qed.

(** C7.  Snapshot round trip.  Take any state whose three dictionaries are
    well formed, let [save_data] write it (the write goes through), and
    start a fresh process, under any configuration that names the same data
    file: the file holds the dump of the state, and the reloaded admin list,
    free-channel catalogue, link mapping (with its integer keys), paid
    catalogue, block list and active-chat registry equal the saved ones. *)
Theorem snapshot_round_trip (w : World) :
  Dict.wf (FREE_CHANNELS (bot w)) ->
  Dict.wf (FREE_CHANNEL_LINKS (bot w)) ->
  Dict.wf (ACTIVE_CHATS (bot w)) ->
  can_save cfg fs = true ->
  DATA_FILE cfg' = DATA_FILE cfg ->
  let written := fst (save_data cfg fs w) in
  let reloaded := bot (boot cfg' fs' (disk written)) in
  disk written !! DATA_FILE cfg = Some (dump (bot w))
  /\ ADMIN_IDS reloaded = ADMIN_IDS (bot w)
  /\ FREE_CHANNELS reloaded = FREE_CHANNELS (bot w)
  /\ FREE_CHANNEL_LINKS reloaded = FREE_CHANNEL_LINKS (bot w)
  /\ PAID_CHANNELS reloaded = PAID_CHANNELS (bot w)
  /\ BLOCKED_USER_IDS reloaded = BLOCKED_USER_IDS (bot w)
  /\ ACTIVE_CHATS reloaded = ACTIVE_CHATS (bot w).
Proof.
  intros Hfc Hfl Hac Hsave Hfile. cbv zeta.
  rewrite save_data_run, Hsave. cbn [fst stored disk].
  assert (Hread : <[DATA_FILE cfg := dump (bot w)]> (disk w) !! DATA_FILE cfg
                  = Some (dump (bot w))) by apply lookup_insert_eq.
  split; [exact Hread|].
  rewrite (boot_reads_dump _ (bot w)) by (by rewrite ?Hfile).
  done.
Qed.

End RoundTrip.

Section Restart.
Variable cfg : Config.
Variable P : Platform.
Variable fs : FileSystem.

Lemma keeps_read_json J path : keeps J (read_json path).
Proof. apply keeps_same_bot. intros w. unfold read_json. by destruct (disk w !! path). Qed.

(** [load_data] never touches the user directory. *)
Lemma load_data_keeps_user_data (ud : dict Profile) :
  keeps (fun b => USER_DATA b = ud) (load_data cfg fs).
Proof.
  unfold load_data, load_from.
  repeat first [ apply keeps_read_json | keeps_step
               | by apply keeps_modify_bot ].
Qed.

Lemma load_from_keeps_owner (data : Snapshot) :
  (forall l, j_ADMIN_IDS data = Some l -> OWNER_ID cfg ∈ l) ->
  keeps (owner_is_admin cfg) (load_from data).
Proof.
  intros Hdata. unfold load_from.
  apply keeps_bind.
  { apply keeps_modify_bot. intros b Hb. unfold owner_is_admin. simpl.
    destruct (j_ADMIN_IDS data) as [l|]; simpl; [by apply Hdata | exact Hb]. }
  intros _.
  repeat first [ keeps_step | by apply keeps_modify_bot ].
Qed.

Lemma load_data_keeps_owner (w : World) :
  owner_is_admin cfg (bot w) ->
  (forall data l, disk w !! DATA_FILE cfg = Some data ->
                  j_ADMIN_IDS data = Some l -> OWNER_ID cfg ∈ l) ->
  owner_is_admin cfg (bot (fst (load_data cfg fs w))).
Proof.
  intros Hw Hdisk. unfold load_data. rewrite run_try_catch, run_bind.
  unfold read_json. destruct (disk w !! DATA_FILE cfg) as [data|] eqn:Hd.
  - pose proof (load_from_keeps_owner data (fun l => Hdisk data l eq_refl) w Hw) as Hl.
    destruct (load_from data w) as [w' [[]|e]]; simpl in *; [done|].
    destruct e; simpl; try done. by rewrite save_data_same_bot.
  - by rewrite save_data_same_bot.
Qed.

Lemma module_init_owner : OWNER_ID cfg ≠ 0 -> owner_is_admin cfg (module_init cfg).
Proof.
  intros Hne. unfold owner_is_admin, module_init. simpl.
  rewrite (bool_decide_eq_false_2 _ Hne). simpl.
  case_bool_decide as Hin; simpl; [done|].
  apply elem_of_app. right. left.
Qed.

Lemma admin_not_regular (b : Bot) (uid : Z) :
  uid ∈ ADMIN_IDS b -> classify cfg b uid ≠ regular.
Proof.
  intros Hin. unfold classify, is_owner, is_admin.
  case_bool_decide; [done|]. by rewrite bool_decide_eq_true_2.
Qed.

End Restart.


Section OwnerAndDirectory.
Variable cfg : Config.
Variable P : Platform.
Variable fs : FileSystem.

(** C2.  When an owner is configured (the owner id is not 0),
    the owner is in the admin list after the module body has run.  Loading
    the data file keeps the owner in the admin list when the file is absent
    or its admin list contains the owner, which holds for every snapshot
    dumped while the owner was in the admin list; so the owner is in the
    admin list after startup under that condition.  Every free-text wizard
    step, the add-admin and remove-admin wizards among them, keeps the owner
    in the admin list.  And for every user id in the admin list the
    classification is never [regular]. *)
Theorem owner_stays_in_admin_set :
  (OWNER_ID cfg <> 0 -> owner_is_admin cfg (module_init cfg))
  /\ (forall w,
        owner_is_admin cfg (bot w) ->
        (forall data l, disk w !! DATA_FILE cfg = Some data ->
                        j_ADMIN_IDS data = Some l -> OWNER_ID cfg ∈ l) ->
        owner_is_admin cfg (bot (fst (load_data cfg fs w))))
  /\ (forall b l, owner_is_admin cfg b -> j_ADMIN_IDS (dump b) = Some l ->
                  OWNER_ID cfg ∈ l)
  /\ (forall d,
        OWNER_ID cfg <> 0 ->
        (forall data l, d !! DATA_FILE cfg = Some data ->
                        j_ADMIN_IDS data = Some l -> OWNER_ID cfg ∈ l) ->
        owner_is_admin cfg (bot (boot cfg fs d)))
  /\ (forall update w,
        owner_is_admin cfg (bot w) ->
        owner_is_admin cfg (bot (fst (handle_text_input cfg P fs update w))))
  /\ (forall b uid, uid ∈ ADMIN_IDS b -> classify cfg b uid <> regular).
Proof.
  repeat split.
  - apply module_init_owner.
  - apply load_data_keeps_owner.
  - intros b l Hb [= <-]. exact Hb.
  - intros d Hne Hd. unfold boot. apply load_data_keeps_owner; [|exact Hd].
    by apply module_init_owner.
  - intros update. apply handle_text_input_keeps_owner.
  - apply admin_not_regular.
Qed.

(** C4.  The snapshot does not include the user directory: the
    dump of the globals is the same whatever the user directory holds, and
    after any start, whatever the data file contains, the user directory is
    empty. *)
Theorem user_directory_not_in_snapshot :
  (forall b ud, dump (with_USER_DATA ud b) = dump b)
  /\ (forall d, USER_DATA (bot (boot cfg fs d)) = []).
Proof.
  split; [reflexivity|].
  intros d. unfold boot.
  by apply (load_data_keeps_user_data cfg fs [] (fresh cfg d)).
Qed.

End OwnerAndDirectory.

(** ** The wizards *)

Section BlockWizard.
Variable cfg : Config.
Variable P : Platform.
Variable fs : FileSystem.

End BlockWizard.

Section WizardSteps.
Variable cfg : Config.
Variable P : Platform.
Variable fs : FileSystem.

Lemma ctx_of_set_ctx (w : World) (uid : Z) (c : Ctx) :
  ctx_of (fst (set_ctx uid c w)) uid = c.
Proof. unfold ctx_of. simpl. by rewrite lookup_insert_eq. Qed.

(** What the third step of the add-free-channel wizard does with an id it
    rejects: the catalogue is untouched, and so is nothing else of the
    globals, but the pending step and the accumulated name and link are
    gone. *)
Lemma rejected_chat_id_clears_wizard (update : MessageUpdate) (user : User) (w : World) :
  effective_user update = Some user ->
  user_id user ∈ ADMIN_IDS (bot w) ->
  next_step (ctx_of w (user_id user)) = Some awaiting_free_channel_chat_id ->
  (Py.int (text update) = None
   \/ exists n, Py.int (text update) = Some n
                /\ Py.startswith (Py.str n) "-100" = false) ->
  let after := fst (handle_text_input cfg P fs update w) in
  bot after = bot w /\ ctx_of after (user_id user) = no_ctx.
Proof.
  intros Huser Hadmin Hstep Hbad. cbv zeta.
  unfold handle_text_input. rewrite Huser. mrun.
  unfold is_admin. rewrite (bool_decide_eq_true_2 _ Hadmin). cbn [negb].
  rewrite Hstep. mrun. unfold int_or_raise.
  destruct Hbad as [Hnone | (n & Hn & Hprefix)].
  - rewrite Hnone. mrun. cbn [except_ValueError]. mrun.
    split; [done|]. unfold ctx_of. cbn. by rewrite !lookup_insert_eq.
  - rewrite Hn. mrun. rewrite Hprefix. cbn [negb]. mrun.
    destruct (accepts P _ _); mrun;
      (split; [done|]); unfold ctx_of; cbn; by rewrite !lookup_insert_eq.
Qed.

(** C8.  The add-paid-channel wizard has two steps.  The name
    step leaves the globals alone, stores the name and arms the link step.
    The link step, the last one, appends to the paid catalogue the entry
    built from the stored name (["N/A"] when none is stored) and the link
    just received, clears the stored name and leaves no step pending. *)
Theorem paid_wizard_two_steps (update : MessageUpdate) (user : User) (w : World) :
  effective_user update = Some user ->
  user_id user ∈ ADMIN_IDS (bot w) ->
  let uid := user_id user in
  let c := ctx_of w uid in
  let after := fst (handle_text_input cfg P fs update w) in
  (next_step c = Some awaiting_paid_channel_name ->
   bot after = bot w
   /\ ctx_of after uid =
      {| next_step := Some awaiting_paid_channel_link;
         new_channel_name := Some (text update);
         new_channel_link := new_channel_link c |})
  /\ (next_step c = Some awaiting_paid_channel_link ->
      PAID_CHANNELS (bot after) =
      PAID_CHANNELS (bot w)
        ++ [html_entry (text update) (default "N/A" (new_channel_name c))]
      /\ ctx_of after uid =
         {| next_step := None; new_channel_name := None;
            new_channel_link := new_channel_link c |}).
Proof.
  intros Huser Hadmin. cbv zeta.
  unfold handle_text_input. rewrite Huser. mrun.
  unfold is_admin. rewrite (bool_decide_eq_true_2 _ Hadmin). cbn [negb].
  split; intros Hstep; rewrite Hstep; mrun.
  - split; [done|]. unfold ctx_of. cbn. by rewrite !lookup_insert_eq.
  - rewrite save_data_run.
    destruct (can_save cfg fs); cbn; unfold ctx_of; cbn;
      by rewrite !lookup_insert_eq.
Qed.

(** C3.  For a sender on the block list: the start and help
    commands return at once, with no state change and no call; a button
    press changes no state and renders no menu, its only effect being the
    one alert answer that tells the user they are blocked; and a free-text
    message from such a sender who is not in the admin list changes
    nothing and makes no call. *)
Theorem blocked_sender_guard (user : User) (w : World) :
  user_id user ∈ BLOCKED_USER_IDS (bot w) ->
  (forall update, effective_user update = Some user ->
     start_command cfg P update w = (w, Ok tt)
     /\ help_command cfg P update w = (w, Ok tt))
  /\ (forall query, from_user query = user ->
        fst (button_handler cfg P fs query w)
        = log_call (answer (user_id user) (Some YouAreBlocked) true) w)
  /\ (forall update, effective_user update = Some user ->
        user_id user ∉ ADMIN_IDS (bot w) ->
        handle_text_input cfg P fs update w = (w, Ok tt)).
Proof.
  intros Hblocked. split; [|split].
  - intros update Huser. unfold start_command, help_command.
    rewrite Huser. mrun. by rewrite (bool_decide_eq_true_2 _ Hblocked).
  - intros query <-. unfold button_handler. mrun.
    by rewrite (bool_decide_eq_true_2 _ Hblocked).
  - intros update Huser Hadm. unfold handle_text_input. rewrite Huser. mrun.
    unfold is_admin. by rewrite (bool_decide_eq_false_2 _ Hadm).
Qed.

End WizardSteps.

(** ** The start command *)

Section Start.
Variable cfg : Config.
Variable P : Platform.
Variable fs : FileSystem.

Lemma mem_set {V} (k : Z) (v : V) (d : dict V) : Dict.mem k (Dict.set k v d) = true.
Proof.
  unfold Dict.mem. induction d as [|[k' v'] d IH]; simpl.
  - by rewrite bool_decide_eq_true_2.
  - case_bool_decide as Hk; simpl.
    + by rewrite bool_decide_eq_true_2.
    + by rewrite (bool_decide_eq_false_2 _ Hk).
Qed.

(** C10.  A start command from a sender who is not blocked, is neither
    owner nor admin, and for whom the membership check answers [False]:
    the handler first stores the sender's profile, so the kick loop runs
    whatever the user directory held before.  The calls made are the
    membership lookup, then the kick loop over every free channel, then the
    join prompt. *)
Theorem start_kicks_every_non_member (update : MessageUpdate) (user : User) (w : World) :
  effective_user update = Some user ->
  user_id user ∉ BLOCKED_USER_IDS (bot w) ->
  classify cfg (bot w) (user_id user) = regular ->
  snd (is_user_member_of_channel cfg P (user_id user) w) = Ok false ->
  let uid := user_id user in
  let lookup := get_chat_member (MANDATORY_CHANNEL_ID cfg) uid in
  let prompt := send_message (chat_id (message_chat update)) (JoinPrompt (first_name user)) in
  let channels := Dict.keys (FREE_CHANNELS (bot w)) in
  exists tr,
    fst (start_command cfg P update w) = extend (upsert user w) ([lookup] ++ tr ++ [prompt])
    /\ kick_trace P uid (out w ++ [lookup]) channels tr
    /\ filter is_ban tr = map (fun c => ban_chat_member c uid) channels.
Proof.
  intros Huser Hfree Hrole Hgate. cbv zeta.
  unfold classify, is_owner, is_admin in Hrole.
  case_bool_decide as Hown; [done|]. case_bool_decide as Hadm; [done|]. clear Hrole.
  unfold is_user_member_of_channel in Hgate. revert Hgate. mrun.
  unfold is_admin. rewrite (bool_decide_eq_false_2 _ Hadm). mrun. intros Hgate.
  unfold start_command. rewrite Huser. mrun.
  rewrite (bool_decide_eq_false_2 _ Hfree). mrun.
  unfold is_owner. rewrite (bool_decide_eq_false_2 _ Hown).
  unfold is_admin. cbn [bot with_USER_DATA ADMIN_IDS].
  rewrite (bool_decide_eq_false_2 _ Hadm).
  unfold is_user_member_of_channel. mrun. cbn [bot with_USER_DATA ADMIN_IDS].
  unfold is_admin. rewrite (bool_decide_eq_false_2 _ Hadm). mrun.
  cbn [out] in *.
  assert (Hkick : forall wl : World,
            wl = log_call (get_chat_member (MANDATORY_CHANNEL_ID cfg) (user_id user))
                          (upsert user w) ->
            exists tr,
              fst ((remove_user_from_free_channels P (user_id user);;
                    reply P update (JoinPrompt (first_name user))) wl)
              = extend (upsert user w)
                  ([get_chat_member (MANDATORY_CHANNEL_ID cfg) (user_id user)] ++ tr
                   ++ [send_message (chat_id (message_chat update))
                         (JoinPrompt (first_name user))])
              /\ kick_trace P (user_id user)
                   (out w ++ [get_chat_member (MANDATORY_CHANNEL_ID cfg) (user_id user)])
                   (Dict.keys (FREE_CHANNELS (bot w))) tr
              /\ filter is_ban tr
                 = map (fun c => ban_chat_member c (user_id user))
                       (Dict.keys (FREE_CHANNELS (bot w)))).
  { intros wl ->. unfold remove_user_from_free_channels. mrun.
    unfold is_admin. cbn [bot log_call upsert with_USER_DATA ADMIN_IDS FREE_CHANNELS].
    rewrite (bool_decide_eq_false_2 _ Hadm).
    destruct (kick_loop P (user_id user) (Dict.keys (FREE_CHANNELS (bot w)))
                (log_call (get_chat_member (MANDATORY_CHANNEL_ID cfg) (user_id user))
                          (upsert user w)))
      as (tr & Hrun & Htr & Hbans).
    exists tr. cbn [log_call upsert out] in Htr. split; [|done].
    unfold log_call, upsert in Hrun |- *. rewrite Hrun. mrun.
    unfold extend, log_call. cbn. by rewrite <- !app_assoc. }
  destruct (accepts P (out w) _) eqn:Hacc;
    [destruct (member_like _) eqn:Hml|]; mrun; cbn in Hgate; try discriminate;
    cbn [bot log_call with_USER_DATA USER_DATA]; rewrite mem_set;
    apply (Hkick _ eq_refl).
Qed.
End Start.

(** ** The sample deployment *)

Example sample_booted :
  ADMIN_IDS (bot Sample.booted) = [5; 7]
  /\ disk Sample.booted !! "/data/bot_data.json" = Some (dump (bot Sample.booted)).
Proof. split; reflexivity. Qed.

Example sample_free_wizard :
  let done := Sample.text_from Sample.the_owner "-1001234567890"
                Sample.free_wizard_at_chat_id in
  FREE_CHANNELS (bot done) = [(-1001234567890, "Batch A")]
  /\ FREE_CHANNEL_LINKS (bot done) = [(-1001234567890, "https://t.me/+abc")]
  /\ ctx_of done 7 = no_ctx.
Proof. repeat split; reflexivity. Qed.

(** One refused ban does not stop the kicks in the other channels. *)
Example sample_kick_with_refusal :
  out (fst (remove_user_from_free_channels Sample.P_refusing 42 Sample.stocked))
  = [ban_chat_member (-1001) 42; ban_chat_member (-1002) 42; unban_chat_member (-1002) 42].
Proof. reflexivity. Qed.

(** C7, witness: the stocked sample state. *)
Lemma snapshot_round_trip_witness :
  can_save Sample.cfg Sample.fs = true
  /\ FREE_CHANNELS
       (bot (boot Sample.cfg Sample.fs
               (disk (fst (save_data Sample.cfg Sample.fs Sample.stocked)))))
     = [(-1001, "Batch A"); (-1002, "Batch B")]
  /\ BLOCKED_USER_IDS
       (bot (boot Sample.cfg Sample.fs
               (disk (fst (save_data Sample.cfg Sample.fs Sample.stocked)))))
     = {[13]}.
Proof.
  split; [reflexivity|].
  destruct (snapshot_round_trip Sample.cfg Sample.cfg Sample.fs Sample.fs Sample.stocked)
    as (_ & _ & Hfree & _ & _ & Hblocked & _);
    [ by apply (bool_decide_unpack _) | by apply (bool_decide_unpack _)
    | by apply (bool_decide_unpack _) | reflexivity | reflexivity | ].
  split; [exact Hfree | exact Hblocked].
Defined.


(** C8, witness: the link step on the sample deployment. *)
Lemma paid_wizard_two_steps_witness :
  user_id Sample.the_owner ∈ ADMIN_IDS (bot Sample.paid_wizard_at_link)
  /\ next_step (ctx_of Sample.paid_wizard_at_link 7) = Some awaiting_paid_channel_link
  /\ PAID_CHANNELS
       (bot (Sample.text_from Sample.the_owner "https://t.me/+xyz" Sample.paid_wizard_at_link))
     = [] ++ [html_entry "https://t.me/+xyz" (default "N/A" (Some "Gold"))].
Proof.
  assert (Hadmin : user_id Sample.the_owner ∈ ADMIN_IDS (bot Sample.paid_wizard_at_link))
    by (apply (bool_decide_unpack _); vm_compute; exact I).
  split; [exact Hadmin|]. split; [reflexivity|].
  pose proof (paid_wizard_two_steps Sample.cfg Sample.P Sample.fs
                (Sample.says Sample.the_owner "https://t.me/+xyz") Sample.the_owner
                Sample.paid_wizard_at_link eq_refl Hadmin) as [_ Hlink].
  exact (proj1 (Hlink eq_refl)).
Defined.

(** C3, witness: the blocked user of the sample deployment. *)
Lemma blocked_sender_guard_witness :
  user_id Sample.troll ∈ BLOCKED_USER_IDS (bot Sample.troll_blocked)
  /\ start_command Sample.cfg Sample.P (Sample.says Sample.troll "/start") Sample.troll_blocked
     = (Sample.troll_blocked, Ok tt)
  /\ fst (button_handler Sample.cfg Sample.P Sample.fs
            (Sample.presses Sample.troll "show_free_channels") Sample.troll_blocked)
     = log_call (answer 13 (Some YouAreBlocked) true) Sample.troll_blocked.
Proof.
  assert (Hblocked : user_id Sample.troll ∈ BLOCKED_USER_IDS (bot Sample.troll_blocked))
    by (apply (bool_decide_unpack _); vm_compute; exact I).
  split; [exact Hblocked|].
  pose proof (blocked_sender_guard Sample.cfg Sample.P Sample.fs Sample.troll
                Sample.troll_blocked Hblocked) as (Hcmd & Hbutton & _).
  split.
  - exact (proj1 (Hcmd (Sample.says Sample.troll "/start") eq_refl)).
  - exact (Hbutton (Sample.presses Sample.troll "show_free_channels") eq_refl).
Defined.

(** C10, witness: a user the directory has never seen. *)
Lemma start_kicks_every_non_member_witness :
  Dict.get 99 (USER_DATA (bot Sample.stocked)) = None
  /\ classify Sample.cfg (bot Sample.stocked) 99 = regular
  /\ exists tr,
       fst (start_command Sample.cfg Sample.P (Sample.says Sample.newcomer "/start")
              Sample.stocked)
       = extend (upsert Sample.newcomer Sample.stocked)
           ([get_chat_member (-1001) 99] ++ tr
            ++ [send_message 99 (JoinPrompt "Meera")])
       /\ kick_trace Sample.P 99 ([] ++ [get_chat_member (-1001) 99]) [-1001; -1002] tr
       /\ filter is_ban tr = map (fun c => ban_chat_member c 99) [-1001; -1002].
Proof.
  split; [reflexivity|]. split; [reflexivity|].
  apply (start_kicks_every_non_member Sample.cfg Sample.P
           (Sample.says Sample.newcomer "/start") Sample.newcomer Sample.stocked);
    [ reflexivity | apply (bool_decide_unpack _); vm_compute; exact I
    | reflexivity | reflexivity ].
Defined.

(** The calls of that run, in order. *)
Example sample_start_of_a_newcomer :
  out (fst (start_command Sample.cfg Sample.P (Sample.says Sample.newcomer "/start")
              Sample.stocked))
  = [get_chat_member (-1001) 99;
     ban_chat_member (-1001) 99; unban_chat_member (-1001) 99;
     ban_chat_member (-1002) 99; unban_chat_member (-1002) 99;
     send_message 99 (JoinPrompt "Meera")].
Proof. reflexivity. Qed.

(** C2, counterexample.  With no owner configured the owner id [0] is not
    in the admin list after the module body has run; and after the owner id
    is changed from 7 to 9, loading the snapshot written under the old
    owner leaves the new owner out of the admin list. *)
Lemma owner_missing_from_admin_set :
  ~ owner_is_admin Sample.cfg_unset (module_init Sample.cfg_unset)
  /\ owner_is_admin Sample.cfg (bot Sample.booted)
  /\ ~ owner_is_admin Sample.cfg_new_owner
         (bot (boot Sample.cfg_new_owner Sample.fs (disk Sample.booted))).
Proof.
  unfold owner_is_admin.
  split; [|split]; apply (bool_decide_unpack _); vm_compute; exact I.
Qed.

(** C3, counterexample.  A blocked user who presses a button is sent an
    alert answer, and the id command replies to a blocked user. *)
Lemma blocked_sender_still_answered :
  13 ∈ BLOCKED_USER_IDS (bot Sample.troll_blocked)
  /\ out (fst (button_handler Sample.cfg Sample.P Sample.fs
                 (Sample.presses Sample.troll "show_free_channels") Sample.troll_blocked))
     = out Sample.troll_blocked ++ [answer 13 (Some YouAreBlocked) true]
  /\ out (fst (id_command Sample.P (Sample.says Sample.troll "/id") Sample.troll_blocked))
     = out Sample.troll_blocked ++ [send_message 13 (YourUserId 13)].
Proof.
  split; [|split; reflexivity].
  apply (bool_decide_unpack _). vm_compute. exact I.
Qed.

(** C4, counterexample.  A user directory entry present when the snapshot
    is written is absent after a restart that reloads the snapshot. *)
Lemma user_directory_lost_on_restart :
  Dict.get 42 (USER_DATA (bot Sample.stocked))
  = Some {| p_full_name := "Ravi K"; p_username := None |}
  /\ disk (fst (save_data Sample.cfg Sample.fs Sample.stocked)) !! DATA_FILE Sample.cfg
     = Some (dump (bot Sample.stocked))
  /\ Dict.get 42
       (USER_DATA (bot (boot Sample.cfg Sample.fs
                          (disk (fst (save_data Sample.cfg Sample.fs Sample.stocked))))))
     = None.
Proof. repeat split; reflexivity. Qed.

(** C8, counterexample.  The paid catalogue is changed by the second
    message, the link; no step is pending afterwards, and a third message
    carrying a chat id is ignored. *)
Lemma paid_wizard_ends_at_the_link :
  PAID_CHANNELS (bot Sample.paid_wizard_at_link) = []
  /\ PAID_CHANNELS (bot Sample.paid_wizard_done)
     = [html_entry "https://t.me/+xyz" "Gold"]
  /\ next_step (ctx_of Sample.paid_wizard_done 7) = None
  /\ handle_text_input Sample.cfg Sample.P Sample.fs
       (Sample.says Sample.the_owner "-1001234567890") Sample.paid_wizard_done
     = (Sample.paid_wizard_done, Ok tt).
Proof. repeat split; reflexivity. Qed.


(** C1.  A rejected chat id in the add-free-channel wizard, on the sample
    deployment.  The owner has given a name and a link and the wizard waits
    for the chat id.  After the non-numeric answer ["abc"], or the numeric
    answer ["12345"] that does not start with -100 (to which the bot replies
    that the id must start with -100 and asks to try again), the globals are
    unchanged, but no step is pending and the name and link are gone: the
    valid id sent next is ignored, with no change and no call. *)
Theorem rejected_chat_id_ends_the_wizard :
  ctx_of Sample.free_wizard_at_chat_id 7
  = {| next_step := Some awaiting_free_channel_chat_id;
       new_channel_name := Some "Batch A";
       new_channel_link := Some "https://t.me/+abc" |}
  /\ bot (Sample.text_from Sample.the_owner "abc" Sample.free_wizard_at_chat_id)
     = bot Sample.free_wizard_at_chat_id
  /\ ctx_of (Sample.text_from Sample.the_owner "abc" Sample.free_wizard_at_chat_id) 7
     = no_ctx
  /\ ctx_of (Sample.text_from Sample.the_owner "12345" Sample.free_wizard_at_chat_id) 7
     = no_ctx
  /\ last (out (Sample.text_from Sample.the_owner "12345" Sample.free_wizard_at_chat_id))
     = Some (send_message 7 ChatIdMustStartWith100)
  /\ handle_text_input Sample.cfg Sample.P Sample.fs
       (Sample.says Sample.the_owner "-1001234567890")
       (Sample.text_from Sample.the_owner "abc" Sample.free_wizard_at_chat_id)
     = (Sample.text_from Sample.the_owner "abc" Sample.free_wizard_at_chat_id, Ok tt).
Proof. repeat split; reflexivity. Qed.

(** * The handlers one by one *)

(** Where a statement says what a handler does with a text that [int]
    accepts, the text is one the platform can deliver: a message text of at
    most 4096 characters, callback data of at most 64 bytes. *)

(** Enters [handle_text_input] for an admin with a pending step. *)
Ltac enter_text Huser Hadmin Hstep :=
  unfold handle_text_input; rewrite Huser; mrun;
  unfold is_admin; rewrite (bool_decide_eq_true_2 _ Hadmin); cbn [negb];
  rewrite Hstep; mrun.

(** ** The wizards on a user id *)

Section IdWizards.
Variable cfg : Config.
Variable P : Platform.
Variable fs : FileSystem.

(** A free-text message whose sender is missing, is no admin, or has no step
    pending is ignored: nothing changes, nothing is sent, nothing is
    raised. *)
Lemma text_input_ignored (update : MessageUpdate) (w : World) :
  (forall user, effective_user update = Some user ->
     user_id user ∉ ADMIN_IDS (bot w)
     \/ next_step (ctx_of w (user_id user)) = None) ->
  handle_text_input cfg P fs update w = (w, Ok tt).
Proof.
  intros Hskip. unfold handle_text_input.
  destruct (effective_user update) as [user|]; [|reflexivity].
  mrun. unfold is_admin.
  destruct (Hskip user eq_refl) as [Hadm | Hnone].
  - by rewrite (bool_decide_eq_false_2 _ Hadm).
  - rewrite Hnone. by destruct (negb _).
Qed.

(** X1.  The four wizards on a user id (add admin, remove admin, block,
    unblock) are for the owner only.  When an admin who is not the owner
    answers with such a step pending, the step is consumed and nothing else
    happens: the globals are unchanged, nothing is sent, nothing is
    written. *)
Theorem id_wizards_are_owner_only (update : MessageUpdate) (user : User) (s : step)
    (w : World) :
  effective_user update = Some user ->
  user_id user ∈ ADMIN_IDS (bot w) ->
  user_id user <> OWNER_ID cfg ->
  next_step (ctx_of w (user_id user)) = Some s ->
  id_step s = true ->
  handle_text_input cfg P fs update w = (consumed (user_id user) w, Ok tt).
Proof.
  intros Huser Hadmin Hnot Hstep Hs. enter_text Huser Hadmin Hstep.
  destruct s; try discriminate; unfold manage_ids, is_owner;
    by rewrite (bool_decide_eq_false_2 _ Hnot).
Qed.

(** X2.  When the owner answers one of the four user-id prompts with a text
    that [int] rejects, the pending step is consumed and the reply
    "invalid user id" is sent to the chat; the globals and the disk are as
    before, [save_data] is not reached. *)
Theorem id_wizards_reject_bad_id (update : MessageUpdate) (user : User) (s : step)
    (w : World) :
  effective_user update = Some user ->
  user_id user ∈ ADMIN_IDS (bot w) ->
  user_id user = OWNER_ID cfg ->
  next_step (ctx_of w (user_id user)) = Some s ->
  id_step s = true ->
  Py.int (text update) = None ->
  fst (handle_text_input cfg P fs update w)
  = log_call (send_message (chat_id (message_chat update)) InvalidUserId)
             (consumed (user_id user) w).
Proof.
  intros Huser Hadmin Howner Hstep Hs Hbad. enter_text Huser Hadmin Hstep.
  destruct s; try discriminate; unfold manage_ids, is_owner;
    rewrite (bool_decide_eq_true_2 _ Howner); cbn [negb];
    unfold int_or_raise; rewrite Hbad; mrun; cbn [except_ValueError]; mrun;
    by destruct (accepts P _ _).
Qed.
End IdWizards.

Section AdminWizards.
Variable cfg : Config.
Variable P : Platform.
Variable fs : FileSystem.

Lemma with_ADMIN_IDS_same (b : Bot) : with_ADMIN_IDS (ADMIN_IDS b) b = b.
Proof. by destruct b. Qed.

Lemma with_BLOCKED_USER_IDS_same (b : Bot) :
  with_BLOCKED_USER_IDS (BLOCKED_USER_IDS b) b = b.
Proof. by destruct b. Qed.

(** Enters the owner-only wizards with a text that parses. *)
Ltac enter_ids Huser Hadmin Howner Hstep Hint :=
  enter_text Huser Hadmin Hstep; unfold manage_ids, is_owner;
  rewrite (bool_decide_eq_true_2 _ Howner); cbn [negb];
  unfold int_or_raise; rewrite Hint; mrun; cbn [bot].

Ltac finish_run :=
  repeat match goal with
         | |- context [accepts P ?h ?c] => destruct (accepts P h c); mrun
         end;
  rewrite ?save_data_run; try destruct (can_save cfg fs); cbn.

Lemma add_admin_bot (update : MessageUpdate) (user : User) (target : Z) (w : World) :
  effective_user update = Some user ->
  user_id user ∈ ADMIN_IDS (bot w) ->
  user_id user = OWNER_ID cfg ->
  next_step (ctx_of w (user_id user)) = Some awaiting_add_admin_id ->
  Py.int (text update) = Some target ->
  bot (fst (handle_text_input cfg P fs update w))
  = with_ADMIN_IDS (if bool_decide (target ∈ ADMIN_IDS (bot w)) then ADMIN_IDS (bot w)
                    else ADMIN_IDS (bot w) ++ [target]) (bot w).
Proof.
  intros Huser Hadmin Howner Hstep Hint.
  enter_ids Huser Hadmin Howner Hstep Hint.
  rewrite bool_decide_not.
  case_bool_decide as Hin; cbn [negb]; mrun; finish_run;
    by rewrite ?with_ADMIN_IDS_same.
Qed.

(** X3.  The owner answers the add-admin prompt with a text, of at most 4096
    characters, that [int] reads as an id.  The id is appended to the admin
    list unless it is in the list already, and nothing else in the globals
    changes: the id is an admin afterwards, and a list without duplicates
    stays without duplicates. *)
Theorem add_admin_wizard (update : MessageUpdate) (user : User) (target : Z) (w : World) :
  effective_user update = Some user ->
  user_id user ∈ ADMIN_IDS (bot w) ->
  user_id user = OWNER_ID cfg ->
  next_step (ctx_of w (user_id user)) = Some awaiting_add_admin_id ->
  Py.int (text update) = Some target ->
  (Py.len (text update) <= 4096)%nat ->
  let admins := ADMIN_IDS (bot w) in
  let after := fst (handle_text_input cfg P fs update w) in
  bot after
  = with_ADMIN_IDS (if bool_decide (target ∈ admins) then admins else admins ++ [target])
                   (bot w)
  /\ target ∈ ADMIN_IDS (bot after)
  /\ (NoDup admins -> NoDup (ADMIN_IDS (bot after))).
Proof.
  intros Huser Hadmin Howner Hstep Hint _. cbv zeta.
  rewrite (add_admin_bot update user target w Huser Hadmin Howner Hstep Hint).
  split; [done|]. cbn [ADMIN_IDS with_ADMIN_IDS].
  case_bool_decide as Hin; (split; [|intros Hnd]); try done.
  - apply elem_of_app. right. left.
  - apply NoDup_app. repeat split; [done | | apply NoDup_singleton].
    intros x Hx Hx'. apply list_elem_of_singleton in Hx' as ->. done.
Qed.

Lemma list_remove_first_absent (x : Z) (l : list Z) :
  x ∉ l -> list_remove_first x l = l.
Proof.
  induction l as [|y l IH]; simpl; [done|].
  intros Hx. apply not_elem_of_cons in Hx as [Hne Hx].
  rewrite bool_decide_eq_false_2 by congruence. by rewrite IH.
Qed.

Lemma list_remove_first_gone (x : Z) (l : list Z) :
  NoDup l -> x ∉ list_remove_first x l.
Proof.
  induction 1 as [|y l Hy Hnd IH]; simpl; [apply not_elem_of_nil|].
  case_bool_decide as Heq; [by subst|].
  apply not_elem_of_cons. split; [congruence | exact IH].
Qed.

Lemma list_remove_first_other (x y : Z) (l : list Z) :
  y <> x -> y ∈ list_remove_first x l <-> y ∈ l.
Proof.
  intros Hne. induction l as [|z l IH]; simpl; [done|].
  case_bool_decide as Heq.
  - subst z. split; [by right | intros [?|?]%elem_of_cons; [congruence | done]].
  - rewrite !elem_of_cons, IH. done.
Qed.

(** X4.  The owner answers the remove-admin prompt with a text, of at most
    4096 characters, that [int] reads as an id.  The owner's own id is never
    removed; any other id loses its first occurrence in the admin list, so
    that it is no admin afterwards when the list had no duplicates; whether
    any other id is an admin does not change. *)
Theorem remove_admin_wizard (update : MessageUpdate) (user : User) (target : Z)
    (w : World) :
  effective_user update = Some user ->
  user_id user ∈ ADMIN_IDS (bot w) ->
  user_id user = OWNER_ID cfg ->
  next_step (ctx_of w (user_id user)) = Some awaiting_remove_admin_id ->
  Py.int (text update) = Some target ->
  (Py.len (text update) <= 4096)%nat ->
  let admins := ADMIN_IDS (bot w) in
  let after := fst (handle_text_input cfg P fs update w) in
  bot after
  = with_ADMIN_IDS (if bool_decide (target = OWNER_ID cfg) then admins
                    else list_remove_first target admins) (bot w)
  /\ (target <> OWNER_ID cfg -> NoDup admins -> target ∉ ADMIN_IDS (bot after))
  /\ (forall other, other <> target ->
        other ∈ ADMIN_IDS (bot after) <-> other ∈ admins).
Proof.
  intros Huser Hadmin Howner Hstep Hint _. cbv zeta.
  enter_ids Huser Hadmin Howner Hstep Hint.
  case_bool_decide as Hown; mrun.
  - finish_run; rewrite with_ADMIN_IDS_same; repeat split; done.
  - case_bool_decide as Hin; mrun; finish_run;
      rewrite ?(list_remove_first_absent _ _ Hin), ?with_ADMIN_IDS_same;
      (split; [done|]); (split; [intros _ Hnd; try done; by apply list_remove_first_gone|]);
      intros other Hother; try done; by apply list_remove_first_other.
Qed.

Lemma unblock_bot (update : MessageUpdate) (user : User) (target : Z) (w : World) :
  effective_user update = Some user ->
  user_id user ∈ ADMIN_IDS (bot w) ->
  user_id user = OWNER_ID cfg ->
  next_step (ctx_of w (user_id user)) = Some awaiting_unblock_user_id ->
  Py.int (text update) = Some target ->
  bot (fst (handle_text_input cfg P fs update w))
  = with_BLOCKED_USER_IDS (BLOCKED_USER_IDS (bot w) ∖ {[target]}) (bot w).
Proof.
  intros Huser Hadmin Howner Hstep Hint.
  enter_ids Huser Hadmin Howner Hstep Hint.
  case_bool_decide as Hin; mrun; finish_run; try done.
  all: assert (Hsame : BLOCKED_USER_IDS (bot w) ∖ {[target]} = BLOCKED_USER_IDS (bot w))
         by (by apply difference_disjoint_L, disjoint_singleton_r);
       by rewrite Hsame, with_BLOCKED_USER_IDS_same.
Qed.

(** X5.  The owner answers the unblock prompt with a text, of at most 4096
    characters, that [int] reads as an id.  Afterwards the id is not in the
    block list and nothing else in the globals has changed; the reply says
    that the user was unblocked when the id was in the list, and that it is
    not in the block list otherwise. *)
Theorem unblock_wizard (update : MessageUpdate) (user : User) (target : Z) (w : World) :
  effective_user update = Some user ->
  user_id user ∈ ADMIN_IDS (bot w) ->
  user_id user = OWNER_ID cfg ->
  next_step (ctx_of w (user_id user)) = Some awaiting_unblock_user_id ->
  Py.int (text update) = Some target ->
  (Py.len (text update) <= 4096)%nat ->
  let after := fst (handle_text_input cfg P fs update w) in
  bot after = with_BLOCKED_USER_IDS (BLOCKED_USER_IDS (bot w) ∖ {[target]}) (bot w)
  /\ out after
     = out w ++ [send_message (chat_id (message_chat update))
                   (if bool_decide (target ∈ BLOCKED_USER_IDS (bot w))
                    then UserUnblocked target else NotInBlockList)].
Proof.
  intros Huser Hadmin Howner Hstep Hint _. cbv zeta.
  split; [by apply (unblock_bot update user)|].
  enter_ids Huser Hadmin Howner Hstep Hint.
  case_bool_decide as Hin; mrun; by finish_run.
Qed.

(** X6.  The add-admin step does not look at the block list: a blocked id that
    the owner makes an admin (with a text of at most 4096 characters that
    [int] reads as that id) is in the admin list and still in the block list
    afterwards. *)
Theorem add_admin_ignores_block_list (update : MessageUpdate) (user : User) (target : Z)
    (w : World) :
  effective_user update = Some user ->
  user_id user ∈ ADMIN_IDS (bot w) ->
  user_id user = OWNER_ID cfg ->
  next_step (ctx_of w (user_id user)) = Some awaiting_add_admin_id ->
  Py.int (text update) = Some target ->
  (Py.len (text update) <= 4096)%nat ->
  target ∈ BLOCKED_USER_IDS (bot w) ->
  let after := fst (handle_text_input cfg P fs update w) in
  target ∈ ADMIN_IDS (bot after) /\ target ∈ BLOCKED_USER_IDS (bot after).
Proof.
  intros Huser Hadmin Howner Hstep Hint _ Hblocked. cbv zeta.
  rewrite (add_admin_bot update user target w Huser Hadmin Howner Hstep Hint).
  split; [|exact Hblocked]. cbn [ADMIN_IDS with_ADMIN_IDS].
  case_bool_decide as Hin; [done|]. apply elem_of_app. right. left.
Qed.
End AdminWizards.

(** ** Arming a wizard *)

Section Arming.
Variable cfg : Config.
Variable P : Platform.
Variable fs : FileSystem.

Lemma substring_all (s : string) : substring 0 (String.length s) s = s.
Proof. induction s as [|a s IH]; simpl; [done | by rewrite IH]. Qed.

Lemma ask_action (action : string) :
  Py.split1 "_" ("ask_" +:+ action) !! 1%nat = Some action.
Proof.
  change ("ask_" ++ action)%string
    with (String "a" (String "s" (String "k" (String "_" action)))).
  unfold Py.split1. cbn. rewrite Nat.sub_0_r, substring_all.
  by destruct action.
Qed.

(** The branch an [ask_] button takes for an admin. *)
Lemma ask_button_branch (query : CallbackQuery) (action : string) (w : World) :
  user_id (from_user query) ∉ BLOCKED_USER_IDS (bot w) ->
  user_id (from_user query) ∈ ADMIN_IDS (bot w) ->
  data query = "ask_" +:+ action ->
  let uid := user_id (from_user query) in
  button_handler cfg P fs query w
  = (platform_call P (answer uid None false);;
     match prompts action with
     | Some state =>
         set_next_step uid (Some state);;
         platform_call P (edit_message_text uid (Prompt state))
     | None => mret tt
     end) w.
Proof.
  intros Hfree Hadmin Hdata. cbv zeta. unfold button_handler. rewrite Hdata. mrun.
  rewrite (bool_decide_eq_false_2 _ Hfree). rewrite ask_action.
  change ("ask_" ++ action)%string
    with (String "a" (String "s" (String "k" (String "_" action)))).
  cbn [String.eqb Ascii.eqb Bool.eqb Py.startswith String.prefix
       Ascii.ascii_dec ascii_rec ascii_rect bool_dec bool_rec bool_rect sumbool_rec sumbool_rect].
  assert (Hpre : String.prefix "" action = true) by by destruct action.
  rewrite Hpre. change (default ""%string (Some action)) with action. mrun.
  unfold is_admin. cbn [bot log_call].
  rewrite (bool_decide_eq_true_2 _ Hadmin). cbn [negb].
  destruct (accepts P (out w) _); mrun; [|done].
  reflexivity.
Qed.

(** X8.  An admin who is not blocked presses a button whose data is
    [ask_<action>].  When the action is one of the ten of the prompts table
    its step becomes the sender's pending step and the prompt is shown
    (provided the platform accepted the answer to the button press);
    for any other action the press is answered and nothing else happens.
    Being an admin is enough, also for the steps of the owner-only
    wizards. *)
Theorem ask_button_arms_wizard (query : CallbackQuery) (action : string) (w : World) :
  user_id (from_user query) ∉ BLOCKED_USER_IDS (bot w) ->
  user_id (from_user query) ∈ ADMIN_IDS (bot w) ->
  data query = "ask_" +:+ action ->
  let uid := user_id (from_user query) in
  fst (button_handler cfg P fs query w)
  = match prompts action with
    | Some s =>
        if accepts P (out w) (answer uid None false)
        then log_call (edit_message_text uid (Prompt s))
               (armed uid s (log_call (answer uid None false) w))
        else log_call (answer uid None false) w
    | None => log_call (answer uid None false) w
    end.
Proof.
  intros Hfree Hadmin Hdata. cbv zeta.
  rewrite (ask_button_branch query action w Hfree Hadmin Hdata). mrun.
  destruct (accepts P (out w) _); mrun; [|by destruct (prompts action)].
  destruct (prompts action); mrun; [|done].
  by destruct (accepts P _ _).
Qed.
End Arming.

(** ** Block, then unblock *)

Section BlockUnblock.
Variable cfg : Config.
Variable P : Platform.
Variable fs : FileSystem.

Lemma block_adds (update : MessageUpdate) (user : User) (target : Z) (w : World) :
  effective_user update = Some user ->
  user_id user ∈ ADMIN_IDS (bot w) ->
  user_id user = OWNER_ID cfg ->
  next_step (ctx_of w (user_id user)) = Some awaiting_block_user_id ->
  Py.int (text update) = Some target ->
  target <> OWNER_ID cfg -> target ∉ ADMIN_IDS (bot w) ->
  bot (fst (handle_text_input cfg P fs update w))
  = with_BLOCKED_USER_IDS ({[target]} ∪ BLOCKED_USER_IDS (bot w)) (bot w).
Proof.
  intros Huser Hadmin Howner Hstep Hint Hno Hna.
  enter_text Huser Hadmin Hstep. unfold manage_ids, is_owner.
  rewrite (bool_decide_eq_true_2 _ Howner). cbn [negb].
  unfold int_or_raise. rewrite Hint. mrun. cbn [bot].
  rewrite (bool_decide_eq_false_2 _ Hno), (bool_decide_eq_false_2 _ Hna). cbn [orb]. mrun.
  destruct (accepts P _ _); mrun; [|done].
  rewrite save_data_run. by destruct (can_save cfg fs).
Qed.

(** X7.  Blocking an id and then unblocking it brings the globals back to what
    they were.  The owner answers the block prompt with the id of a user who
    is neither owner nor admin nor blocked, presses "unblock user" and answers
    with the same id: in between the id is in the block list, and at the end
    the globals equal those at the start.  Both answers are texts of at most
    4096 characters that [int] reads as the id. *)
Theorem block_then_unblock (first second : MessageUpdate) (user : User) (target : Z)
    (w : World) :
  effective_user first = Some user ->
  effective_user second = Some user ->
  Py.int (text first) = Some target ->
  Py.int (text second) = Some target ->
  (Py.len (text first) <= 4096)%nat ->
  (Py.len (text second) <= 4096)%nat ->
  user_id user = OWNER_ID cfg ->
  user_id user ∈ ADMIN_IDS (bot w) ->
  user_id user ∉ BLOCKED_USER_IDS (bot w) ->
  next_step (ctx_of w (user_id user)) = Some awaiting_block_user_id ->
  target <> OWNER_ID cfg ->
  target ∉ ADMIN_IDS (bot w) ->
  target ∉ BLOCKED_USER_IDS (bot w) ->
  (forall h, accepts P h (answer (user_id user) None false) = true) ->
  let blocked := fst (handle_text_input cfg P fs first w) in
  let asked := fst (button_handler cfg P fs
                      {| from_user := user; data := "ask_unblock_user" |} blocked) in
  let unblocked := fst (handle_text_input cfg P fs second asked) in
  target ∈ BLOCKED_USER_IDS (bot blocked) /\ bot unblocked = bot w.
Proof.
  intros H1 H2 Hint1 Hint2 _ _ Howner Hadmin Hfree Hstep Hno Hna Hnb Hans. cbv zeta.
  pose proof (block_adds first user target w H1 Hadmin Howner Hstep Hint1 Hno Hna) as Hb1.
  split; [rewrite Hb1; apply elem_of_union_l; by apply elem_of_singleton|].
  set (blocked := fst (handle_text_input cfg P fs first w)) in *.
  assert (Hadmin1 : user_id user ∈ ADMIN_IDS (bot blocked)) by by rewrite Hb1.
  assert (Hfree1 : user_id user ∉ BLOCKED_USER_IDS (bot blocked)).
  { rewrite Hb1. cbn. intros [Heq%elem_of_singleton | Hin]%elem_of_union; [|done].
    congruence. }
  rewrite (ask_button_branch cfg P fs
             {| from_user := user; data := "ask_unblock_user" |} "unblock_user"
             blocked Hfree1 Hadmin1 eq_refl).
  change (prompts "unblock_user") with (Some awaiting_unblock_user_id).
  cbn [from_user]. mrun. rewrite Hans. mrun. cbn [fst].
  set (asked := log_call (edit_message_text _ _) _).
  assert (Hbot2 : bot asked = bot blocked) by reflexivity.
  assert (Hstep2 : next_step (ctx_of asked (user_id user)) = Some awaiting_unblock_user_id).
  { unfold asked, ctx_of. cbn. by rewrite lookup_insert_eq. }
  rewrite (unblock_bot cfg P fs second user target asked H2
             ltac:(by rewrite Hbot2) Howner Hstep2 Hint2).
  rewrite Hbot2, Hb1. cbn.
  assert (Hset : ({[target]} ∪ BLOCKED_USER_IDS (bot w)) ∖ {[target]}
                 = BLOCKED_USER_IDS (bot w)).
  { rewrite difference_union_distr_l_L, difference_diag_L, (left_id_L ∅ (∪)).
    by apply difference_disjoint_L, disjoint_singleton_r. }
  rewrite Hset. by destruct (bot w).
Qed.
End BlockUnblock.

(** ** Facts about the dictionaries *)

Section DictFacts.
Context {V : Type}.
Implicit Types (d : dict V) (k : Z) (v : V).

Lemma get_set_eq k v d : Dict.get k (Dict.set k v d) = Some v.
Proof.
  induction d as [|[k' v'] d IH]; simpl.
  - by rewrite bool_decide_eq_true_2.
  - case_bool_decide as Hk; simpl.
    + by rewrite bool_decide_eq_true_2.
    + by rewrite (bool_decide_eq_false_2 _ Hk).
Qed.

Lemma get_set_ne k k' v d : k' <> k -> Dict.get k' (Dict.set k v d) = Dict.get k' d.
Proof.
  intros Hne. induction d as [|[k0 v0] d IH]; simpl.
  - by rewrite bool_decide_eq_false_2.
  - destruct (decide (k0 = k)) as [->|Hk].
    + rewrite (bool_decide_eq_true_2 (k = k)) by done. simpl.
      by rewrite !(bool_decide_eq_false_2 (k = k')) by congruence.
    + rewrite (bool_decide_eq_false_2 (k0 = k)) by done. simpl. by rewrite IH.
Qed.

Lemma get_None k d : Dict.get k d = None <-> k ∉ Dict.keys d.
Proof.
  induction d as [|[k' v'] d IH]; simpl.
  - split; [intros _; apply not_elem_of_nil | done].
  - rewrite not_elem_of_cons. case_bool_decide as Hk.
    + split; [done | intros [Hne _]; congruence].
    + rewrite IH. split; [intros ?; split; [congruence | done] | by intros [_ ?]].
Qed.

Lemma get_remove_ne k k' d : k' <> k -> Dict.get k' (Dict.remove k d) = Dict.get k' d.
Proof.
  intros Hne. induction d as [|[k0 v0] d IH]; simpl; [done|].
  destruct (decide (k0 = k)) as [->|Hk].
  - rewrite (bool_decide_eq_true_2 (k = k)) by done.
    by rewrite (bool_decide_eq_false_2 (k = k')) by congruence.
  - rewrite (bool_decide_eq_false_2 (k0 = k)) by done. simpl. by rewrite IH.
Qed.

Lemma keys_remove k d : Dict.keys (Dict.remove k d) = list_remove_first k (Dict.keys d).
Proof.
  induction d as [|[k0 v0] d IH]; simpl; [done|].
  case_bool_decide; simpl; [done | by rewrite IH].
Qed.

Lemma keys_set k v d :
  Dict.keys (Dict.set k v d)
  = if bool_decide (k ∈ Dict.keys d) then Dict.keys d else Dict.keys d ++ [k].
Proof.
  induction d as [|[k0 v0] d IH]; simpl; [done|].
  destruct (decide (k0 = k)) as [->|Hk].
  - rewrite (bool_decide_eq_true_2 (k = k)) by done. simpl.
    rewrite bool_decide_eq_true_2; [done | left].
  - rewrite (bool_decide_eq_false_2 (k0 = k)) by done. simpl. rewrite IH.
    destruct (decide (k ∈ Dict.keys d)) as [Hin|Hin].
    + rewrite !bool_decide_eq_true_2; [done | by right | done].
    + rewrite !bool_decide_eq_false_2; [done | | done].
      intros [?|?]%elem_of_cons; [congruence | done].
Qed.

Lemma get_remove_eq k d : Dict.wf d -> Dict.get k (Dict.remove k d) = None.
Proof.
  intros Hwf. apply get_None. rewrite keys_remove.
  by apply list_remove_first_gone.
Qed.

(** Removing the key found at a position removes the entry at that
    position. *)
Lemma remove_key_at (i : nat) k d :
  Dict.wf d -> Dict.keys d !! i = Some k -> Dict.remove k d = delete i d.
Proof.
  unfold Dict.wf. revert i. induction d as [|[k0 v0] d IH]; intros i Hwf Hi; [done|].
  simpl in *. apply NoDup_cons in Hwf as [Hk0 Hwf].
  destruct i as [|i]; simpl in *.
  - injection Hi as ->. by rewrite bool_decide_eq_true_2.
  - rewrite bool_decide_eq_false_2.
    + by rewrite (IH i).
    + intros ->. apply Hk0. by eapply list_elem_of_lookup_2.
Qed.

Lemma get_key_at (i : nat) k d :
  Dict.keys d !! i = Some k -> is_Some (Dict.get k d).
Proof.
  intros Hi. destruct (Dict.get k d) eqn:Hg; [done|].
  apply get_None in Hg. exfalso. apply Hg. by eapply list_elem_of_lookup_2.
Qed.

End DictFacts.

(** ** The channel wizards *)

Section ChannelWizards.
Variable cfg : Config.
Variable P : Platform.
Variable fs : FileSystem.

Ltac finish_run :=
  repeat match goal with
         | |- context [accepts P ?h ?c] => destruct (accepts P h c); mrun
         end;
  rewrite ?save_data_run; try destruct (can_save cfg fs); cbn.

(** X9.  An admin answers the remove-free-channel prompt with a text, of at
    most 4096 characters, that [int] reads as the number [n].  When [1 <= n <=
    len(FREE_CHANNELS)] the [n]-th channel in insertion order is removed from
    the catalogue and from the link mapping, and the catalogue no longer lists
    it; otherwise the globals are unchanged.  No step is pending afterwards in
    either case. *)
Theorem remove_free_channel_wizard (update : MessageUpdate) (user : User) (n : Z)
    (w : World) :
  effective_user update = Some user ->
  user_id user ∈ ADMIN_IDS (bot w) ->
  next_step (ctx_of w (user_id user)) = Some awaiting_remove_free_channel_num ->
  Py.int (text update) = Some n ->
  (Py.len (text update) <= 4096)%nat ->
  Dict.wf (FREE_CHANNELS (bot w)) ->
  let channels := FREE_CHANNELS (bot w) in
  let after := fst (handle_text_input cfg P fs update w) in
  match (if bool_decide (1 <= n) then Dict.keys channels !! Z.to_nat (n - 1) else None) with
  | Some removed =>
      bot after
      = with_FREE_CHANNEL_LINKS (Dict.remove removed (FREE_CHANNEL_LINKS (bot w)))
          (with_FREE_CHANNELS (delete (Z.to_nat (n - 1)) channels) (bot w))
      /\ Dict.get removed (FREE_CHANNELS (bot after)) = None
  | None => bot after = bot w
  end
  /\ next_step (ctx_of after (user_id user)) = None.
Proof.
  intros Huser Hadmin Hstep Hint _ Hwf. cbv zeta.
  enter_text Huser Hadmin Hstep. unfold int_or_raise. rewrite Hint. mrun. cbn [bot].
  assert (Hle : (0 <=? n - 1)%Z = bool_decide (1 <= n)).
  { case_bool_decide; [apply Z.leb_le | apply Z.leb_gt]; lia. }
  rewrite Hle.
  destruct (if bool_decide (1 <= n) then _ else None) as [removed|] eqn:Hat.
  - assert (Hkey : Dict.keys (FREE_CHANNELS (bot w)) !! Z.to_nat (n - 1) = Some removed)
      by by destruct (bool_decide (1 <= n)).
    destruct (get_key_at _ _ _ Hkey) as [title Htitle]. rewrite Htitle. mrun.
    cbn [bot with_FREE_CHANNELS with_FREE_CHANNEL_LINKS FREE_CHANNELS FREE_CHANNEL_LINKS].
    rewrite save_data_run.
    rewrite (remove_key_at _ _ _ Hwf Hkey).
    pose proof (get_remove_eq removed _ Hwf) as Hgone.
    rewrite (remove_key_at _ _ _ Hwf Hkey) in Hgone.
    destruct (can_save cfg fs); cbn; finish_run;
      unfold ctx_of; cbn; rewrite lookup_insert_eq; done.
  - mrun. finish_run; unfold ctx_of; cbn; rewrite lookup_insert_eq; done.
Qed.

(** X10.  An admin answers the remove-paid-channel prompt with a text, of at
    most 4096 characters, that [int] reads as the number [n].  When [1 <= n <=
    len(PAID_CHANNELS)] the [n]-th entry is deleted and the rest keeps its
    order; otherwise the globals are unchanged.  No step is pending
    afterwards. *)
Theorem remove_paid_channel_wizard (update : MessageUpdate) (user : User) (n : Z)
    (w : World) :
  effective_user update = Some user ->
  user_id user ∈ ADMIN_IDS (bot w) ->
  next_step (ctx_of w (user_id user)) = Some awaiting_remove_paid_channel_num ->
  Py.int (text update) = Some n ->
  (Py.len (text update) <= 4096)%nat ->
  let entries := PAID_CHANNELS (bot w) in
  let after := fst (handle_text_input cfg P fs update w) in
  bot after
  = (if bool_decide (1 <= n <= Z.of_nat (length entries))
     then with_PAID_CHANNELS (delete (Z.to_nat (n - 1)) entries) (bot w)
     else bot w)
  /\ next_step (ctx_of after (user_id user)) = None.
Proof.
  intros Huser Hadmin Hstep Hint _. cbv zeta.
  enter_text Huser Hadmin Hstep. unfold int_or_raise. rewrite Hint. mrun. cbn [bot].
  destruct (decide (1 <= n <= Z.of_nat (length (PAID_CHANNELS (bot w))))) as [Hin|Hout].
  - rewrite (bool_decide_eq_true_2 _ Hin).
    assert (Hle : (0 <=? n - 1)%Z = true) by (apply Z.leb_le; lia). rewrite Hle.
    destruct (lookup_lt_is_Some_2 (PAID_CHANNELS (bot w)) (Z.to_nat (n - 1)))
      as [entry Hentry]; [lia|].
    rewrite Hentry. mrun. rewrite save_data_run.
    destruct (can_save cfg fs); cbn; finish_run;
      unfold ctx_of; cbn; rewrite lookup_insert_eq; done.
  - rewrite (bool_decide_eq_false_2 _ Hout).
    assert (Hnone : (if (0 <=? n - 1)%Z then PAID_CHANNELS (bot w) !! Z.to_nat (n - 1)
                     else None) = None).
    { destruct (0 <=? n - 1)%Z eqn:Hle; [|done].
      apply lookup_ge_None_2. apply Z.leb_le in Hle. lia. }
    rewrite Hnone. mrun. finish_run; unfold ctx_of; cbn; rewrite lookup_insert_eq; done.
Qed.


(** X11.  The add-free-channel wizard, start to end.  An admin sends a
    non-empty name, a non-empty link and a text, of at most 4096 characters,
    that [int] reads as a chat id whose decimal form starts with [-100].  The
    globals are unchanged until the third message, which stores the name and
    the link under the chat id (in place when the id was listed, else at the
    end); both lookups then give what was entered, and the sender's context is
    empty again. *)
Theorem free_channel_wizard_adds (first second third : MessageUpdate) (user : User)
    (chat : Z) (w : World) :
  effective_user first = Some user ->
  effective_user second = Some user ->
  effective_user third = Some user ->
  user_id user ∈ ADMIN_IDS (bot w) ->
  next_step (ctx_of w (user_id user)) = Some awaiting_free_channel_name ->
  Py.truthy (text first) = true ->
  Py.truthy (text second) = true ->
  Py.int (text third) = Some chat ->
  (Py.len (text third) <= 4096)%nat ->
  Py.startswith (Py.str chat) "-100" = true ->
  let named := fst (handle_text_input cfg P fs first w) in
  let linked := fst (handle_text_input cfg P fs second named) in
  let added := fst (handle_text_input cfg P fs third linked) in
  bot linked = bot w
  /\ bot added
     = with_FREE_CHANNEL_LINKS (Dict.set chat (text second) (FREE_CHANNEL_LINKS (bot w)))
         (with_FREE_CHANNELS (Dict.set chat (text first) (FREE_CHANNELS (bot w))) (bot w))
  /\ Dict.get chat (FREE_CHANNELS (bot added)) = Some (text first)
  /\ Dict.get chat (FREE_CHANNEL_LINKS (bot added)) = Some (text second)
  /\ ctx_of added (user_id user) = no_ctx.
Proof.
  intros H1 H2 H3 Hadmin Hstep Hname Hlink Hint _ Hprefix. cbv zeta.
  assert (Hnamed : bot (fst (handle_text_input cfg P fs first w)) = bot w
                   /\ ctx_of (fst (handle_text_input cfg P fs first w)) (user_id user)
                      = {| next_step := Some awaiting_free_channel_link;
                           new_channel_name := Some (text first);
                           new_channel_link := new_channel_link (ctx_of w (user_id user)) |}).
  { enter_text H1 Hadmin Hstep. finish_run; unfold ctx_of; cbn;
      by rewrite !lookup_insert_eq. }
  destruct Hnamed as [Hb1 Hc1].
  set (named := fst (handle_text_input cfg P fs first w)) in *.
  assert (Hlinked : bot (fst (handle_text_input cfg P fs second named)) = bot w
                    /\ ctx_of (fst (handle_text_input cfg P fs second named)) (user_id user)
                       = {| next_step := Some awaiting_free_channel_chat_id;
                            new_channel_name := Some (text first);
                            new_channel_link := Some (text second) |}).
  { assert (Hs : next_step (ctx_of named (user_id user)) = Some awaiting_free_channel_link)
      by by rewrite Hc1.
    assert (Ha : user_id user ∈ ADMIN_IDS (bot named)) by by rewrite Hb1.
    enter_text H2 Ha Hs. cbn [bot]. rewrite Hb1.
    assert (Hn : new_channel_name (ctx_of named (user_id user)) = Some (text first))
      by by rewrite Hc1.
    finish_run; unfold ctx_of in *; cbn; rewrite !lookup_insert_eq; cbn;
      by rewrite Hn. }
  destruct Hlinked as [Hb2 Hc2].
  set (linked := fst (handle_text_input cfg P fs second named)) in *.
  split; [exact Hb2|].
  assert (Hs : next_step (ctx_of linked (user_id user)) = Some awaiting_free_channel_chat_id)
    by by rewrite Hc2.
  assert (Ha : user_id user ∈ ADMIN_IDS (bot linked)) by by rewrite Hb2.
  enter_text H3 Ha Hs.
  unfold int_or_raise. rewrite Hint. mrun. rewrite Hprefix. cbn [negb].
  assert (Hget : ctx_of
            {| bot := bot linked;
               user_data :=
                 <[user_id user := {| next_step := None;
                                      new_channel_name := new_channel_name (ctx_of linked (user_id user));
                                      new_channel_link := new_channel_link (ctx_of linked (user_id user)) |}]>
                   (user_data linked);
               disk := disk linked; out := out linked |} (user_id user)
          = {| next_step := None; new_channel_name := Some (text first);
               new_channel_link := Some (text second) |}).
  { unfold ctx_of at 1. cbn. rewrite lookup_insert_eq. cbn. by rewrite Hc2. }
  rewrite Hget. cbn [new_channel_name new_channel_link]. rewrite Hname, Hlink. cbn [andb].
  mrun. cbn [bot with_FREE_CHANNELS with_FREE_CHANNEL_LINKS FREE_CHANNELS FREE_CHANNEL_LINKS].
  rewrite save_data_run, Hb2.
  destruct (can_save cfg fs); cbn; finish_run;
    rewrite ?get_set_eq; unfold ctx_of; cbn; rewrite !lookup_insert_eq; done.
Qed.

Lemma keeps_modify_pair {A} (J : Bot -> Prop) (f g : Bot -> Bot) (k : M A) :
  (forall b, J b -> J (g (f b))) ->
  keeps J k ->
  keeps J (modify_bot f ;; modify_bot g ;; k).
Proof.
  intros Hfg Hk w Hw. rewrite !run_bind. cbn. apply Hk. cbn. by apply Hfg.
Qed.

Lemma same_keys_set (k : Z) (name link : string) (b : Bot) :
  same_keys b ->
  same_keys (with_FREE_CHANNEL_LINKS (Dict.set k link (FREE_CHANNEL_LINKS
               (with_FREE_CHANNELS (Dict.set k name (FREE_CHANNELS b)) b)))
               (with_FREE_CHANNELS (Dict.set k name (FREE_CHANNELS b)) b)).
Proof.
  unfold same_keys. cbn [FREE_CHANNELS FREE_CHANNEL_LINKS with_FREE_CHANNELS
                         with_FREE_CHANNEL_LINKS].
  intros Hb. by rewrite !keys_set, Hb.
Qed.

Lemma same_keys_remove (k : Z) (b : Bot) :
  same_keys b ->
  same_keys (with_FREE_CHANNEL_LINKS (Dict.remove k (FREE_CHANNEL_LINKS
               (with_FREE_CHANNELS (Dict.remove k (FREE_CHANNELS b)) b)))
               (with_FREE_CHANNELS (Dict.remove k (FREE_CHANNELS b)) b)).
Proof.
  unfold same_keys. cbn [FREE_CHANNELS FREE_CHANNEL_LINKS with_FREE_CHANNELS
                         with_FREE_CHANNEL_LINKS].
  intros Hb. by rewrite !keys_remove, Hb.
Qed.

(** The free-text handler keeps the link mapping aligned with the
    catalogue. *)
Lemma handle_text_input_keeps_same_keys (update : MessageUpdate) :
  keeps same_keys (handle_text_input cfg P fs update).
Proof.
  unfold handle_text_input, manage_ids. cbv zeta.
  repeat first
    [ apply keeps_modify_pair;
      [ intros b' Hb'; first [ by apply same_keys_set | by apply same_keys_remove ] | ]
    | keeps_step ].
  all: apply keeps_modify_bot; intros b' Hb'; exact Hb'.
Qed.
End ChannelWizards.

(** ** Broadcast and post *)

Section FanOut.
Variable cfg : Config.
Variable P : Platform.
Variable fs : FileSystem.

Lemma broadcast_loop_run (users : list Z) (m : message) (ok bad : nat) (w : World) :
  exists sent failed : nat,
    broadcast_loop P users m ok bad w
    = (extend w (map (fun u => send_message u m) users), Ok (ok + sent, bad + failed)%nat)
    /\ (sent + failed = length users)%nat
    /\ ((forall h u, accepts P h (send_message u m) = true) -> failed = 0%nat).
Proof.
  revert ok bad w. induction users as [|u users IH]; intros ok bad w.
  - exists 0%nat, 0%nat. cbn. rewrite extend_nil, !Nat.add_0_r. done.
  - cbn [broadcast_loop]. mrun.
    destruct (accepts P (out w) (send_message u m)) eqn:Hacc; mrun.
    + destruct (IH (S ok) bad (log_call (send_message u m) w))
        as (sent & failed & Hrun & Hsum & Hall).
      exists (S sent), failed. rewrite Hrun, log_call_extend, extend_extend.
      split; [do 3 f_equal; lia|]. split; [cbn; lia | exact Hall].
    + destruct (IH ok (S bad) (log_call (send_message u m) w))
        as (sent & failed & Hrun & Hsum & Hall).
      exists sent, (S failed). rewrite Hrun, log_call_extend, extend_extend.
      split; [do 3 f_equal; lia|]. split; [cbn; lia|].
      intros Hacc'. by rewrite Hacc' in Hacc.
Qed.

(** X13.  Broadcast.  The recipients are the known users that are neither
    admins nor blocked, in directory order.  The globals do not change.
    When the starting notice is accepted, the calls are the notice, one
    message per recipient in that order, and the closing report, whose two
    counts add up to the number of recipients, the failure count being 0
    when the platform accepts every message; a refused message does not
    stop the loop.  When the notice is refused, nothing is sent after
    it. *)
Theorem broadcast_fan_out (update : MessageUpdate) (user : User) (w : World) :
  effective_user update = Some user ->
  user_id user ∈ ADMIN_IDS (bot w) ->
  next_step (ctx_of w (user_id user)) = Some awaiting_broadcast_message ->
  let recipients :=
    filter (fun u => (u ∉ ADMIN_IDS (bot w)) /\ (u ∉ BLOCKED_USER_IDS (bot w)))
           (Dict.keys (USER_DATA (bot w))) in
  let chat := chat_id (message_chat update) in
  let notice := send_message chat (BroadcastStarting (length recipients)) in
  let after := fst (handle_text_input cfg P fs update w) in
  bot after = bot w
  /\ Forall (fun u => (u ∉ ADMIN_IDS (bot w)) /\ (u ∉ BLOCKED_USER_IDS (bot w))) recipients
  /\ if accepts P (out w) notice
     then exists sent failed : nat,
         out after
         = out w ++ [notice]
             ++ map (fun u => send_message u (Plain (text update))) recipients
             ++ [send_message chat (BroadcastDone sent failed)]
         /\ (sent + failed = length recipients)%nat
         /\ ((forall h u, accepts P h (send_message u (Plain (text update))) = true) ->
             failed = 0%nat)
     else out after = out w ++ [notice].
Proof.
  intros Huser Hadmin Hstep. cbv zeta. enter_text Huser Hadmin Hstep. cbn [bot out].
  set (recipients := filter _ _).
  assert (Hrec : Forall (fun u => (u ∉ ADMIN_IDS (bot w)) /\ (u ∉ BLOCKED_USER_IDS (bot w)))
                        recipients).
  { apply Forall_forall. intros u Hu. by apply list_elem_of_filter in Hu as [Hu _]. }
  destruct (accepts P (out w) _) eqn:Hnotice; mrun; [|done].
  match goal with
  | |- context [broadcast_loop P recipients ?m 0 0 ?w0] =>
      destruct (broadcast_loop_run recipients m 0 0 w0)
        as (sent & failed & Hrun & Hsum & Hall); rewrite Hrun
  end.
  mrun. cbn [fst snd]. split; [by destruct (accepts P _ _)|]. split; [exact Hrec|].
  exists sent, failed. split; [|done].
  destruct (accepts P _ _); cbn; by rewrite <- !app_assoc.
Qed.

Lemma post_loop_run (channels : list Z) (m : message) (ok : nat) (bad : list string)
    (w : World) :
  exists (sent : nat) (failed : list string),
    post_loop P channels m ok bad w
    = (extend w (map (fun c => send_message c m) channels), Ok ((ok + sent)%nat, bad ++ failed))
    /\ (sent + length failed = length channels)%nat
    /\ Forall (fun s => exists c, c ∈ channels /\ s = Py.str c) failed
    /\ ((forall h c, accepts P h (send_message c m) = true) -> failed = []).
Proof.
  revert ok bad w. induction channels as [|c channels IH]; intros ok bad w.
  - exists 0%nat, []. cbn. rewrite extend_nil, Nat.add_0_r, app_nil_r. done.
  - cbn [post_loop]. mrun.
    destruct (accepts P (out w) (send_message c m)) eqn:Hacc; mrun.
    + destruct (IH (S ok) bad (log_call (send_message c m) w))
        as (sent & failed & Hrun & Hsum & Hfrom & Hall).
      exists (S sent), failed. rewrite Hrun, log_call_extend, extend_extend.
      split; [do 3 f_equal; lia|]. split; [cbn; lia|]. split; [|exact Hall].
      eapply Forall_impl; [exact Hfrom|]. intros s (c' & Hc' & ->).
      exists c'. split; [by right | done].
    + destruct (IH ok (bad ++ [Py.str c]) (log_call (send_message c m) w))
        as (sent & failed & Hrun & Hsum & Hfrom & Hall).
      exists sent, (Py.str c :: failed). rewrite Hrun, log_call_extend, extend_extend.
      split; [by rewrite <- app_assoc|]. split; [cbn; lia|]. split.
      * constructor; [exists c; split; [left | done]|].
        eapply Forall_impl; [exact Hfrom|]. intros s (c' & Hc' & ->).
        exists c'. split; [by right | done].
      * intros Hacc'. by rewrite Hacc' in Hacc.
Qed.

(** X14.  Post.  One message goes to every free channel, in catalogue order,
    followed by the report to the admin; a refused message does not stop
    the loop.  The count of successes and the list of failed channel ids add
    up to the number of channels, every failed id is one of the catalogue,
    and the list is empty when the platform accepts every message.  The
    globals do not change. *)
Theorem post_fan_out (update : MessageUpdate) (user : User) (w : World) :
  effective_user update = Some user ->
  user_id user ∈ ADMIN_IDS (bot w) ->
  next_step (ctx_of w (user_id user)) = Some awaiting_post_message ->
  let channels := Dict.keys (FREE_CHANNELS (bot w)) in
  let after := fst (handle_text_input cfg P fs update w) in
  exists (sent : nat) (failed : list string),
    bot after = bot w
    /\ out after
       = out w ++ map (fun c => send_message c (Plain (text update))) channels
           ++ [send_message (chat_id (message_chat update)) (PostReport sent failed)]
    /\ (sent + length failed = length channels)%nat
    /\ Forall (fun s => exists c, c ∈ channels /\ s = Py.str c) failed
    /\ ((forall h c, accepts P h (send_message c (Plain (text update))) = true) ->
        failed = []).
Proof.
  intros Huser Hadmin Hstep. cbv zeta. enter_text Huser Hadmin Hstep. cbn [bot].
  match goal with
  | |- context [post_loop P ?cs ?m 0 [] ?w0] =>
      destruct (post_loop_run cs m 0 [] w0)
        as (sent & failed & Hrun & Hsum & Hfrom & Hall)
  end.
  exists sent, failed. rewrite Hrun. mrun. cbn.
  split; [done|]. split; [by rewrite <- !app_assoc | done].
Qed.
End FanOut.

(** ** Invariants of the globals and the contexts *)

Section Holds.
Context (K : Bot -> gmap Z Ctx -> Prop).

Lemma holds_ret {A} (a : A) : holds K (mret a : M A).
Proof. intros w Hw. exact Hw. Qed.

Lemma holds_raise {A} (e : exn) : holds K (raise e : M A).
Proof. intros w Hw. exact Hw. Qed.

Lemma holds_bind {A B} (m : M A) (k : A -> M B) :
  holds K m -> (forall a, holds K (k a)) -> holds K (m ≫= k).
Proof.
  intros Hm Hk w Hw. rewrite run_bind. specialize (Hm w Hw).
  destruct (m w) as [w' [a|e]]; simpl in *; [by apply Hk | done].
Qed.

Lemma holds_get_bot {B} (k : Bot -> M B) :
  (forall b, (exists ud, K b ud) -> holds K (k b)) -> holds K (get_bot ≫= k).
Proof. intros Hk w Hw. rewrite run_bind. simpl. apply Hk; [by eexists | done]. Qed.

Lemma holds_try_catch {A} (m : M A) (h : exn -> M A) :
  holds K m -> (forall e, holds K (h e)) -> holds K (try_catch m h).
Proof.
  intros Hm Hh w Hw. rewrite run_try_catch. specialize (Hm w Hw).
  destruct (m w) as [w' [a|e]]; simpl in *; [done | by apply Hh].
Qed.

Lemma holds_same {A} (m : M A) :
  (forall w, bot (fst (m w)) = bot w /\ user_data (fst (m w)) = user_data w) ->
  holds K m.
Proof. intros Hm w Hw. destruct (Hm w) as [-> ->]. exact Hw. Qed.

Lemma holds_modify_bot (f : Bot -> Bot) :
  (forall b ud, K b ud -> K (f b) ud) -> holds K (modify_bot f).
Proof. intros Hf w Hw. simpl. by apply Hf. Qed.

Lemma holds_set_ctx (uid : Z) (c : Ctx) :
  (forall b ud, K b ud -> K b (<[uid := c]> ud)) -> holds K (set_ctx uid c).
Proof. intros Hc w Hw. simpl. by apply Hc. Qed.

Lemma holds_set_next_step (uid : Z) (s : option step) :
  (forall b ud c, K b ud -> K b (<[uid := c]> ud)) -> holds K (set_next_step uid s).
Proof. intros Hc w Hw. unfold set_next_step. mrun. simpl. by apply Hc. Qed.

Lemma holds_for_each {A} (l : list A) (body : A -> M unit) :
  (forall x, holds K (body x)) -> holds K (for_each l body).
Proof.
  intros Hb. induction l as [|x l IH]; simpl.
  - apply holds_ret.
  - apply holds_bind; [apply Hb | intros _; apply IH].
Qed.
End Holds.

Section HoldsOps.
Variable cfg : Config.
Variable P : Platform.
Variable fs : FileSystem.
Context (K : Bot -> gmap Z Ctx -> Prop).

Lemma holds_platform_call c : holds K (platform_call P c).
Proof. by apply holds_same. Qed.

Lemma holds_reply u m : holds K (reply P u m).
Proof. by apply holds_same. Qed.

Lemma holds_lookup_member chat uid : holds K (lookup_member P chat uid).
Proof. by apply holds_same. Qed.

Lemma holds_get_ctx uid : holds K (get_ctx uid).
Proof. by apply holds_same. Qed.

Lemma holds_int_or_raise s : holds K (int_or_raise s).
Proof. apply holds_same. intros w. unfold int_or_raise. by destruct (Py.int s). Qed.

Lemma holds_save_data : holds K (save_data cfg fs).
Proof.
  apply holds_same. intros w. rewrite save_data_run. by destruct (can_save cfg fs).
Qed.

Lemma holds_is_user_member_of_channel uid :
  holds K (is_user_member_of_channel cfg P uid).
Proof.
  unfold is_user_member_of_channel. apply holds_get_bot. intros b _.
  destruct (is_admin b uid); [apply holds_ret|].
  apply holds_try_catch; [|intros _; apply holds_ret].
  apply holds_bind; [apply holds_lookup_member | intros ?; apply holds_ret].
Qed.

Lemma holds_kick uid c : holds K (kick P uid c).
Proof.
  unfold kick. apply holds_try_catch; [|intros _; apply holds_ret].
  apply holds_bind; [apply holds_platform_call | intros _; apply holds_platform_call].
Qed.

Lemma holds_remove_user_from_free_channels uid :
  holds K (remove_user_from_free_channels P uid).
Proof.
  unfold remove_user_from_free_channels. apply holds_get_bot. intros b _.
  destruct (is_admin b uid); [apply holds_ret|].
  apply holds_for_each. intros c. apply holds_kick.
Qed.

Lemma holds_broadcast_loop users m ok failed :
  holds K (broadcast_loop P users m ok failed).
Proof.
  apply holds_same. intros w.
  destruct (broadcast_loop_run P users m ok failed w) as (s & f & -> & _). done.
Qed.

Lemma holds_post_loop channels m ok failed :
  holds K (post_loop P channels m ok failed).
Proof.
  apply holds_same. intros w.
  destruct (post_loop_run P channels m ok failed w) as (s & f & -> & _). done.
Qed.

End HoldsOps.

(** One step of a proof that a handler keeps a property of the globals and
    the contexts; what changes the state is left to the caller. *)
Ltac holds_step :=
  lazymatch goal with
  | |- holds _ (get_bot ≫= _) => apply holds_get_bot; intros ? ?
  | |- holds _ (_ ≫= _) => apply holds_bind; [|intros ?]
  | |- holds _ (mret _) => apply holds_ret
  | |- holds _ (raise _) => apply holds_raise
  | |- holds _ (try_catch _ _) => apply holds_try_catch; [|intros ?]
  | |- holds _ (platform_call _ _) => apply holds_platform_call
  | |- holds _ (reply _ _ _) => apply holds_reply
  | |- holds _ (lookup_member _ _ _) => apply holds_lookup_member
  | |- holds _ (get_ctx _) => apply holds_get_ctx
  | |- holds _ (int_or_raise _) => apply holds_int_or_raise
  | |- holds _ (int_of_last_field _) => apply holds_int_or_raise
  | |- holds _ (save_data _ _) => apply holds_save_data
  | |- holds _ (is_user_member_of_channel _ _ _) => apply holds_is_user_member_of_channel
  | |- holds _ (remove_user_from_free_channels _ _) =>
      apply holds_remove_user_from_free_channels
  | |- holds _ (broadcast_loop _ _ _ _ _) => apply holds_broadcast_loop
  | |- holds _ (post_loop _ _ _ _ _) => apply holds_post_loop
  | |- holds _ (except_ValueError _ _) => unfold except_ValueError
  | |- holds _ (if ?c then _ else _) => destruct c eqn:?
  | |- holds _ (match ?x with _ => _ end) => destruct x eqn:?
  end.

(** ** Whose context an update touches *)

Section Isolation.
Variable cfg : Config.
Variable P : Platform.
Variable fs : FileSystem.

Lemma dispatch_holds_other_ctx (e : update) (other : Z) (c : option Ctx) :
  sender e <> Some other -> holds (ctx_is other c) (dispatch cfg P fs e).
Proof.
  intros Hother.
  assert (Hset : forall uid c', Some uid <> Some other ->
            forall b ud, ctx_is other c b ud -> ctx_is other c b (<[uid := c']> ud)).
  { intros uid c' Hne b ud Hud. unfold ctx_is in *.
    rewrite lookup_insert_ne; [done | congruence]. }
  destruct e as [u|u|u|q|u|r|r]; cbn [dispatch sender] in *.
  - unfold start_command. repeat holds_step. by apply holds_modify_bot.
  - unfold help_command. repeat holds_step.
  - unfold id_command, effective_chat. repeat holds_step.
  - unfold button_handler. cbv zeta.
    repeat first [ holds_step | by apply holds_modify_bot
                 | apply holds_set_next_step; intros b' ud' c'; by apply Hset ].
  - unfold handle_text_input, manage_ids. cbv zeta.
    destruct (effective_user u) as [user|] eqn:Hu; [|apply holds_ret].
    cbn in Hother.
    repeat first [ holds_step | by apply holds_modify_bot
                 | apply holds_set_next_step; intros b' ud' c'; by apply Hset
                 | apply holds_set_ctx; by apply Hset ].
  - unfold track_user_status. cbv zeta.
    repeat first [ holds_step | by apply holds_modify_bot ].
  - unfold track_bot_status. cbv zeta.
    repeat first [ holds_step | by apply holds_modify_bot ].
Qed.

(** X15.  Handling an update changes the context of no user but the sender:
    the pending step and the wizard fields of every other user are as
    before. *)
Theorem contexts_are_per_user (e : update) (other : Z) (w : World) :
  sender e <> Some other ->
  user_data (fst (dispatch cfg P fs e w)) !! other = user_data w !! other.
Proof.
  intros Hother.
  exact (dispatch_holds_other_ctx e other (user_data w !! other) Hother w eq_refl).
Qed.
End Isolation.

(** ** Who can change what *)

Section Authorization.
Variable cfg : Config.
Variable P : Platform.
Variable fs : FileSystem.

(** Closes a branch that only the owner, or only an admin, can reach. *)
Ltac unreachable Hno Hna :=
  exfalso;
  match goal with
  | H : negb (is_owner cfg _) = false |- _ =>
      unfold is_owner in H; rewrite (bool_decide_eq_false_2 _ Hno) in H; discriminate H
  | Hk : (exists ud, registry_is _ _ _ _ _ _ ?b ud),
    H : negb (is_admin ?b _) = false |- _ =>
      destruct Hk as (? & Ha & _); unfold is_admin in H; rewrite Ha in H;
      rewrite (bool_decide_eq_false_2 _ Hna) in H; discriminate H
  end.

Lemma dispatch_holds_registry (e : update) (a : list Z) (f l : dict string)
    (p : list string) (s : gset Z) (ud0 : gmap Z Ctx) :
  (forall uid, sender e = Some uid -> uid <> OWNER_ID cfg /\ uid ∉ a) ->
  holds (registry_is a f l p s ud0) (dispatch cfg P fs e).
Proof.
  intros Hreg.
  destruct e as [u|u|u|q|u|r|r]; cbn [dispatch sender] in *.
  - unfold start_command. repeat holds_step. by apply holds_modify_bot.
  - unfold help_command. repeat holds_step.
  - unfold id_command, effective_chat. repeat holds_step.
  - destruct (Hreg _ eq_refl) as [Hno Hna].
    unfold button_handler. cbv zeta.
    repeat holds_step; unreachable Hno Hna.
  - intros w Hw. rewrite text_input_ignored; [exact Hw|].
    intros user Hu. left. rewrite Hu in Hreg.
    destruct Hw as (-> & _). by apply (Hreg _ eq_refl).
  - unfold track_user_status. cbv zeta.
    repeat first [ holds_step | by apply holds_modify_bot ].
  - unfold track_bot_status. cbv zeta.
    repeat first [ holds_step | by apply holds_modify_bot ].
Qed.

(** X16.  An update from a sender who is neither the owner nor an admin
    changes neither the admin list, the free catalogue, the link mapping,
    the paid catalogue, the block list nor any user's context, whatever
    the update is. *)
Theorem regular_sender_changes_no_registry (e : update) (w : World) :
  (forall uid, sender e = Some uid ->
     uid <> OWNER_ID cfg /\ uid ∉ ADMIN_IDS (bot w)) ->
  let after := fst (dispatch cfg P fs e w) in
  ADMIN_IDS (bot after) = ADMIN_IDS (bot w)
  /\ FREE_CHANNELS (bot after) = FREE_CHANNELS (bot w)
  /\ FREE_CHANNEL_LINKS (bot after) = FREE_CHANNEL_LINKS (bot w)
  /\ PAID_CHANNELS (bot after) = PAID_CHANNELS (bot w)
  /\ BLOCKED_USER_IDS (bot after) = BLOCKED_USER_IDS (bot w)
  /\ user_data after = user_data w.
Proof.
  intros Hreg.
  apply (dispatch_holds_registry e _ _ _ _ _ _ Hreg w). by repeat split.
Qed.

Lemma dispatch_holds_roles (e : update) (a : list Z) (s : gset Z) :
  sender e <> Some (OWNER_ID cfg) ->
  holds (roles_are a s) (dispatch cfg P fs e).
Proof.
  intros Hno.
  destruct e as [u|u|u|q|u|r|r]; cbn [dispatch sender] in *.
  - unfold start_command. repeat holds_step. by apply holds_modify_bot.
  - unfold help_command. repeat holds_step.
  - unfold id_command, effective_chat. repeat holds_step.
  - unfold button_handler. cbv zeta.
    repeat first [ holds_step | by apply holds_modify_bot
                 | by apply holds_set_next_step ].
  - unfold handle_text_input. cbv zeta.
    destruct (effective_user u) as [user|] eqn:Hu; [|apply holds_ret].
    cbn in Hno. assert (Hne : user_id user <> OWNER_ID cfg) by congruence.
    unfold manage_ids, is_owner. rewrite (bool_decide_eq_false_2 _ Hne). cbn [negb].
    repeat first [ holds_step | by apply holds_modify_bot
                 | by apply holds_set_next_step | by apply holds_set_ctx ].
  - unfold track_user_status. cbv zeta.
    repeat first [ holds_step | by apply holds_modify_bot ].
  - unfold track_bot_status. cbv zeta.
    repeat first [ holds_step | by apply holds_modify_bot ].
Qed.

(** X17.  Only the owner changes the admin list and the block list: they are
    the same after any update that does not come from the owner. *)
Theorem only_the_owner_changes_roles (e : update) (w : World) :
  sender e <> Some (OWNER_ID cfg) ->
  ADMIN_IDS (bot (fst (dispatch cfg P fs e w))) = ADMIN_IDS (bot w)
  /\ BLOCKED_USER_IDS (bot (fst (dispatch cfg P fs e w))) = BLOCKED_USER_IDS (bot w).
Proof.
  intros Hno. by apply (dispatch_holds_roles e _ _ Hno w).
Qed.

Lemma dispatch_keeps (J : Bot -> Prop) (e : update) :
  (forall u, keeps J (handle_text_input cfg P fs u)) ->
  (forall v b, J b -> J (with_USER_DATA v b)) ->
  (forall v b, J b -> J (with_ACTIVE_CHATS v b)) ->
  holds (fun b _ => J b) (dispatch cfg P fs e).
Proof.
  intros Htext Hud Hac.
  destruct e as [u|u|u|q|u|r|r]; cbn [dispatch].
  - unfold start_command. repeat holds_step.
    apply holds_modify_bot. intros b' _. apply Hud.
  - unfold help_command. repeat holds_step.
  - unfold id_command, effective_chat. repeat holds_step.
  - unfold button_handler. cbv zeta.
    repeat first [ holds_step | by apply holds_set_next_step
                 | apply holds_modify_bot; intros b' _; apply Hac ].
  - exact (Htext u).
  - unfold track_user_status. cbv zeta.
    repeat first [ holds_step | apply holds_modify_bot; intros b' _; apply Hud ].
  - unfold track_bot_status. cbv zeta.
    repeat first [ holds_step | apply holds_modify_bot; intros b' _; apply Hac ].
Qed.

(** X12.  If the link mapping lists the same channel ids as the catalogue, in
    the same order, it still does after any update has been handled. *)
Theorem dispatch_keeps_links_with_channels (e : update) (w : World) :
  same_keys (bot w) -> same_keys (bot (fst (dispatch cfg P fs e w))).
Proof.
  apply (dispatch_keeps same_keys e); [|done..].
  apply handle_text_input_keeps_same_keys.
Qed.

(** X18.  If the owner is in the admin list, the owner is still in it after
    any update has been handled. *)
Theorem dispatch_keeps_owner_admin (e : update) (w : World) :
  owner_is_admin cfg (bot w) -> owner_is_admin cfg (bot (fst (dispatch cfg P fs e w))).
Proof.
  apply (dispatch_keeps (owner_is_admin cfg) e); [|done..].
  apply handle_text_input_keeps_owner.
Qed.
End Authorization.

(** ** Membership changes *)

Section MemberChanges.
Variable cfg : Config.
Variable P : Platform.
Variable fs : FileSystem.

(** X19.  A change of the bot's own membership.  When the new status is
    member or administrator the chat is registered under its title; when it
    is left or banned the chat is removed from the registry; for any other
    status the registry is unchanged.  No other chat's entry changes, and
    [save_data] runs in all three cases. *)
Theorem track_bot_status_registers (r : ChatMemberUpdated) (w : World) :
  let chat := chat_id (cm_chat r) in
  let chats := ACTIVE_CHATS (bot w) in
  let now :=
    match new_status r with
    | MEMBER | ADMINISTRATOR => Dict.set chat (title (cm_chat r)) chats
    | LEFT | BANNED => Dict.remove chat chats
    | _ => chats
    end in
  track_bot_status cfg fs (Some r) w = save_data cfg fs (with_chats now w)
  /\ (member_like (new_status r) = true -> new_status r <> OWNER ->
      Dict.get chat now = Some (title (cm_chat r)))
  /\ (new_status r = LEFT \/ new_status r = BANNED -> Dict.wf chats ->
      Dict.get chat now = None)
  /\ (forall other, other <> chat -> Dict.get other now = Dict.get other chats).
Proof.
  cbv zeta. split; [|split; [|split]].
  - unfold track_bot_status. destruct (new_status r); mrun; try reflexivity.
    all: by destruct w as [[] ? ? ?].
  - destruct (new_status r); try done; intros _ _; apply get_set_eq.
  - intros [-> | ->] Hwf; by apply get_remove_eq.
  - intros other Hother.
    destruct (new_status r); try done;
      first [by apply get_set_ne | by apply get_remove_ne].
Qed.

(** A membership change is ignored when it comes from an admin, when
    the old status was not a member status, when the new status is neither
    left nor banned, or when the chat is neither the mandatory channel nor
    a private chat. *)
Lemma track_user_status_ignores (r : ChatMemberUpdated) (w : World) :
  user_id (cm_from_user r) ∈ ADMIN_IDS (bot w)
  \/ member_like (old_status r) = false
  \/ (new_status r <> LEFT /\ new_status r <> BANNED)
  \/ (chat_id (cm_chat r) <> MANDATORY_CHANNEL_ID cfg /\ type (cm_chat r) <> PRIVATE) ->
  track_user_status cfg P (Some r) w = (w, Ok tt).
Proof.
  intros Hcase. unfold track_user_status. mrun. unfold is_admin.
  destruct (decide (user_id (cm_from_user r) ∈ ADMIN_IDS (bot w))) as [Hadm|Hadm].
  { by rewrite (bool_decide_eq_true_2 _ Hadm). }
  rewrite (bool_decide_eq_false_2 _ Hadm).
  destruct Hcase as [? | [Hold | [[Hl Hb] | [Hchat Htype]]]]; [done| | |].
  - by rewrite Hold.
  - destruct (member_like _); [|done]. by destruct (new_status r).
  - destruct (member_like _ && _); [|done].
    rewrite (bool_decide_eq_false_2 _ Hchat). by destruct (type (cm_chat r)).
Qed.

(** X20.  A user who is no admin blocks the bot (the private chat goes from a
    member status to left or banned).  The user's directory entry is
    dropped, a notice built from that entry, or from the update when there
    was none, is sent to the log channel, and the user is then kicked from
    every free channel, also when the notice was refused.  Nothing is
    raised. *)
Theorem track_user_status_on_block (r : ChatMemberUpdated) (w : World) :
  let user := cm_from_user r in
  let uid := user_id user in
  let profile := default {| p_full_name := full_name user; p_username := username user |}
                         (Dict.get uid (USER_DATA (bot w))) in
  let notice :=
    send_message (LOG_CHANNEL_ID cfg)
      (UserBlockedBot (p_full_name profile)
         (match p_username profile with
          | Some h => if Py.truthy h then Some h else None
          | None => None
          end) uid) in
  uid ∉ ADMIN_IDS (bot w) ->
  member_like (old_status r) = true ->
  new_status r = LEFT \/ new_status r = BANNED ->
  chat_id (cm_chat r) <> MANDATORY_CHANNEL_ID cfg ->
  type (cm_chat r) = PRIVATE ->
  exists tr,
    track_user_status cfg P (Some r) w = (extend (evicted uid w) ([notice] ++ tr), Ok tt)
    /\ kick_trace P uid (out w ++ [notice]) (Dict.keys (FREE_CHANNELS (bot w))) tr.
Proof.
  cbv zeta. intros Hadm Hold Hnew Hchat Htype.
  unfold track_user_status. mrun. unfold is_admin.
  rewrite (bool_decide_eq_false_2 _ Hadm), Hold.
  assert (Hleft : match new_status r with LEFT | BANNED => true | _ => false end = true)
    by by destruct Hnew as [-> | ->].
  rewrite Hleft. cbn [andb]. rewrite (bool_decide_eq_false_2 _ Hchat), Htype. mrun.
  set (notice := send_message _ _).
  destruct (kick_loop P (user_id (cm_from_user r)) (Dict.keys (FREE_CHANNELS (bot w)))
              (log_call notice (evicted (user_id (cm_from_user r)) w)))
    as (tr & Hrun & Htr & _).
  exists tr. split; [|exact Htr].
  assert (Hremove : remove_user_from_free_channels P (user_id (cm_from_user r))
                      (log_call notice (evicted (user_id (cm_from_user r)) w))
                    = (extend (evicted (user_id (cm_from_user r)) w) ([notice] ++ tr), Ok tt)).
  { unfold remove_user_from_free_channels. mrun. unfold is_admin.
    change (ADMIN_IDS (bot (log_call notice (evicted (user_id (cm_from_user r)) w))))
      with (ADMIN_IDS (bot w)).
    rewrite (bool_decide_eq_false_2 _ Hadm).
    change (FREE_CHANNELS (bot (log_call notice (evicted (user_id (cm_from_user r)) w))))
      with (FREE_CHANNELS (bot w)).
    by rewrite Hrun, log_call_extend, extend_extend. }
  cbn [out]. destruct (accepts P (out w) notice); mrun; exact Hremove.
Qed.

Lemma kick_trace_kicked (uid : Z) (h : list call) (cs : list Z) (tr : list call) :
  kick_trace P uid h cs tr -> Forall (fun c => kicked c = Some uid) tr.
Proof. induction 1; repeat constructor; done. Qed.

(** X21.  A change in the mandatory channel that takes a member to left or
    banned.  The handler acts on the performer of the change
    ([chat_member.from_user]) and never looks at the member whose status
    changed ([new_chat_member.user]).  When the performer is no admin of the
    bot, the performer is kicked from every free channel: one ban per
    channel in catalogue order, every call a ban or unban of the performer;
    the globals are unchanged and nothing is raised.  So a member who
    leaves on their own is kicked, but when someone else removes or bans
    the member, that someone is kicked and no call names the member. *)
Theorem track_user_status_kicks_the_performer (r : ChatMemberUpdated) (w : World) :
  user_id (cm_from_user r) ∉ ADMIN_IDS (bot w) ->
  member_like (old_status r) = true ->
  new_status r = LEFT \/ new_status r = BANNED ->
  chat_id (cm_chat r) = MANDATORY_CHANNEL_ID cfg ->
  exists tr,
    track_user_status cfg P (Some r) w = (extend w tr, Ok tt)
    /\ kick_trace P (user_id (cm_from_user r)) (out w)
         (Dict.keys (FREE_CHANNELS (bot w))) tr
    /\ filter is_ban tr
       = map (fun c => ban_chat_member c (user_id (cm_from_user r)))
           (Dict.keys (FREE_CHANNELS (bot w)))
    /\ Forall (fun c => kicked c = Some (user_id (cm_from_user r))) tr
    /\ (user_id (cm_member r) <> user_id (cm_from_user r) ->
        Forall (fun c => kicked c <> Some (user_id (cm_member r))) tr).
Proof.
  intros Hadm Hold Hnew Hchat.
  unfold track_user_status. mrun. unfold is_admin.
  rewrite (bool_decide_eq_false_2 _ Hadm), Hold.
  assert (Hleft : match new_status r with LEFT | BANNED => true | _ => false end = true)
    by by destruct Hnew as [-> | ->].
  rewrite Hleft. cbn [andb]. rewrite (bool_decide_eq_true_2 _ Hchat).
  unfold remove_user_from_free_channels. mrun. unfold is_admin.
  rewrite (bool_decide_eq_false_2 _ Hadm).
  destruct (kick_loop P (user_id (cm_from_user r)) (Dict.keys (FREE_CHANNELS (bot w))) w)
    as (tr & Hrun & Htr & Hbans).
  exists tr. pose proof (kick_trace_kicked _ _ _ _ Htr) as Hall.
  repeat split; try done.
  intros Hother. eapply Forall_impl; [exact Hall|].
  intros c Hc. rewrite Hc. congruence.
Qed.
End MemberChanges.

(** ** The leave-chat button *)

Section LeaveChat.
Variable cfg : Config.
Variable P : Platform.
Variable fs : FileSystem.

Lemma remove_absent {V} (k : Z) (d : dict V) : Dict.mem k d = false -> Dict.remove k d = d.
Proof.
  unfold Dict.mem. induction d as [|[k' v'] d IH]; simpl; [done|].
  case_bool_decide; [done|]. intros Hd. by rewrite IH.
Qed.

Lemma with_ACTIVE_CHATS_same (b : Bot) : with_ACTIVE_CHATS (ACTIVE_CHATS b) b = b.
Proof. by destruct b. Qed.

(** X22.  The leave-chat button, for callback data of at most 64 bytes.  From
    anyone but the owner it is ignored, without an answer.  From the owner, a
    last field that [int] rejects raises [ValueError] before any call;
    otherwise it is the id of the chat to leave.  When [leave_chat] and its
    confirmation are accepted the chat is removed from the registry and the
    refreshed list is shown; when either is refused the registry and the disk
    are unchanged and the last call is the failure alert. *)
Theorem leave_chat_button (query : CallbackQuery) (t : string) (w : World) :
  user_id (from_user query) ∉ BLOCKED_USER_IDS (bot w) ->
  data query = "leave_chat_" +:+ t ->
  (String.length (data query) <= 64)%nat ->
  let uid := user_id (from_user query) in
  let chats := ACTIVE_CHATS (bot w) in
  let run := button_handler cfg P fs query w in
  if bool_decide (uid = OWNER_ID cfg) then
    match Py.int (default "" (last (Py.split "_" (data query)))) with
    | None => run = (w, Raise ValueError)
    | Some c =>
        if accepts P (out w) (leave_chat c)
           && accepts P (out w ++ [leave_chat c]) (answer uid (Some (LeftChat c)) false)
        then bot (fst run) = with_ACTIVE_CHATS (Dict.remove c chats) (bot w)
             /\ edit_message_text uid (JoinList (Dict.remove c chats)) ∈ out (fst run)
        else bot (fst run) = bot w
             /\ disk (fst run) = disk w
             /\ last (out (fst run)) = Some (answer uid (Some LeaveFailed) true)
    end
  else run = (w, Ok tt).
Proof.
  intros Hfree Hdata _. cbv zeta. unfold button_handler, int_of_last_field, int_or_raise.
  mrun. rewrite (bool_decide_eq_false_2 _ Hfree).
  set (parsed := Py.int (default ""%string (last (Py.split "_" (data query))))).
  rewrite Hdata.
  change ("leave_chat_" +:+ t)
    with (String "l" (String "e" (String "a" (String "v" (String "e" (String "_"
         (String "c" (String "h" (String "a" (String "t" (String "_" t))))))))))).
  cbn [String.eqb Ascii.eqb Bool.eqb Py.startswith String.prefix
       Ascii.ascii_dec ascii_rec ascii_rect bool_dec bool_rec bool_rect
       sumbool_rec sumbool_rect].
  assert (Hpre : String.prefix "" t = true) by by destruct t.
  rewrite Hpre. unfold is_owner.
  case_bool_decide as Hown; cbn [negb]; [|reflexivity].
  destruct parsed as [c|]; mrun; [|reflexivity].
  destruct (accepts P (out w) (leave_chat c)) eqn:Hleave; mrun; cbn [andb].
  - cbn [out log_call].
    destruct (accepts P (out w ++ [leave_chat c]) _) eqn:Hans; mrun.
    + cbn [bot log_call].
      destruct (Dict.mem c (ACTIVE_CHATS (bot w))) eqn:Hmem; mrun.
      * rewrite save_data_run.
        destruct (can_save cfg fs); mrun; cbn;
          match goal with
          | |- context [accepts P ?h ?x] => destruct (accepts P h x)
          end; mrun; cbn; (split; [done|]);
          rewrite !elem_of_app; repeat first [ by right; left | left ].
      * rewrite (remove_absent _ _ Hmem), with_ACTIVE_CHATS_same. cbn.
        match goal with
        | |- context [accepts P ?h ?x] => destruct (accepts P h x)
        end; mrun; cbn; (split; [done|]);
          rewrite !elem_of_app; repeat first [ by right; left | left ].
    + cbn. repeat split; try done. by rewrite last_snoc.
  - cbn. repeat split; try done. by rewrite last_snoc.
Qed.
End LeaveChat.

(** ** What is written to disk *)

Section DiskStable.
Context {X : Type} (g : gmap string Snapshot -> X).

Lemma disk_stable_same {A} (m : M A) :
  (forall w, disk (fst (m w)) = disk w) -> disk_stable g m.
Proof. intros Hm w. by rewrite Hm. Qed.

Lemma disk_stable_ret {A} (a : A) : disk_stable g (mret a : M A).
Proof. by apply disk_stable_same. Qed.

Lemma disk_stable_bind {A B} (m : M A) (k : A -> M B) :
  disk_stable g m -> (forall a, disk_stable g (k a)) -> disk_stable g (m ≫= k).
Proof.
  intros Hm Hk w. rewrite run_bind. specialize (Hm w).
  destruct (m w) as [w' [a|e]]; simpl in *; [by rewrite Hk | done].
Qed.

Lemma disk_stable_try_catch {A} (m : M A) (h : exn -> M A) :
  disk_stable g m -> (forall e, disk_stable g (h e)) -> disk_stable g (try_catch m h).
Proof.
  intros Hm Hh w. rewrite run_try_catch. specialize (Hm w).
  destruct (m w) as [w' [a|e]]; simpl in *; [done | by rewrite Hh].
Qed.
End DiskStable.

Section DiskOps.
Variable cfg : Config.
Variable P : Platform.
Variable fs : FileSystem.
Context {X : Type} (g : gmap string Snapshot -> X).
Hypothesis save_stable : disk_stable g (save_data cfg fs).

Lemma disk_stable_is_user_member_of_channel uid :
  disk_stable g (is_user_member_of_channel cfg P uid).
Proof.
  apply disk_stable_same. intros w. unfold is_user_member_of_channel. mrun.
  destruct (is_admin _ _); [done|]. mrun. by destruct (accepts P _ _).
Qed.

Lemma disk_stable_remove_user uid :
  disk_stable g (remove_user_from_free_channels P uid).
Proof.
  apply disk_stable_same. intros w. unfold remove_user_from_free_channels. mrun.
  destruct (is_admin _ _); [done|].
  by destruct (kick_loop P uid (Dict.keys (FREE_CHANNELS (bot w))) w) as (tr & -> & _).
Qed.

Lemma disk_stable_broadcast_loop users m ok failed :
  disk_stable g (broadcast_loop P users m ok failed).
Proof.
  apply disk_stable_same. intros w.
  by destruct (broadcast_loop_run P users m ok failed w) as (s & f & -> & _).
Qed.

Lemma disk_stable_post_loop channels m ok failed :
  disk_stable g (post_loop P channels m ok failed).
Proof.
  apply disk_stable_same. intros w.
  by destruct (post_loop_run P channels m ok failed w) as (s & f & -> & _).
Qed.

Lemma disk_stable_int_or_raise s : disk_stable g (int_or_raise s).
Proof. apply disk_stable_same. intros w. unfold int_or_raise. by destruct (Py.int s). Qed.

(** One step of a proof that a handler leaves a view of the disk alone. *)
Ltac disk_step :=
  lazymatch goal with
  | |- disk_stable _ (save_data _ _) => exact save_stable
  | |- disk_stable _ (_ ≫= _) => apply disk_stable_bind; [|intros ?]
  | |- disk_stable _ (try_catch _ _) => apply disk_stable_try_catch; [|intros ?]
  | |- disk_stable _ (is_user_member_of_channel _ _ _) =>
      apply disk_stable_is_user_member_of_channel
  | |- disk_stable _ (remove_user_from_free_channels _ _) => apply disk_stable_remove_user
  | |- disk_stable _ (broadcast_loop _ _ _ _ _) => apply disk_stable_broadcast_loop
  | |- disk_stable _ (post_loop _ _ _ _ _) => apply disk_stable_post_loop
  | |- disk_stable _ (int_or_raise _) => apply disk_stable_int_or_raise
  | |- disk_stable _ (int_of_last_field _) => apply disk_stable_int_or_raise
  | |- disk_stable _ (except_ValueError _ _) => unfold except_ValueError
  | |- disk_stable _ (if ?c then _ else _) => destruct c eqn:?
  | |- disk_stable _ (match ?x with _ => _ end) => destruct x eqn:?
  | |- disk_stable _ _ => by apply disk_stable_same
  end.

Lemma dispatch_disk_stable (e : update) : disk_stable g (dispatch cfg P fs e).
Proof.
  destruct e as [u|u|u|q|u|r|r]; cbn [dispatch].
  - unfold start_command. repeat disk_step.
  - unfold help_command. repeat disk_step.
  - unfold id_command, effective_chat. repeat disk_step.
  - unfold button_handler. cbv zeta. repeat disk_step.
  - unfold handle_text_input, manage_ids. cbv zeta. repeat disk_step.
  - unfold track_user_status. cbv zeta. repeat disk_step.
  - unfold track_bot_status. cbv zeta. repeat disk_step.
Qed.
End DiskOps.

Section Disk.
Variable cfg : Config.
Variable P : Platform.
Variable fs : FileSystem.

(** X23.  No handler writes or removes any file other than the data file. *)
Theorem handlers_write_only_the_data_file (e : update) (path : string) (w : World) :
  path <> DATA_FILE cfg ->
  disk (fst (dispatch cfg P fs e w)) !! path = disk w !! path.
Proof.
  intros Hpath.
  apply (dispatch_disk_stable cfg P fs (fun d => d !! path)).
  intros w'. rewrite save_data_run. destruct (can_save cfg fs); [|done].
  cbn. by rewrite lookup_insert_ne.
Qed.

(** X24.  With no data file configured and no [/data] directory, the data
    file is the bare name [bot_data.json]; [os.makedirs] of its empty
    directory name raises, so no handler changes the disk, startup leaves
    the disk as it found it, and a process that finds no data file starts
    from the module's initial state. *)
Theorem bare_data_file_is_never_written (e : update) (w : World)
    (d : gmap string Snapshot) :
  env_DATA_FILE cfg = None \/ env_DATA_FILE cfg = Some "" ->
  data_dir_exists cfg = false ->
  disk (fst (dispatch cfg P fs e w)) = disk w
  /\ disk (boot cfg fs d) = d
  /\ (d !! DATA_FILE cfg = None -> bot (boot cfg fs d) = module_init cfg).
Proof.
  intros Henv Hdir.
  assert (Hbare : os_path_dirname (DATA_FILE cfg) = ""%string).
  { unfold DATA_FILE. rewrite Hdir. by destruct Henv as [-> | ->]. }
  assert (Hsave : forall w', save_data cfg fs w' = (w', Ok tt))
    by (intros w'; by apply save_data_bare_file_name).
  split; [|split].
  - apply (dispatch_disk_stable cfg P fs (fun d => d)). intros w'. by rewrite Hsave.
  - unfold boot, load_data. rewrite run_try_catch, run_bind. unfold read_json.
    cbn [fresh disk].
    destruct (d !! DATA_FILE cfg) as [data|]; [|by rewrite Hsave].
    assert (Hload : disk_stable (fun d => d) (load_from data)).
    { unfold load_from. repeat first [ apply disk_stable_bind; [|intros ?]
        | by apply disk_stable_same
        | apply disk_stable_same; intros w'; unfold int_keys;
          by destruct (Dict.rebuild _ _ _) ]. }
    specialize (Hload (fresh cfg d)). cbn in Hload.
    destruct (load_from data _) as [w' [[]|err]]; cbn in *; [done|].
    destruct err; try done. by rewrite Hsave.
  - intros Hnone. unfold boot, load_data. rewrite run_try_catch, run_bind.
    unfold read_json. cbn [fresh disk]. rewrite Hnone. by rewrite Hsave.
Qed.
End Disk.

(** ** Loading, and the commands *)

Section LoadingAndCommands.
Variable cfg : Config.
Variable P : Platform.
Variable fs : FileSystem.

(** X25.  When the data file does not exist, [load_data] does what
    [save_data] does: the globals are unchanged, and when the file can be
    written it holds the snapshot of the current globals afterwards. *)
Theorem load_data_without_file (w : World) :
  disk w !! DATA_FILE cfg = None ->
  load_data cfg fs w = save_data cfg fs w
  /\ bot (fst (load_data cfg fs w)) = bot w
  /\ (can_save cfg fs = true ->
      disk (fst (load_data cfg fs w)) !! DATA_FILE cfg = Some (dump (bot w))).
Proof.
  intros Hnone.
  assert (Hload : load_data cfg fs w = save_data cfg fs w).
  { unfold load_data. rewrite run_try_catch, run_bind. unfold read_json. by rewrite Hnone. }
  rewrite Hload, save_data_run. split; [done|].
  destruct (can_save cfg fs); cbn; split; try done.
  intros _. apply lookup_insert_eq.
Qed.

(** X26.  A data file whose free catalogue has a key that [int] rejects:
    [load_data] has by then replaced the admin list by the file's (when the
    file has one) and stops there.  Nothing else is loaded, not even the
    fields of the file that are well formed, and nothing is raised. *)
Theorem load_data_stops_at_bad_key (data : Snapshot) (w : World) :
  disk w !! DATA_FILE cfg = Some data ->
  Dict.rebuild Py.int (default [] (j_FREE_CHANNELS data)) [] = None ->
  load_data cfg fs w
  = (with_admins (default (ADMIN_IDS (bot w)) (j_ADMIN_IDS data)) w, Ok tt).
Proof.
  intros Hdata Hbad.
  unfold load_data. rewrite run_try_catch, run_bind. unfold read_json. rewrite Hdata.
  unfold load_from. mrun. unfold int_keys. by rewrite Hbad.
Qed.

(** [load_data] raises nothing. *)
Lemma load_data_never_raises (w : World) : snd (load_data cfg fs w) = Ok tt.
Proof.
  unfold load_data. rewrite run_try_catch.
  destruct ((read_json (DATA_FILE cfg) ≫= load_from) w) as [w' [[]|e]]; [done|].
  destruct e; try done. by rewrite save_data_run.
Qed.

(** X27.  The start command from a sender who is not blocked stores the
    sender's name and handle in the user directory and changes nothing
    else.  It sends the owner menu to the owner and the admin menu to an
    admin, both without a membership lookup; for anyone else it looks the
    sender up in the mandatory channel and, when the sender is a member,
    sends the member menu. *)
Theorem start_command_greets_by_role (update : MessageUpdate) (user : User) (w : World) :
  effective_user update = Some user ->
  user_id user ∉ BLOCKED_USER_IDS (bot w) ->
  let uid := user_id user in
  let chat := chat_id (message_chat update) in
  let lookup := get_chat_member (MANDATORY_CHANNEL_ID cfg) uid in
  let after := fst (start_command cfg P update w) in
  bot after = bot (upsert user w)
  /\ user_data after = user_data w
  /\ disk after = disk w
  /\ match classify cfg (bot w) uid with
     | owner => out after = out w ++ [send_message chat OwnerMenu]
     | admin => out after = out w ++ [send_message chat AdminMenu]
     | regular =>
         snd (is_user_member_of_channel cfg P uid w) = Ok true ->
         out after = out w ++ [lookup; send_message chat (MemberMenu (first_name user))]
     end.
Proof.
  intros Huser Hfree. cbv zeta. unfold start_command. rewrite Huser. mrun.
  rewrite (bool_decide_eq_false_2 _ Hfree). mrun.
  unfold classify, is_owner, is_admin. cbn [bot with_USER_DATA ADMIN_IDS].
  case_bool_decide as Hown; mrun; [done|].
  case_bool_decide as Hadm; mrun; [done|].
  unfold is_user_member_of_channel. mrun. unfold is_admin.
  cbn [bot with_USER_DATA ADMIN_IDS out].
  rewrite (bool_decide_eq_false_2 _ Hadm). mrun. cbn [out].
  destruct (accepts P (out w) _) eqn:Hacc; mrun.
  - destruct (member_like _) eqn:Hml; mrun.
    + cbn. repeat split; try done. intros _. by rewrite <- app_assoc.
    + cbn [bot log_call with_USER_DATA USER_DATA]. rewrite mem_set.
      match goal with
      | |- context [remove_user_from_free_channels P ?u ?w0] =>
          pose proof (holds_remove_user_from_free_channels P
                        (fun b ud => b = bot w0 /\ ud = user_data w0) u w0
                        (conj eq_refl eq_refl)) as [Hb Hu];
          pose proof (disk_stable_remove_user P (fun d => d) u w0) as Hd;
          destruct (remove_user_from_free_channels P u w0) as [w1 [[]|err]]
      end; cbn in *; mrun; cbn; rewrite Hb, Hu, Hd; repeat split; done.
  - cbn [bot log_call with_USER_DATA USER_DATA]. rewrite mem_set.
    match goal with
    | |- context [remove_user_from_free_channels P ?u ?w0] =>
        pose proof (holds_remove_user_from_free_channels P
                      (fun b ud => b = bot w0 /\ ud = user_data w0) u w0
                      (conj eq_refl eq_refl)) as [Hb Hu];
        pose proof (disk_stable_remove_user P (fun d => d) u w0) as Hd;
        destruct (remove_user_from_free_channels P u w0) as [w1 [[]|err]]
    end; cbn in *; mrun; cbn; rewrite Hb, Hu, Hd; repeat split; done.
Qed.

(** The help command from a sender who is not blocked changes nothing
    but the trace: an admin gets the admin help with no lookup; anyone else
    is looked up in the mandatory channel and gets the member help or the
    non-member help. *)
Lemma help_command_is_read_only (update : MessageUpdate) (user : User) (w : World) :
  effective_user update = Some user ->
  user_id user ∉ BLOCKED_USER_IDS (bot w) ->
  let uid := user_id user in
  let chat := chat_id (message_chat update) in
  let lookup := get_chat_member (MANDATORY_CHANNEL_ID cfg) uid in
  fst (help_command cfg P update w)
  = extend w
      (if bool_decide (uid ∈ ADMIN_IDS (bot w)) then [send_message chat HelpAdmin]
       else [lookup;
             send_message chat
               (if accepts P (out w) lookup
                   && member_like (member_status P (out w) (MANDATORY_CHANNEL_ID cfg) uid)
                then HelpMember else HelpNonMember)]).
Proof.
  intros Huser Hfree. cbv zeta. unfold help_command. rewrite Huser. mrun.
  rewrite (bool_decide_eq_false_2 _ Hfree). unfold is_admin.
  case_bool_decide as Hadm; mrun; [done|].
  unfold is_user_member_of_channel. mrun. unfold is_admin.
  rewrite (bool_decide_eq_false_2 _ Hadm). mrun.
  destruct (accepts P (out w) _); mrun; cbn [andb fst];
    rewrite !log_call_extend, extend_extend; done.
Qed.
End LoadingAndCommands.

(** ** Splitting strings *)

Section Strings.

Lemma append_cons (a : ascii) (s r : string) : String a s +:+ r = String a (s +:+ r).
Proof. reflexivity. Qed.

Lemma append_nil_l (r : string) : "" +:+ r = r.
Proof. reflexivity. Qed.

Lemma append_nil_r (s : string) : s +:+ "" = s.
Proof. induction s as [|a s IH]; [done|]. by rewrite append_cons, IH. Qed.

Lemma length_append (s r : string) :
  String.length (s +:+ r) = (String.length s + String.length r)%nat.
Proof. induction s as [|a s IH]; [done|]. rewrite append_cons. simpl. by rewrite IH. Qed.

Lemma prefix_nil (s : string) : String.prefix "" s = true.
Proof. by destruct s. Qed.

Lemma prefix_app (sep r : string) : String.prefix sep (sep +:+ r) = true.
Proof.
  induction sep as [|a sep IH]; [apply prefix_nil|].
  rewrite append_cons. simpl. by destruct (ascii_dec a a).
Qed.

Lemma substring_skip (sep r : string) :
  substring (String.length sep) (String.length (sep +:+ r) - String.length sep) (sep +:+ r)
  = r.
Proof.
  induction sep as [|a sep IH].
  - rewrite append_nil_l. simpl String.length. rewrite Nat.sub_0_r. apply substring_all.
  - rewrite append_cons. simpl. exact IH.
Qed.

Lemma partition_unfold (sep s : string) :
  Py.partition sep s
  = if String.prefix sep s
    then Some ("", substring (String.length sep) (String.length s - String.length sep) s)
    else match s with
         | EmptyString => None
         | String a r =>
             match Py.partition sep r with
             | Some (b, c) => Some (String a b, c)
             | None => None
             end
         end.
Proof. by destruct s. Qed.

(** The separator at the very start. *)
Lemma partition_here (sep r : string) : Py.partition sep (sep +:+ r) = Some ("", r).
Proof. by rewrite partition_unfold, prefix_app, substring_skip. Qed.

Lemma prefix_other (c a : ascii) (q r : string) :
  Ascii.eqb a c = false -> String.prefix (String c q) (String a r) = false.
Proof.
  intros Hne. simpl. destruct (ascii_dec c a) as [->|]; [|done].
  by rewrite Ascii.eqb_refl in Hne.
Qed.

(** A stretch [a] without the first character of the separator is skipped. *)
Lemma partition_skip (c : ascii) (q a r : string) :
  has_char c a = false ->
  Py.partition (String c q) (a +:+ r)
  = match Py.partition (String c q) r with
    | Some (b, t) => Some (a +:+ b, t)
    | None => None
    end.
Proof.
  induction a as [|x a IH]; intros Ha.
  - rewrite append_nil_l. by destruct (Py.partition (String c q) r) as [[b t]|].
  - simpl in Ha. apply orb_false_elim in Ha as [Hx Ha].
    rewrite append_cons, partition_unfold, (prefix_other _ _ _ _ Hx), (IH Ha).
    by destruct (Py.partition (String c q) r) as [[b t]|].
Qed.

Lemma partition_absent (c : ascii) (q s : string) :
  has_char c s = false -> Py.partition (String c q) s = None.
Proof.
  intros Hs. rewrite <- (append_nil_r s), (partition_skip c q s "" Hs). reflexivity.
Qed.

(** The first occurrence of a separator whose first character is not in
    the text before it. *)
Lemma partition_at (c : ascii) (q a r : string) :
  has_char c a = false ->
  Py.partition (String c q) (a +:+ String c q +:+ r) = Some (a, r).
Proof.
  intros Ha. rewrite (partition_skip c q a _ Ha), partition_here.
  by rewrite append_nil_r.
Qed.

Lemma split_found (sep s b c : string) :
  Py.partition sep s = Some (b, c) ->
  Py.split sep s = b :: Py.split_fuel (String.length s) sep c.
Proof. intros H. unfold Py.split. simpl. by rewrite H. Qed.

Lemma split_absent (sep s : string) :
  Py.partition sep s = None -> Py.split sep s = [s].
Proof. intros H. unfold Py.split. simpl. by rewrite H. Qed.

Lemma split_second (sep s b c : string) :
  Py.partition sep s = Some (b, c) -> s <> "" ->
  exists rest, Py.split sep s = b :: first_piece sep c :: rest.
Proof.
  intros H Hs. rewrite (split_found _ _ _ _ H).
  destruct s as [|x s]; [done|]. unfold first_piece. simpl.
  destruct (Py.partition sep c) as [[b' c']|]; eexists; reflexivity.
Qed.

(** ** Reading a paid entry back *)

Lemma prefix_cons (c a : ascii) (q r : string) :
  String.prefix (String c q) (String a r)
  = if ascii_dec c a then String.prefix q r else false.
Proof. reflexivity. Qed.

Lemma href_not_here (a : ascii) (l t : string) :
  has_char "'" (String a l) = false ->
  endswith (String a l) "href=" = false ->
  String.prefix "href='" (String a l +:+ "'" +:+ t) = false.
Proof.
  intros Hq He.
  destruct (String.prefix "href='" (String a l +:+ "'" +:+ t)) eqn:Hp; [exfalso|done].
  rewrite append_cons, prefix_cons in Hp.
  destruct (ascii_dec "h" a) as [<-|]; [|done].
  do 4 (destruct l as [|? l];
        [ rewrite ?append_cons, ?append_nil_l, prefix_cons in Hp;
          match type of Hp with
          | context [ascii_dec ?x ?y] => by destruct (ascii_dec x y)
          end |];
        rewrite append_cons, prefix_cons in Hp;
        match type of Hp with
        | context [ascii_dec ?x ?y] => destruct (ascii_dec x y) as [<-|]; [|done]
        end).
  destruct l as [|c l]; [done|].
  rewrite append_cons, prefix_cons in Hp.
  destruct (ascii_dec "'" c) as [<-|]; [|done].
  done.
Qed.

Lemma endswith_tail (a : ascii) (l suf : string) :
  endswith (String a l) suf = false -> endswith l suf = false.
Proof. simpl. intros H. by apply orb_false_elim in H as [_ H]. Qed.

Lemma href_piece (link t : string) :
  has_char "'" link = false ->
  endswith link "href=" = false ->
  exists y, first_piece "href='" (link +:+ "'" +:+ t) = link +:+ "'" +:+ y.
Proof.
  unfold first_piece. induction link as [|a l IH]; intros Hq He.
  - rewrite append_nil_l.
    change ("'" +:+ t) with (String "'" t).
    rewrite partition_unfold. simpl String.prefix. cbn iota.
    destruct (Py.partition "href='" t) as [[b c]|]; [by exists b | by exists t].
  - rewrite partition_unfold, (href_not_here a l t Hq He).
    rewrite append_cons.
    destruct IH as [y Hy].
    { simpl in Hq. by apply orb_false_elim in Hq as [_ Hq]. }
    { by apply endswith_tail in He. }
    destruct (Py.partition "href='" (l +:+ "'" +:+ t)) as [[b c]|].
    + exists y. by rewrite Hy.
    + by exists t.
Qed.

Lemma quote_piece (link y d : string) :
  has_char "'" link = false ->
  hd d (Py.split "'" (link +:+ "'" +:+ y)) = link.
Proof.
  intros Hq.
  by rewrite (split_found _ _ _ _ (partition_at "'" "" link y Hq)).
Qed.

Lemma paid_link_html_entry (link name : string) :
  has_char "'" link = false ->
  endswith link "href=" = false ->
  paid_link (html_entry link name) = Some link.
Proof.
  intros Hq He. unfold paid_link.
  set (t := ">💎<code>" +:+ name +:+ "</code></a> - प्रीमियम कंटेंट के लिए।").
  assert (Hp : Py.partition "href='" (html_entry link name)
               = Some ("<a ", link +:+ "'" +:+ t))
    by (apply (partition_at "h" "ref='" "<a " (link +:+ "'" +:+ t)); reflexivity).
  destruct (split_second _ _ _ _ Hp) as [rest ->]; [done|].
  destruct (href_piece link t Hq He) as [y ->].
  by rewrite quote_piece.
Qed.

Lemma paid_name_html_entry (link name : string) :
  has_char "<" link = false ->
  has_char "<" name = false ->
  paid_name (html_entry link name) = Some name.
Proof.
  intros Hl Hn. unfold paid_name.
  set (t := "</a> - प्रीमियम कंटेंट के लिए।").
  assert (Hrest : Py.partition "<code>" (name +:+ "</code>" +:+ t) = None).
  { rewrite (partition_skip "<" "code>" name _ Hn).
    replace (Py.partition "<code>" ("</code>" +:+ t)) with (@None (string * string))
      by (vm_compute; reflexivity).
    reflexivity. }
  assert (Hp : Py.partition "<code>" (html_entry link name)
               = Some ("<a href='" +:+ link +:+ "'>💎", name +:+ "</code>" +:+ t)).
  { change (html_entry link name)
      with (String "<" ("a href='" +:+ link +:+ "'>💎" +:+ "<code>"
                          +:+ (name +:+ "</code>" +:+ t))).
    rewrite partition_unfold. simpl String.prefix. cbn iota.
    change ("a href='" +:+ link +:+ "'>💎" +:+ "<code>" +:+ (name +:+ "</code>" +:+ t))
      with ("a href='" +:+ (link +:+ ("'>💎" +:+ "<code>" +:+ (name +:+ "</code>" +:+ t)))).
    rewrite (partition_skip "<" "code>" "a href='" _ eq_refl).
    rewrite (partition_skip "<" "code>" link _ Hl).
    rewrite (partition_at "<" "code>" "'>💎" _ eq_refl).
    reflexivity. }
  destruct (split_second _ _ _ _ Hp) as [rest ->]; [done|].
  unfold first_piece. rewrite Hrest.
  by rewrite (split_found _ _ _ _ (partition_at "<" "/code>" name t Hn)).
Qed.

End Strings.

(** ** The buttons of the channel lists *)

Section ListButtons.
Context (cfg : Config) (P : Platform) (fs : FileSystem).

Lemma uint_no_underscore (d : Decimal.uint) :
  has_char "_" (NilEmpty.string_of_uint d) = false.
Proof. induction d; done. Qed.

Lemma str_no_underscore (n : Z) : has_char "_" (Py.str n) = false.
Proof.
  unfold Py.str. destruct n as [|p|p]; [reflexivity | |];
    cbn [Z.to_int NilZero.string_of_int]; rewrite string_of_to_uint.
  - apply uint_no_underscore.
  - simpl. apply uint_no_underscore.
Qed.

Lemma split_fuel_at (n : nat) (c : ascii) (a r : string) :
  has_char c a = false ->
  Py.split_fuel (S n) (String c "") (a +:+ String c "" +:+ r)
  = a :: Py.split_fuel n (String c "") r.
Proof. intros Ha. simpl. by rewrite (partition_at c "" a r Ha). Qed.

Lemma split_fuel_absent (n : nat) (c : ascii) (s : string) :
  has_char c s = false -> Py.split_fuel n (String c "") s = [s].
Proof. intros Hs. destruct n; simpl; [done|]. by rewrite (partition_absent c "" s Hs). Qed.

(** The last field of [<word>_<word>_<s>] is [s]. *)
Lemma last_field (a : ascii) (w1 w2 s : string) :
  has_char "_" (String a w1) = false -> has_char "_" w2 = false ->
  has_char "_" s = false ->
  last (Py.split "_" (String a w1 +:+ "_" +:+ w2 +:+ "_" +:+ s)) = Some s.
Proof.
  intros H1 H2 Hs. unfold Py.split.
  rewrite (split_fuel_at _ "_" (String a w1) _ H1).
  rewrite append_cons. simpl String.length.
  rewrite (split_fuel_at _ "_" w2 _ H2), (split_fuel_absent _ "_" s Hs).
  reflexivity.
Qed.

Lemma int_of_join_free (chat : Z) :
  Py.int (default "" (last (Py.split "_" (join_free_data chat)))) = Some chat.
Proof.
  unfold join_free_data.
  change ("join_free_" +:+ Py.str chat)
    with ("join" +:+ "_" +:+ "free" +:+ "_" +:+ Py.str chat).
  rewrite (last_field "j" "oin" "free" (Py.str chat) eq_refl eq_refl (str_no_underscore _)).
  apply int_str.
Qed.

Lemma int_of_join_paid (i : nat) :
  Py.int (default "" (last (Py.split "_" (join_paid_data i)))) = Some (Z.of_nat i).
Proof.
  unfold join_paid_data.
  change ("join_paid_" +:+ Py.str (Z.of_nat i))
    with ("join" +:+ "_" +:+ "paid" +:+ "_" +:+ Py.str (Z.of_nat i)).
  rewrite (last_field "j" "oin" "paid" (Py.str _) eq_refl eq_refl (str_no_underscore _)).
  apply int_str.
Qed.

(** X28.  The wizard's entry is read back as it was composed: the join button
    gets the link and the list of paid channels the name, provided the link
    holds no single quote and does not end in [href=], and neither the link
    nor the name holds a [<]. *)
Theorem paid_entry_round_trip (link name : string) :
  has_char "'" link = false ->
  endswith link "href=" = false ->
  has_char "<" link = false ->
  has_char "<" name = false ->
  paid_link (html_entry link name) = Some link
  /\ paid_name (html_entry link name) = Some name.
Proof.
  intros Hq He Hl Hn. split.
  - by apply paid_link_html_entry.
  - by apply paid_name_html_entry.
Qed.

(** X29.  The button of a free channel, as the list of free channels makes it,
    leads to the link stored for that channel: the menu message is deleted
    and the join message with the link is sent; where no link (or an empty
    one) is stored, the user gets the alert that no link is available. *)
Theorem free_channel_button (query : CallbackQuery) (chat : Z) (w : World) :
  user_id (from_user query) ∉ BLOCKED_USER_IDS (bot w) ->
  data query = join_free_data chat ->
  accepts P (out w) (answer (user_id (from_user query)) None false) = true ->
  accepts P (out w ++ [answer (user_id (from_user query)) None false])
    (delete_message (user_id (from_user query))) = true ->
  let uid := user_id (from_user query) in
  fst (button_handler cfg P fs query w)
  = extend w
      [answer uid None false; delete_message uid;
       match Dict.get chat (FREE_CHANNEL_LINKS (bot w)) with
       | Some link =>
           if Py.truthy link then send_message uid (JoinNow link)
           else answer uid (Some NoLinkForChannel) true
       | None => answer uid (Some NoLinkForChannel) true
       end].
Proof.
  intros Hfree Hdata Hans Hdel. cbv zeta.
  unfold button_handler, int_of_last_field, int_or_raise.
  mrun. rewrite (bool_decide_eq_false_2 _ Hfree).
  rewrite Hdata, int_of_join_free. unfold join_free_data.
  set (s := Py.str chat).
  change ("join_free_" +:+ s)
    with (String "j" (String "o" (String "i" (String "n" (String "_"
         (String "f" (String "r" (String "e" (String "e" (String "_" s)))))))))).
  cbn [String.eqb Ascii.eqb Bool.eqb Py.startswith String.prefix
       Ascii.ascii_dec ascii_rec ascii_rect bool_dec bool_rec bool_rect
       sumbool_rec sumbool_rect].
  assert (Hpre : String.prefix "" s = true) by by destruct s.
  rewrite ?Hpre. mrun. rewrite Hans. mrun. cbn [out log_call]. rewrite Hdel. mrun.
  cbn [bot log_call].
  destruct (Dict.get chat (FREE_CHANNEL_LINKS (bot w))) as [link|];
    [destruct (Py.truthy link)|]; cbn; unfold extend, log_call; cbn;
    by rewrite <- ?app_assoc.
Qed.

(** X30.  The button of the paid entry at position [i], as the list of paid
    channels makes it, sends the join message with the link the entry was
    composed with, under the conditions on the link of the round trip; for a
    position the list no longer has, the menu message is deleted and nothing
    is sent. *)
Theorem paid_channel_button (query : CallbackQuery) (i : nat) (w : World) :
  user_id (from_user query) ∉ BLOCKED_USER_IDS (bot w) ->
  data query = join_paid_data i ->
  accepts P (out w) (answer (user_id (from_user query)) None false) = true ->
  accepts P (out w ++ [answer (user_id (from_user query)) None false])
    (delete_message (user_id (from_user query))) = true ->
  let uid := user_id (from_user query) in
  let after := fst (button_handler cfg P fs query w) in
  (forall link name,
      PAID_CHANNELS (bot w) !! i = Some (html_entry link name) ->
      has_char "'" link = false -> endswith link "href=" = false ->
      after = extend w [answer uid None false; delete_message uid;
                        send_message uid (JoinNowPaid link)])
  /\ (PAID_CHANNELS (bot w) !! i = None ->
      after = extend w [answer uid None false; delete_message uid]).
Proof.
  intros Hfree Hdata Hans Hdel. cbv zeta.
  unfold button_handler, int_of_last_field, int_or_raise.
  mrun. rewrite (bool_decide_eq_false_2 _ Hfree).
  rewrite Hdata, int_of_join_paid. unfold join_paid_data.
  set (s := Py.str (Z.of_nat i)).
  change ("join_paid_" +:+ s)
    with (String "j" (String "o" (String "i" (String "n" (String "_"
         (String "p" (String "a" (String "i" (String "d" (String "_" s)))))))))).
  cbn [String.eqb Ascii.eqb Bool.eqb Py.startswith String.prefix
       Ascii.ascii_dec ascii_rec ascii_rect bool_dec bool_rec bool_rect
       sumbool_rec sumbool_rect].
  assert (Hpre : String.prefix "" s = true) by by destruct s.
  rewrite ?Hpre. mrun. rewrite Hans. mrun. cbn [out log_call]. rewrite Hdel. mrun.
  cbn [bot log_call].
  rewrite (proj2 (Z.leb_le 0 (Z.of_nat i)) (Nat2Z.is_nonneg i)), Nat2Z.id.
  split.
  - intros link name -> Hq He. rewrite (paid_link_html_entry link name Hq He).
    cbn. unfold extend, log_call; cbn. by rewrite <- ?app_assoc.
  - intros ->. cbn. unfold extend, log_call; cbn. by rewrite <- ?app_assoc.
Qed.

End ListButtons.

(** ** The sample deployment, continued *)

Ltac by_computation :=
  first [ reflexivity | apply (bool_decide_unpack _); vm_compute; exact I ].

(** X1, witness: admin 5 answers the add-admin prompt. *)
Lemma id_wizards_are_owner_only_witness :
  handle_text_input Sample.cfg Sample.P Sample.fs
    (Sample.says Scene.helper "99") (Scene.helper_at awaiting_add_admin_id)
  = (consumed 5 (Scene.helper_at awaiting_add_admin_id), Ok tt).
Proof.
  apply (id_wizards_are_owner_only Sample.cfg Sample.P Sample.fs
           (Sample.says Scene.helper "99") Scene.helper awaiting_add_admin_id);
    by_computation.
Defined.

(** X2, witness: the owner answers the block prompt with a name. *)
Lemma id_wizards_reject_bad_id_witness :
  fst (handle_text_input Sample.cfg Sample.P Sample.fs
         (Sample.says Sample.the_owner "ravi") (Scene.owner_at awaiting_block_user_id))
  = log_call (send_message 7 InvalidUserId)
      (consumed 7 (Scene.owner_at awaiting_block_user_id)).
Proof.
  apply (id_wizards_reject_bad_id Sample.cfg Sample.P Sample.fs
           (Sample.says Sample.the_owner "ravi") Sample.the_owner awaiting_block_user_id);
    by_computation.
Defined.

(** X3, witness: the owner makes user 99 an admin. *)
Lemma add_admin_wizard_witness :
  99 ∈ ADMIN_IDS
         (bot (fst (handle_text_input Sample.cfg Sample.P Sample.fs
                      (Sample.says Sample.the_owner "99")
                      (Scene.owner_at awaiting_add_admin_id)))).
Proof.
  refine (proj1 (proj2 (add_admin_wizard Sample.cfg Sample.P Sample.fs
                          (Sample.says Sample.the_owner "99") Sample.the_owner 99
                          (Scene.owner_at awaiting_add_admin_id) _ _ _ _ _ _)));
    by_computation.
Defined.

(** X4, witness: the owner removes admin 5. *)
Lemma remove_admin_wizard_witness :
  5 ∉ ADMIN_IDS
        (bot (fst (handle_text_input Sample.cfg Sample.P Sample.fs
                     (Sample.says Sample.the_owner "5")
                     (Scene.owner_at awaiting_remove_admin_id)))).
Proof.
  refine (proj1 (proj2 (remove_admin_wizard Sample.cfg Sample.P Sample.fs
                          (Sample.says Sample.the_owner "5") Sample.the_owner 5
                          (Scene.owner_at awaiting_remove_admin_id) _ _ _ _ _ _)) _ _);
    by_computation.
Defined.

(** X5, witness: the owner unblocks user 13. *)
Lemma unblock_wizard_witness :
  bot (fst (handle_text_input Sample.cfg Sample.P Sample.fs
              (Sample.says Sample.the_owner "13")
              (Scene.owner_at awaiting_unblock_user_id)))
  = with_BLOCKED_USER_IDS ({[13]} ∖ {[13]}) (bot Sample.stocked).
Proof.
  refine (proj1 (unblock_wizard Sample.cfg Sample.P Sample.fs
                   (Sample.says Sample.the_owner "13") Sample.the_owner 13
                   (Scene.owner_at awaiting_unblock_user_id) _ _ _ _ _ _));
    by_computation.
Defined.

(** X6, witness: the owner makes the blocked user 13 an admin. *)
Lemma add_admin_ignores_block_list_witness :
  13 ∈ ADMIN_IDS
         (bot (fst (handle_text_input Sample.cfg Sample.P Sample.fs
                      (Sample.says Sample.the_owner "13")
                      (Scene.owner_at awaiting_add_admin_id))))
  /\ 13 ∈ BLOCKED_USER_IDS
            (bot (fst (handle_text_input Sample.cfg Sample.P Sample.fs
                         (Sample.says Sample.the_owner "13")
                         (Scene.owner_at awaiting_add_admin_id)))).
Proof.
  apply (add_admin_ignores_block_list Sample.cfg Sample.P Sample.fs
           (Sample.says Sample.the_owner "13") Sample.the_owner 13
           (Scene.owner_at awaiting_add_admin_id));
    by_computation.
Defined.

(** X8, witness: the owner presses the remove-paid-channel button. *)
Lemma ask_button_arms_wizard_witness :
  fst (button_handler Sample.cfg Sample.P Sample.fs
         (Sample.presses Sample.the_owner "ask_remove_paid_channel") Sample.stocked)
  = log_call (edit_message_text 7 (Prompt awaiting_remove_paid_channel_num))
      (armed 7 awaiting_remove_paid_channel_num
         (log_call (answer 7 None false) Sample.stocked)).
Proof.
  apply (ask_button_arms_wizard Sample.cfg Sample.P Sample.fs
           (Sample.presses Sample.the_owner "ask_remove_paid_channel")
           "remove_paid_channel" Sample.stocked);
    by_computation.
Defined.

(** X7, witness: the owner blocks and unblocks user 99. *)
Lemma block_then_unblock_witness :
  bot (fst (handle_text_input Sample.cfg Sample.P Sample.fs
              (Sample.says Sample.the_owner "99")
              (fst (button_handler Sample.cfg Sample.P Sample.fs
                      {| from_user := Sample.the_owner; data := "ask_unblock_user" |}
                      (fst (handle_text_input Sample.cfg Sample.P Sample.fs
                              (Sample.says Sample.the_owner "99")
                              (Scene.owner_at awaiting_block_user_id)))))))
  = bot (Scene.owner_at awaiting_block_user_id).
Proof.
  refine (proj2 (block_then_unblock Sample.cfg Sample.P Sample.fs
                   (Sample.says Sample.the_owner "99") (Sample.says Sample.the_owner "99")
                   Sample.the_owner 99 (Scene.owner_at awaiting_block_user_id)
                   _ _ _ _ _ _ _ _ _ _ _ _ _ _));
    by_computation.
Defined.

(** X9, witness: the owner removes the second free channel. *)
Lemma remove_free_channel_wizard_witness :
  (bot (fst (handle_text_input Sample.cfg Sample.P Sample.fs
               (Sample.says Sample.the_owner "2")
               (Scene.owner_at awaiting_remove_free_channel_num)))
   = with_FREE_CHANNEL_LINKS [(-1001, "https://t.me/+abc")]
       (with_FREE_CHANNELS [(-1001, "Batch A")] (bot Sample.stocked))
   /\ Dict.get (-1002)
        (FREE_CHANNELS
           (bot (fst (handle_text_input Sample.cfg Sample.P Sample.fs
                        (Sample.says Sample.the_owner "2")
                        (Scene.owner_at awaiting_remove_free_channel_num)))))
      = None)
  /\ next_step
       (ctx_of (fst (handle_text_input Sample.cfg Sample.P Sample.fs
                       (Sample.says Sample.the_owner "2")
                       (Scene.owner_at awaiting_remove_free_channel_num))) 7)
     = None.
Proof.
  refine (remove_free_channel_wizard Sample.cfg Sample.P Sample.fs
            (Sample.says Sample.the_owner "2") Sample.the_owner 2
            (Scene.owner_at awaiting_remove_free_channel_num) _ _ _ _ _ _);
    by_computation.
Defined.

(** X10, witness: the owner removes the only paid entry. *)
Lemma remove_paid_channel_wizard_witness :
  bot (fst (handle_text_input Sample.cfg Sample.P Sample.fs
              (Sample.says Sample.the_owner "1")
              (Scene.owner_at awaiting_remove_paid_channel_num)))
  = with_PAID_CHANNELS [] (bot Sample.stocked).
Proof.
  refine (proj1 (remove_paid_channel_wizard Sample.cfg Sample.P Sample.fs
                   (Sample.says Sample.the_owner "1") Sample.the_owner 1
                   (Scene.owner_at awaiting_remove_paid_channel_num) _ _ _ _ _));
    by_computation.
Defined.

(** X11, witness: the owner adds a third free channel. *)
Lemma free_channel_wizard_adds_witness :
  Dict.get (-1003)
    (FREE_CHANNELS
       (bot (fst (handle_text_input Sample.cfg Sample.P Sample.fs
                    (Sample.says Sample.the_owner "-1003")
                    (fst (handle_text_input Sample.cfg Sample.P Sample.fs
                            (Sample.says Sample.the_owner "https://t.me/+c")
                            (fst (handle_text_input Sample.cfg Sample.P Sample.fs
                                    (Sample.says Sample.the_owner "Batch C")
                                    (Scene.owner_at awaiting_free_channel_name)))))))))
  = Some "Batch C".
Proof.
  refine (proj1 (proj2 (proj2
            (free_channel_wizard_adds Sample.cfg Sample.P Sample.fs
               (Sample.says Sample.the_owner "Batch C")
               (Sample.says Sample.the_owner "https://t.me/+c")
               (Sample.says Sample.the_owner "-1003") Sample.the_owner (-1003)
               (Scene.owner_at awaiting_free_channel_name) _ _ _ _ _ _ _ _ _ _))));
    by_computation.
Defined.

(** X12, witness: the last step of the add-free-channel wizard. *)
Lemma dispatch_keeps_links_with_channels_witness :
  same_keys
    (bot (fst (dispatch Sample.cfg Sample.P Sample.fs
                 (TextMessage (Sample.says Sample.the_owner "-1001234567890"))
                 Sample.free_wizard_at_chat_id))).
Proof.
  apply (dispatch_keeps_links_with_channels Sample.cfg Sample.P Sample.fs).
  reflexivity.
Defined.

(** X13, witness: a broadcast on the stocked sample state. *)
Lemma broadcast_fan_out_witness :
  bot (fst (handle_text_input Sample.cfg Sample.P Sample.fs
              (Sample.says Sample.the_owner "Class at 6 pm")
              (Scene.owner_at awaiting_broadcast_message)))
  = bot (Scene.owner_at awaiting_broadcast_message).
Proof.
  refine (proj1 (broadcast_fan_out Sample.cfg Sample.P Sample.fs
                   (Sample.says Sample.the_owner "Class at 6 pm") Sample.the_owner
                   (Scene.owner_at awaiting_broadcast_message) _ _ _));
    by_computation.
Defined.

(** X14, witness: a post to the two free channels of the sample state. *)
Lemma post_fan_out_witness :
  exists (sent : nat) (failed : list string),
    bot (fst (handle_text_input Sample.cfg Sample.P Sample.fs
                (Sample.says Sample.the_owner "Class at 6 pm")
                (Scene.owner_at awaiting_post_message)))
    = bot (Scene.owner_at awaiting_post_message)
    /\ (sent + length failed = 2)%nat.
Proof.
  destruct (post_fan_out Sample.cfg Sample.P Sample.fs
              (Sample.says Sample.the_owner "Class at 6 pm") Sample.the_owner
              (Scene.owner_at awaiting_post_message))
    as (sent & failed & Hbot & _ & Hcount & _); [by_computation..|].
  exists sent, failed. split; [exact Hbot | exact Hcount].
Defined.

(** X15, witness: admin 5 writes while the owner's wizard is waiting. *)
Lemma contexts_are_per_user_witness :
  user_data (fst (dispatch Sample.cfg Sample.P Sample.fs
                    (TextMessage (Sample.says Scene.helper "Gold"))
                    (Scene.owner_at awaiting_paid_channel_name))) !! 7
  = user_data (Scene.owner_at awaiting_paid_channel_name) !! 7.
Proof.
  apply (contexts_are_per_user Sample.cfg Sample.P Sample.fs).
  vm_compute. discriminate.
Defined.

(** X16, witness: user 42 presses a forged remove-channel button. *)
Lemma regular_sender_changes_no_registry_witness :
  FREE_CHANNELS
    (bot (fst (dispatch Sample.cfg Sample.P Sample.fs
                 (ButtonPress (Sample.presses Sample.visitor "ask_remove_free_channel"))
                 Sample.stocked)))
  = FREE_CHANNELS (bot Sample.stocked).
Proof.
  refine (proj1 (proj2 (regular_sender_changes_no_registry Sample.cfg Sample.P Sample.fs
                          (ButtonPress
                             (Sample.presses Sample.visitor "ask_remove_free_channel"))
                          Sample.stocked _))).
  intros uid Huid. injection Huid as <-. split; by_computation.
Defined.

(** X17, witness: admin 5 answers the add-admin prompt. *)
Lemma only_the_owner_changes_roles_witness :
  ADMIN_IDS
    (bot (fst (dispatch Sample.cfg Sample.P Sample.fs
                 (TextMessage (Sample.says Scene.helper "99"))
                 (Scene.helper_at awaiting_add_admin_id))))
  = ADMIN_IDS (bot (Scene.helper_at awaiting_add_admin_id)).
Proof.
  refine (proj1 (only_the_owner_changes_roles Sample.cfg Sample.P Sample.fs
                   (TextMessage (Sample.says Scene.helper "99"))
                   (Scene.helper_at awaiting_add_admin_id) _)).
  vm_compute. discriminate.
Defined.

(** X18, witness: the owner tries to remove the owner. *)
Lemma dispatch_keeps_owner_admin_witness :
  owner_is_admin Sample.cfg
    (bot (fst (dispatch Sample.cfg Sample.P Sample.fs
                 (TextMessage (Sample.says Sample.the_owner "7"))
                 (Scene.owner_at awaiting_remove_admin_id)))).
Proof.
  apply (dispatch_keeps_owner_admin Sample.cfg Sample.P Sample.fs).
  unfold owner_is_admin. by_computation.
Defined.

(** X20, witness: user 42 blocks the bot. *)
Lemma track_user_status_on_block_witness :
  exists tr,
    track_user_status Sample.cfg Sample.P (Some Scene.visitor_blocks_bot) Sample.stocked
    = (extend (evicted 42 Sample.stocked)
         ([send_message (-1002) (UserBlockedBot "Ravi K" None 42)] ++ tr), Ok tt)
    /\ kick_trace Sample.P 42
         ([] ++ [send_message (-1002) (UserBlockedBot "Ravi K" None 42)])
         [-1001; -1002] tr.
Proof.
  apply (track_user_status_on_block Sample.cfg Sample.P Scene.visitor_blocks_bot
           Sample.stocked);
    first [ by_computation | right; reflexivity ].
Defined.

(** X21, witness: the moderator bans user 42 from the mandatory channel. *)
Lemma track_user_status_kicks_the_performer_witness :
  exists tr,
    track_user_status Sample.cfg Sample.P (Some Scene.visitor_banned) Sample.stocked
    = (extend Sample.stocked tr, Ok tt)
    /\ filter is_ban tr = [ban_chat_member (-1001) 77; ban_chat_member (-1002) 77]
    /\ Forall (fun c => kicked c <> Some 42) tr.
Proof.
  destruct (track_user_status_kicks_the_performer Sample.cfg Sample.P
              Scene.visitor_banned Sample.stocked)
    as (tr & Hrun & _ & Hbans & _ & Hnot);
    [ apply (bool_decide_unpack _); vm_compute; exact I | reflexivity
    | right; reflexivity | reflexivity | ].
  exists tr. split; [exact Hrun|]. split; [exact Hbans|].
  apply Hnot. vm_compute. discriminate.
Defined.

(** A member who leaves on their own is kicked; when the moderator bans the
    member, the calls are for the moderator. *)
Example sample_leave_and_ban :
  out (fst (track_user_status Sample.cfg Sample.P (Some Scene.visitor_leaves)
              Sample.stocked))
  = [ban_chat_member (-1001) 42; unban_chat_member (-1001) 42;
     ban_chat_member (-1002) 42; unban_chat_member (-1002) 42]
  /\ out (fst (track_user_status Sample.cfg Sample.P (Some Scene.visitor_banned)
                 Sample.stocked))
     = [ban_chat_member (-1001) 77; unban_chat_member (-1001) 77;
        ban_chat_member (-1002) 77; unban_chat_member (-1002) 77].
Proof. split; reflexivity. Qed.

(** X22, witness: admin 5 presses a leave button. *)
Lemma leave_chat_button_witness :
  bot (fst (button_handler Sample.cfg Sample.P Sample.fs
              (Sample.presses Sample.the_owner "leave_chat_-1001") Sample.stocked))
  = with_ACTIVE_CHATS [] (bot Sample.stocked)
  /\ edit_message_text 7 (JoinList [])
     ∈ out (fst (button_handler Sample.cfg Sample.P Sample.fs
                   (Sample.presses Sample.the_owner "leave_chat_-1001") Sample.stocked)).
Proof.
  refine (leave_chat_button Sample.cfg Sample.P Sample.fs
            (Sample.presses Sample.the_owner "leave_chat_-1001") "-1001" Sample.stocked
            _ _ _);
    by_computation.
Defined.

(** X23, witness: a removal that saves the data file. *)
Lemma handlers_write_only_the_data_file_witness :
  disk (fst (dispatch Sample.cfg Sample.P Sample.fs
               (TextMessage (Sample.says Sample.the_owner "1"))
               (Scene.owner_at awaiting_remove_paid_channel_num))) !! "/data/notes.txt"
  = disk (Scene.owner_at awaiting_remove_paid_channel_num) !! "/data/notes.txt".
Proof.
  apply (handlers_write_only_the_data_file Sample.cfg Sample.P Sample.fs).
  vm_compute. discriminate.
Defined.

(** X24, witness: the sample deployment without a [/data] directory. *)
Lemma bare_data_file_is_never_written_witness :
  disk (fst (dispatch Scene.cfg_bare Sample.P Sample.fs
               (TextMessage (Sample.says Sample.the_owner "1"))
               (Scene.owner_at awaiting_remove_paid_channel_num)))
  = disk (Scene.owner_at awaiting_remove_paid_channel_num)
  /\ disk (boot Scene.cfg_bare Sample.fs ∅) = ∅.
Proof.
  destruct (bare_data_file_is_never_written Scene.cfg_bare Sample.P Sample.fs
              (TextMessage (Sample.says Sample.the_owner "1"))
              (Scene.owner_at awaiting_remove_paid_channel_num) ∅)
    as (Hrun & Hboot & _); [left; reflexivity | reflexivity |].
  split; [exact Hrun | exact Hboot].
Defined.

(** X25, witness: first start of the stocked state. *)
Lemma load_data_without_file_witness :
  disk (fst (load_data Sample.cfg Sample.fs Sample.stocked)) !! DATA_FILE Sample.cfg
  = Some (dump (bot Sample.stocked)).
Proof.
  refine (proj2 (proj2 (load_data_without_file Sample.cfg Sample.fs Sample.stocked _)) _);
    by_computation.
Defined.

(** X26, witness: the damaged data file. *)
Lemma load_data_stops_at_bad_key_witness :
  load_data Sample.cfg Sample.fs Scene.before_damaged_load
  = (with_admins [7; 8] Scene.before_damaged_load, Ok tt).
Proof.
  apply (load_data_stops_at_bad_key Sample.cfg Sample.fs Scene.damaged
           Scene.before_damaged_load);
    by_computation.
Defined.

(** X27, witness: admin 5 sends the start command. *)
Lemma start_command_greets_by_role_witness :
  bot (fst (start_command Sample.cfg Sample.P (Sample.says Scene.helper "/start")
              Sample.stocked))
  = bot (upsert Scene.helper Sample.stocked).
Proof.
  refine (proj1 (start_command_greets_by_role Sample.cfg Sample.P
                   (Sample.says Scene.helper "/start") Scene.helper Sample.stocked _ _));
    by_computation.
Defined.

(** X28, witness: the paid entry of the sample state. *)
Lemma paid_entry_round_trip_witness :
  paid_link (html_entry "https://t.me/+xyz" "Gold") = Some "https://t.me/+xyz"
  /\ paid_name (html_entry "https://t.me/+xyz" "Gold") = Some "Gold".
Proof. apply (paid_entry_round_trip "https://t.me/+xyz" "Gold"); reflexivity. Defined.

(** X29, witness: user 42 presses the button of channel -1001. *)
Lemma free_channel_button_witness :
  fst (button_handler Sample.cfg Sample.P Sample.fs
         (Sample.presses Sample.visitor (join_free_data (-1001))) Sample.stocked)
  = extend Sample.stocked
      [answer 42 None false; delete_message 42;
       send_message 42 (JoinNow "https://t.me/+abc")].
Proof.
  apply (free_channel_button Sample.cfg Sample.P Sample.fs
           (Sample.presses Sample.visitor (join_free_data (-1001))) (-1001)
           Sample.stocked);
    by_computation.
Defined.

(** X30, witness: user 42 presses the button of the first paid entry. *)
Lemma paid_channel_button_witness :
  fst (button_handler Sample.cfg Sample.P Sample.fs
         (Sample.presses Sample.visitor (join_paid_data 0)) Sample.stocked)
  = extend Sample.stocked
      [answer 42 None false; delete_message 42;
       send_message 42 (JoinNowPaid "https://t.me/+xyz")].
Proof.
  refine (proj1 (paid_channel_button Sample.cfg Sample.P Sample.fs
                   (Sample.presses Sample.visitor (join_paid_data 0)) 0%nat
                   Sample.stocked _ _ _ _)
            "https://t.me/+xyz" "Gold" _ _ _);
    by_computation.
Defined.

(** A link with a single quote in it is cut at the quote when the entry is
    read back, and a name with a [<code>] tag in it at the tag. *)
Example paid_entry_with_quote :
  paid_link (html_entry "https://t.me/a'b" "Gold") = Some "https://t.me/a"
  /\ paid_name (html_entry "https://t.me/ab" "A<code>B") = Some "A".
Proof. split; reflexivity. Qed.
